(** * Thermostat field-savings engine: a shallow embedding of
      [thermostat_nw/core.py] and the properties checked against it.

    Numbers are IEEE-754 binary64 values (Rocq's primitive [float]), the
    type of every [numpy.float64] the Python code manipulates; a missing
    sample is the value [nan], as in pandas.  Exceptions are values of
    [exn] threaded through the [result] monad.  The numerical solvers of
    SciPy ([leastsq], [least_squares]) and the error function [erf] are
    arguments of the functions that call them. *)

From Stdlib Require Import ZArith List Bool Lia Floats DecimalString.
From Stdlib Require DecimalFacts DecimalPos DecimalZ.
From stdpp Require Import base strings gmap.
Import ListNotations.

Local Open Scope Z_scope.

(* ================================================================== *)
(** * Exceptions and the error monad *)

Inductive exn : Type :=
| ValueError
| IndexError
| TypeError
| NotImplementedError
| IndexingError
| ZeroDivisionError
| AssertionError
| AttributeError
| KeyError.

Inductive result (A : Type) : Type :=
| Ok (a : A)
| Raise (e : exn).
Arguments Ok {A} a.
Arguments Raise {A} e.

Definition rbind {A B} (m : result A) (k : A -> result B) : result B :=
  match m with
  | Ok a => k a
  | Raise e => Raise e
  end.

Notation "'let!' x ':=' m 'in' k" := (rbind m (fun x => k))
  (at level 10, x pattern, m at level 100, k at level 200).

Definition is_ok {A} (m : result A) : bool :=
  match m with Ok _ => true | Raise _ => false end.

(* ================================================================== *)
(** * numpy / pandas numerics on binary64 *)

Module Np.

Local Open Scope float_scope.

Definition isnan (x : float) : bool := PrimFloat.is_nan x.

(** [float(n)] of a count. *)
Definition of_nat (n : nat) : float :=
  PrimFloat.of_uint63 (Uint63.of_Z (Z.of_nat n)).

Definition of_Z (z : Z) : float :=
  if (z <? 0)%Z then - PrimFloat.of_uint63 (Uint63.of_Z (- z))
  else PrimFloat.of_uint63 (Uint63.of_Z z).

(** [np.sum] / [np.add.reduce]: the identity for an empty array, else the
    running sum from the first element on.  NaN propagates. *)
Definition sum (l : list float) : float :=
  match l with
  | [] => 0
  | x :: xs => fold_left PrimFloat.add xs x
  end.

(** [_replace_nan(arr, 0)] of [numpy.lib.nanfunctions] and
    [_get_values(..., fill_value=0)] of [pandas.core.nanops]. *)
Definition replace_nan (l : list float) : list float :=
  map (fun x => if isnan x then 0 else x) l.

Definition count_valid (l : list float) : nat :=
  length (filter (fun x => negb (isnan x)) l).

(** [np.nansum], and [Series.sum()] with its default [skipna=True]. *)
Definition nansum (l : list float) : float := sum (replace_nan l).

(** [np.nanmean], and [Series.mean()] with its default [skipna=True]:
    total of the valid entries over their count (0/0 = NaN when there is
    none). *)
Definition nanmean (l : list float) : float :=
  nansum l / of_nat (count_valid l).

(** [np.maximum(x, y)]: NaN wins. *)
Definition maximum (x y : float) : float :=
  if isnan x then x else if isnan y then y
  else if x <? y then y else x.

(** [x ** 0.5] on a [numpy.float64] is C's [pow(x, 0.5)]. *)
Definition pow_half (x : float) : float :=
  if x =? 0 then 0
  else if x =? neg_infinity then infinity
  else PrimFloat.sqrt x.

(** [np.divide] and [/] on [numpy.float64] scalars: IEEE division.  The
    module sets [np.seterr(divide="ignore", invalid="ignore")], so no
    warning and no exception comes out of it. *)
Definition divide (x y : float) : result float := Ok (x / y).

End Np.

(* ================================================================== *)
(** * Savings *)

(** A pandas [Series] of floats seen through its values only. *)
Definition mean (values : list float) : float := Np.nanmean values.

(** [avoided(baseline, observed)], element-wise on aligned series. *)
Definition avoided (baseline observed : list float) : list float :=
  map (fun p => (fst p - snd p)%float) (combine baseline observed).

(** [percent_savings(avoided, baseline, thermostat_id)]. *)
Definition percent_savings (avoided baseline : list float)
    (thermostat_id : string) : result float :=
  let! q := Np.divide (mean avoided) (mean baseline) in
  Ok (q * 100)%float.

(* ================================================================== *)
(** * Calendar: the fields of a [pandas.Timestamp] at hourly resolution *)

Record Date : Type := mkDate { year : Z; month : Z; day : Z }.

Record Timestamp : Type := mkTimestamp { date : Date; hour : Z }.

#[global] Instance Date_eq_dec : EqDecision Date.
Proof. solve_decision. Defined.

#[global] Instance Timestamp_eq_dec : EqDecision Timestamp.
Proof. solve_decision. Defined.

Module Calendar.

Definition is_leap_year (y : Z) : bool :=
  (y mod 4 =? 0) && (negb (y mod 100 =? 0) || (y mod 400 =? 0)).

Definition days_in_month (y m : Z) : Z :=
  if m =? 2 then (if is_leap_year y then 29 else 28)
  else if (m =? 4) || (m =? 6) || (m =? 9) || (m =? 11) then 30
  else 31.

(** Days of a common year that precede month [m]. *)
Definition days_before_month (m : Z) : Z :=
  nth (Z.to_nat (m - 1))
      [0; 31; 59; 90; 120; 151; 181; 212; 243; 273; 304; 334] 0.

(** [Timestamp.dayofyear]: 1 on January 1. *)
Definition dayofyear (d : Date) : Z :=
  days_before_month (month d) + day d
  + (if is_leap_year (year d) && (2 <? month d) then 1 else 0).

Definition valid_date (d : Date) : Prop :=
  1 <= month d <= 12 /\ 1 <= day d <= days_in_month (year d) (month d).

Definition valid_timestamp (t : Timestamp) : Prop :=
  valid_date (date t) /\ 0 <= hour t <= 23.

Definition date_compare (a b : Date) : comparison :=
  match year a ?= year b with
  | Eq => match month a ?= month b with
          | Eq => day a ?= day b
          | c => c
          end
  | c => c
  end.

Definition date_ltb (a b : Date) : bool :=
  match date_compare a b with Lt => true | _ => false end.

Definition date_leb (a b : Date) : bool :=
  match date_compare a b with Gt => false | _ => true end.

Definition date_max (a b : Date) : Date := if date_ltb a b then b else a.
Definition date_min (a b : Date) : Date := if date_ltb b a then b else a.

Definition next_day (d : Date) : Date :=
  if day d <? days_in_month (year d) (month d)
  then mkDate (year d) (month d) (day d + 1)
  else if month d <? 12 then mkDate (year d) (month d + 1) 1
  else mkDate (year d + 1) 1 1.

Definition next_hour (t : Timestamp) : Timestamp :=
  if hour t <? 23 then mkTimestamp (date t) (hour t + 1)
  else mkTimestamp (next_day (date t)) 0.

(** [pd.date_range(start=start, periods=periods, freq="H")]. *)
Fixpoint date_range_H (start : Timestamp) (periods : nat)
  : list Timestamp :=
  match periods with
  | O => []
  | S n => start :: date_range_H (next_hour start) n
  end.

Fixpoint days_until (fuel : nat) (d last : Date) : list Date :=
  match fuel with
  | O => []
  | S n => if date_leb d last then d :: days_until n (next_day d) last
           else []
  end.

(** The daily-frequency index from [first] to [last], both included. *)
Definition date_range_D (first last : Date) : list Date :=
  days_until (Z.to_nat ((year last - year first + 1) * 366)) first last.

(** Midnight of a day. *)
Definition midnight (d : Date) : Timestamp := mkTimestamp d 0.

End Calendar.

(* ================================================================== *)
(** * Series: a [pandas.Series] as its (label, value) rows, in order *)

Definition Series (L A : Type) : Type := list (L * A).

(** Hourly series are labelled by timestamps, daily series by dates. *)
Definition HSeries (A : Type) : Type := Series Timestamp A.
Definition DSeries (A : Type) : Type := Series Date A.

(** The order pandas sorts labels by when it has to align two indexes. *)
Class LabelOrder (L : Type) : Type := label_ltb : L -> L -> bool.

#[global] Instance Date_order : LabelOrder Date := Calendar.date_ltb.

#[global] Instance Timestamp_order : LabelOrder Timestamp :=
  fun a b =>
    Calendar.date_ltb (date a) (date b)
    || (bool_decide (date a = date b) && (hour a <? hour b)).

Module Pd.

Section Generic.
Context {L : Type} `{EqDecision L} {A : Type}.

Definition index (s : Series L A) : list L := List.map fst s.
Definition values (s : Series L A) : list A := List.map snd s.

(** Label look-up: the first row carrying the label. *)
Fixpoint lookup (s : Series L A) (l : L) : option A :=
  match s with
  | [] => None
  | (l', v) :: s' => if decide (l' = l) then Some v else lookup s' l
  end.

Definition empty (s : Series L A) : bool :=
  match s with [] => true | _ => false end.

(** [s.index[0]] and [s.index[-1]]. *)
Definition index_first (s : Series L A) : result L :=
  match s with
  | [] => Raise IndexError
  | (l, _) :: _ => Ok l
  end.

Definition index_last (s : Series L A) : result L :=
  match List.rev s with
  | [] => Raise IndexError
  | (l, _) :: _ => Ok l
  end.

(** [pd.Series(values, index=index)] for a plain array of values; the
    lengths must agree. *)
Definition make (idx : list L) (vals : list A) : Series L A :=
  combine idx vals.

Definition make_checked (idx : list L) (vals : list A)
  : result (Series L A) :=
  if Nat.eqb (length idx) (length vals) then Ok (make idx vals)
  else Raise ValueError.

Definition has_label (s : Series L A) (l : L) : bool :=
  match lookup s l with Some _ => true | None => false end.
End Generic.

Section Sorting.
Context {L : Type} `{EqDecision L} `{LabelOrder L}.

(** Distinct labels of a list, ascending. *)
Fixpoint insert_label (l : L) (ls : list L) : list L :=
  match ls with
  | [] => [l]
  | l' :: ls' =>
      if decide (l = l') then ls
      else if label_ltb l l' then l :: ls
      else l' :: insert_label l ls'
  end.

Definition sorted_labels (ls : list L) : list L :=
  fold_right insert_label [] ls.
End Sorting.

Section Arithmetic.
Context {L : Type} `{EqDecision L} `{LabelOrder L}.

Definition lookup_nan (s : Series L float) (l : L) : float :=
  match lookup s l with Some v => v | None => nan end.

(** [a - b] on two float Series: position by position when the two
    indexes are the same; otherwise pandas aligns the rows on the sorted
    union of the labels, a label one side lacks giving NaN. *)
Definition sub_series (a b : Series L float) : Series L float :=
  if decide (index a = index b)
  then List.map (fun p => (fst (fst p), (snd (fst p) - snd (snd p))%float))
         (combine a b)
  else List.map (fun l => (l, (lookup_nan a l - lookup_nan b l)%float))
         (sorted_labels (index a ++ index b)).

(** [s - arr] for a plain array [arr]: position by position (an array
    of one element is broadcast); other shapes do not fit. *)
Definition sub_array (s : Series L float) (arr : list float)
  : result (Series L float) :=
  if Nat.eqb (length arr) (length s)
  then Ok (List.map (fun p => (fst (fst p), (snd (fst p) - snd p)%float))
             (combine s arr))
  else match arr with
       | [a] => Ok (List.map (fun r => (fst r, (snd r - a)%float)) s)
       | _ => Raise ValueError
       end.
End Arithmetic.

Section Masks.
Context {L : Type} `{EqDecision L} `{LabelOrder L}.

Definition selected (mask : Series L bool) (l : L) : bool :=
  match lookup mask l with Some true => true | _ => false end.

Definition covered (mask : Series L bool) (l : L) : bool :=
  match lookup mask l with Some _ => true | None => false end.

(** [s[mask]] for a boolean Series [mask]: the mask is re-indexed on the
    labels of [s]; a label of [s] the mask does not carry makes pandas
    raise [IndexingError] ("Unalignable boolean Series"). *)
Definition getitem_mask {A} (s : Series L A) (mask : Series L bool)
  : result (Series L A) :=
  if forallb (fun r => covered mask (fst r)) s
  then Ok (List.filter (fun r => selected mask (fst r)) s)
  else Raise IndexingError.

(** [a & b] on two boolean Series: position by position when the two
    indexes are the same; otherwise pandas aligns the rows on the sorted
    union of the labels, and a side without the label counts as [False]. *)
Definition and_series (a b : Series L bool) : Series L bool :=
  if decide (index a = index b)
  then List.map (fun p => (fst (fst p), snd (fst p) && snd (snd p)))
         (combine a b)
  else List.map (fun l => (l, selected a l && selected b l))
         (sorted_labels (index a ++ index b)).

(** [a & True] / [a & False] with a Python bool. *)
Definition and_scalar (a : Series L bool) (b : bool) : Series L bool :=
  List.map (fun r => (fst r, snd r && b)) a.

(** [arr & s] for a plain boolean array [arr]: position by position,
    under the labels of [s]; the lengths must agree. *)
Definition and_array (arr : list bool) (s : Series L bool)
  : result (Series L bool) :=
  if Nat.eqb (length arr) (length s)
  then Ok (List.map (fun p => (fst (snd p), fst p && snd (snd p)))
             (combine arr s))
  else Raise ValueError.

(** [pd.Series(s, index=idx)]: re-index a Series on [idx]; a label [s]
    lacks yields a missing value, which is not [True]. *)
Definition reindex (s : Series L bool) (idx : list L) : Series L bool :=
  List.map (fun l => (l, selected s l)) idx.

(** [any(s)] over the values. *)
Definition any (s : Series L bool) : bool := existsb snd s.
End Masks.

(** Distinct dates of a list, ascending. *)
Definition sorted_dates (l : list Date) : list Date := sorted_labels l.

Definition on_date {A} (d : Date) (r : Timestamp * A) : bool :=
  bool_decide (date (fst r) = d).

(** [s.groupby(s.index.date)]: one group per calendar day present, in
    ascending order of the day, each with its rows in order. *)
Definition groupby_date {A} (s : HSeries A) : list (Date * list A) :=
  List.map (fun d => (d, List.map snd (List.filter (on_date d) s)))
    (sorted_dates (List.map (fun r => date (fst r)) s)).

(** [s.resample("D").agg(pd.Series.sum, skipna=False)] on a non-empty
    hourly series: one row per calendar day from the first to the last,
    holding the plain (NaN-propagating) sum of the day's samples. *)
Definition resample_D_sum (s : HSeries float) : DSeries float :=
  match s, List.rev s with
  | (t0, _) :: _, (t1, _) :: _ =>
      List.map (fun d => (d, Np.sum (List.map snd (List.filter (on_date d) s))))
        (Calendar.date_range_D (date t0) (date t1))
  | _, _ => []
  end.

(** [x.isnull().sum()] *)
Definition isnull_sum (l : list float) : Z :=
  Z.of_nat (length (List.filter Np.isnan l)).

(** ** [Series.interpolate(method="linear", limit=1, limit_direction="both")]

    pandas interpolates every missing sample from the valid ones with
    [np.interp] over the positions, then puts NaN back at the positions
    [_interp_limit] returns: with [limit=1] in both directions, those are
    the missing samples whose previous sample and whose next sample are
    both missing (or absent, at an end of the series). *)

Definition invalid_at (ys : list float) (i : Z) : bool :=
  if (i <? 0) || (Z.of_nat (length ys) <=? i) then true
  else Np.isnan (nth (Z.to_nat i) ys nan).

Definition preserve_nan (ys : list float) (i : Z) : bool :=
  invalid_at ys i && invalid_at ys (i - 1) && invalid_at ys (i + 1).

(** Nearest valid sample strictly before / after position [i]. *)
Fixpoint prev_valid (ys : list float) (pos : Z) (i : Z)
    (acc : option (Z * float)) : option (Z * float) :=
  match ys with
  | [] => acc
  | y :: ys' =>
      if i <=? pos then acc
      else prev_valid ys' (pos + 1) i
             (if Np.isnan y then acc else Some (pos, y))
  end.

Fixpoint next_valid (ys : list float) (pos : Z) (i : Z)
  : option (Z * float) :=
  match ys with
  | [] => None
  | y :: ys' =>
      if (i <? pos) && negb (Np.isnan y) then Some (pos, y)
      else next_valid ys' (pos + 1) i
  end.

(** [np.interp(i, xp, fp)] at a position [i] that is not one of [xp]:
    constant beyond the first and last valid sample, on the chord between
    the two neighbouring valid samples otherwise. *)
Definition np_interp (ys : list float) (i : Z) : float :=
  match prev_valid ys 0 i None, next_valid ys 0 i with
  | Some (j, yj), Some (k, yk) =>
      ((yk - yj) / (Np.of_Z k - Np.of_Z j) * (Np.of_Z i - Np.of_Z j) + yj)%float
  | None, Some (_, yk) => yk
  | Some (_, yj), None => yj
  | None, None => nan
  end.

Definition interpolate_values (ys : list float) : list float :=
  if forallb Np.isnan ys then List.map (fun _ => nan) ys
  else
    List.map (fun p =>
           let i := Z.of_nat (fst p) in
           if Np.isnan (snd p)
           then (if preserve_nan ys i then nan else np_interp ys i)
           else snd p)
      (combine (seq 0 (length ys)) ys).

Definition interpolate {L} (s : Series L float) : Series L float :=
  combine (List.map fst s) (interpolate_values (List.map snd s)).

End Pd.

(* ================================================================== *)
(** * The thermostat record *)

(** The predicates of [thermostat_nw.equipment_type] on a heat or cool
    type (the equipment taxonomy is an external collaborator). *)
Record EquipmentType : Type := mkEquipmentType {
  eq_has_heating : option string -> bool;
  eq_has_cooling : option string -> bool;
  eq_has_auxiliary : option string -> bool;
  eq_has_emergency : option string -> bool;
  eq_has_resistance_heat : option string -> bool
}.

Record Thermostat : Type := mkThermostat {
  thermostat_id : string;
  heat_type : option string;
  heat_stage : option string;
  cool_type : option string;
  cool_stage : option string;
  has_cooling : bool;
  has_heating : bool;
  has_auxiliary : bool;
  has_emergency : bool;
  has_resistance_heat : bool;
  zipcode : string;
  station : string;
  temperature_in : HSeries float;
  temperature_out : HSeries float;
  cool_runtime_hourly : option (HSeries float);
  heat_runtime_hourly : option (HSeries float);
  cool_runtime_daily : DSeries float;
  heat_runtime_daily : DSeries float;
  auxiliary_heat_runtime : option (HSeries float);
  emergency_heat_runtime : option (HSeries float);
  auxiliary_runtime_daily : DSeries float;
  emergency_runtime_daily : DSeries float;
  heating_demand : option (DSeries float);
  tau : option float
}.

(** [Thermostat._interpolate(series, method)]. *)
Definition _interpolate (series : HSeries float) (method : string)
  : HSeries float :=
  if negb (bool_decide (method = "linear")) then series
  else Pd.interpolate series.

(** The [hasattr(x, "empty") and x.empty is False] branches of
    [__init__]: [None] has no attribute [empty]. *)
Definition resample_runtime (runtime : option (HSeries float))
  : DSeries float :=
  match runtime with
  | Some s => if negb (Pd.empty s) then Pd.resample_D_sum s else []
  | None => []
  end.

Definition _validate_heating (self : Thermostat) : result unit :=
  if has_heating self then
    if Nat.eqb (length (heat_runtime_daily self)) 0 then Raise ValueError
    else Ok tt
  else Ok tt.

Definition _validate_cooling (self : Thermostat) : result unit :=
  if has_cooling self then
    if Nat.eqb (length (cool_runtime_daily self)) 0 then Raise ValueError
    else Ok tt
  else Ok tt.

Definition _validate_aux_emerg (self : Thermostat) : result unit :=
  if has_auxiliary self && has_emergency self then
    match auxiliary_heat_runtime self, emergency_heat_runtime self with
    | Some _, Some _ => Ok tt
    | _, _ => Raise ValueError
    end
  else Ok tt.

(** [Thermostat.validate]; the [validate_*_type] / [validate_*_stage]
    calls only emit warnings. *)
Definition validate (self : Thermostat) : result unit :=
  let! _ := _validate_heating self in
  let! _ := _validate_cooling self in
  _validate_aux_emerg self.

(** [Thermostat.find_baselines], as far as the arguments of the constructor
    decide it: the resource files are those of the installed package
    ([get_climate_zones], before it, recovers from a ZIP code the mapping
    lacks), and [self.heat_type.startswith("heat_pump")] is an
    [AttributeError] when the heat type is [None].  The frames it loads are
    arguments of the functions that read them. *)
Definition find_baselines (self : Thermostat) : result unit :=
  match heat_type self with
  | Some _ => Ok tt
  | None => Raise AttributeError
  end.

(** [Thermostat.__init__]. *)
Definition Thermostat__init__ (E : EquipmentType)
    (thermostat_id : string)
    (heat_type heat_stage cool_type cool_stage : option string)
    (zipcode station : string)
    (temperature_in temperature_out : HSeries float)
    (cool_runtime heat_runtime : option (HSeries float))
    (auxiliary_heat_runtime emergency_heat_runtime : option (HSeries float))
  : result Thermostat :=
  let self :=
    {| thermostat_id := thermostat_id;
       heat_type := heat_type;
       heat_stage := heat_stage;
       cool_type := cool_type;
       cool_stage := cool_stage;
       has_cooling := eq_has_cooling E cool_type;
       has_heating := eq_has_heating E heat_type;
       has_auxiliary := eq_has_auxiliary E heat_type;
       has_emergency := eq_has_emergency E heat_type;
       has_resistance_heat := eq_has_resistance_heat E heat_type;
       zipcode := zipcode;
       station := station;
       temperature_in := _interpolate temperature_in "linear";
       temperature_out := _interpolate temperature_out "linear";
       cool_runtime_hourly := cool_runtime;
       heat_runtime_hourly := heat_runtime;
       cool_runtime_daily := resample_runtime cool_runtime;
       heat_runtime_daily := resample_runtime heat_runtime;
       auxiliary_heat_runtime := auxiliary_heat_runtime;
       emergency_heat_runtime := emergency_heat_runtime;
       auxiliary_runtime_daily := resample_runtime auxiliary_heat_runtime;
       emergency_runtime_daily := resample_runtime emergency_heat_runtime;
       heating_demand := None;
       tau := None |} in
  let! _ := validate self in
  let! _ := find_baselines self in
  Ok self.

Definition _protect_heating (self : Thermostat) : result unit :=
  if negb (has_heating self) then Raise ValueError else Ok tt.

Definition _protect_cooling (self : Thermostat) : result unit :=
  if negb (has_cooling self) then Raise ValueError else Ok tt.

Definition _protect_resistance_heat (self : Thermostat) : result unit :=
  if negb (has_resistance_heat self) then Raise ValueError else Ok tt.

Definition _protect_aux_emerg (self : Thermostat) : result unit :=
  if negb (has_auxiliary self && has_emergency self) then Raise ValueError
  else Ok tt.

(* ================================================================== *)
(** * Core day sets *)

Record CoreDaySet : Type := mkCoreDaySet {
  name : string;
  daily : DSeries bool;
  hourly : HSeries bool;
  start_date : Date;
  end_date : Date
}.

(** ["{}".format(n)] for an integer. *)
Definition format_int (n : Z) : string :=
  NilZero.string_of_int (Z.to_int n).

(** [Thermostat._get_range_boolean]. *)
Definition _get_range_boolean (dt_index : list Date)
    (start_date end_date : Date) : list bool :=
  let after_start := List.map (fun d => Calendar.date_leb start_date d) dt_index in
  let before_end := List.map (fun d => Calendar.date_ltb d end_date) dt_index in
  List.map (fun p => fst p && snd p) (combine after_start before_end).

(** [np.repeat(values, 24)]. *)
Definition np_repeat {A} (values : list A) (n : nat) : list A :=
  flat_map (fun v => repeat v n) values.

(** [Thermostat._get_hourly_boolean]. *)
Definition _get_hourly_boolean (daily_boolean : DSeries bool)
  : result (HSeries bool) :=
  let values := np_repeat (Pd.values daily_boolean) 24 in
  let! first := Pd.index_first daily_boolean in
  let index :=
    Calendar.date_range_H (Calendar.midnight first)
      (length (Pd.index daily_boolean) * 24) in
  Ok (Pd.make index values).

(** [x.isnull().sum() <= 2] per calendar day of a temperature series. *)
Definition enough_temp (temperature : HSeries float) : DSeries bool :=
  List.map (fun g => (fst g, Pd.isnull_sum (snd g) <=? 2))
    (Pd.groupby_date temperature).

(** [series >= n] and [series <= n] for an integer threshold. *)
Definition ge_threshold (s : DSeries float) (n : Z) : DSeries bool :=
  List.map (fun r => (fst r, (Np.of_Z n <=? snd r)%float)) s.

Definition le_threshold (s : DSeries float) (n : Z) : DSeries bool :=
  List.map (fun r => (fst r, (snd r <=? Np.of_Z n)%float)) s.

(** [range(a, b)]. *)
Definition range (a b : Z) : list Z :=
  List.map (fun i => a + Z.of_nat i) (seq 0 (Z.to_nat (b - a))).

(** The body of the loop over the candidate periods, shared by the two
    period-based methods: clip the period to the data, intersect with the
    thresholds, and keep the period when some day is included. *)
Definition period_core_day_set (runtime_daily : DSeries float)
    (meets_thresholds : DSeries bool) (data_start_date data_end_date : Date)
    (name : string) (core_day_set_start_date core_day_set_end_date : Date)
  : result (list CoreDaySet) :=
  let start_date := Calendar.date_max core_day_set_start_date data_start_date in
  let end_date := Calendar.date_min core_day_set_end_date data_end_date in
  let in_range :=
    _get_range_boolean (Pd.index runtime_daily) start_date end_date in
  let! in_range_and_thresholds := Pd.and_array in_range meets_thresholds in
  let inclusion_daily :=
    Pd.reindex in_range_and_thresholds (Pd.index runtime_daily) in
  if Pd.any inclusion_daily then
    let! inclusion_hourly := _get_hourly_boolean inclusion_daily in
    Ok [mkCoreDaySet name inclusion_daily inclusion_hourly start_date end_date]
  else Ok [].

Fixpoint collect {A B} (f : A -> result (list B)) (l : list A)
  : result (list B) :=
  match l with
  | [] => Ok []
  | a :: l' =>
      let! x := f a in
      let! xs := collect f l' in
      Ok (x ++ xs)
  end.

(** [Thermostat.get_core_heating_days]. *)
Definition get_core_heating_days (self : Thermostat) (method : string)
    (min_minutes_heating max_minutes_cooling : Z)
  : result (list CoreDaySet) :=
  if negb (bool_decide (method = "year_mid_to_mid")
           || bool_decide (method = "entire_dataset"))
  then Raise NotImplementedError
  else
  let! _ := _protect_heating self in
  let meets_heating_thresholds :=
    ge_threshold (heat_runtime_daily self) min_minutes_heating in
  let meets_thresholds :=
    if has_cooling self
    then Pd.and_series meets_heating_thresholds
           (le_threshold (cool_runtime_daily self) max_minutes_cooling)
    else Pd.and_scalar meets_heating_thresholds true in
  let enough_temp_in := enough_temp (temperature_in self) in
  let enough_temp_out := enough_temp (temperature_out self) in
  let meets_thresholds :=
    Pd.and_series meets_thresholds
      (Pd.and_series enough_temp_in enough_temp_out) in
  let! data_start_date := Pd.index_first (heat_runtime_daily self) in
  let! data_end_date := Pd.index_last (heat_runtime_daily self) in
  if bool_decide (method = "year_mid_to_mid") then
    let start_year := year data_start_date - 1 in
    let end_year := year data_end_date + 1 in
    collect
      (fun start_year_ =>
         let end_year_ := start_year_ + 1 in
         period_core_day_set (heat_runtime_daily self) meets_thresholds
           data_start_date data_end_date
           ("heating_" ++ format_int start_year_ ++ "-" ++ format_int end_year_)
           (mkDate start_year_ 7 1) (mkDate end_year_ 7 1))
      (range start_year end_year)
  else
    let inclusion_daily :=
      Pd.reindex meets_thresholds (Pd.index (heat_runtime_daily self)) in
    let! inclusion_hourly := _get_hourly_boolean inclusion_daily in
    Ok [mkCoreDaySet "heating_ALL" inclusion_daily inclusion_hourly
          data_start_date data_end_date].

(** [Thermostat.get_core_cooling_days]. *)
Definition get_core_cooling_days (self : Thermostat) (method : string)
    (min_minutes_cooling max_minutes_heating : Z)
  : result (list CoreDaySet) :=
  if negb (bool_decide (method = "year_end_to_end")
           || bool_decide (method = "entire_dataset"))
  then Raise NotImplementedError
  else
  let! _ := _protect_cooling self in
  let! data_start_date := Pd.index_first (cool_runtime_daily self) in
  let! data_end_date := Pd.index_last (cool_runtime_daily self) in
  let meets_cooling_thresholds :=
    ge_threshold (cool_runtime_daily self) min_minutes_cooling in
  let meets_thresholds :=
    if has_heating self
    then Pd.and_series
           (le_threshold (heat_runtime_daily self) max_minutes_heating)
           meets_cooling_thresholds
    else Pd.and_scalar meets_cooling_thresholds true in
  let enough_temp_in := enough_temp (temperature_in self) in
  let enough_temp_out := enough_temp (temperature_out self) in
  let meets_thresholds :=
    Pd.and_series meets_thresholds
      (Pd.and_series enough_temp_in enough_temp_out) in
  if bool_decide (method = "year_end_to_end") then
    let start_year := year data_start_date in
    let end_year := year data_end_date in
    collect
      (fun year_ =>
         period_core_day_set (cool_runtime_daily self) meets_thresholds
           data_start_date data_end_date
           ("cooling_" ++ format_int year_)
           (mkDate year_ 1 1) (mkDate (year_ + 1) 1 1))
      (range start_year (end_year + 1))
  else
    let inclusion_daily :=
      Pd.reindex meets_thresholds (Pd.index (cool_runtime_daily self)) in
    let! inclusion_hourly := _get_hourly_boolean inclusion_daily in
    Ok [mkCoreDaySet "cooling_ALL" inclusion_daily inclusion_hourly
          data_start_date data_end_date].

(* ================================================================== *)
(** * Demand models *)

(** What [scipy.optimize.leastsq(..., full_output=1)] hands back, as the
    code reads it: [y[0][0]], [y[1]], [y[2]["nfev"]] and [y[3]]. *)
Record LeastSqResult : Type := mkLeastSqResult {
  lsq_x0 : float;
  lsq_cov_x : option (list (list float));
  lsq_nfev : Z;
  lsq_mesg : string
}.

(** The MINPACK driver behind [leastsq], for one free parameter. *)
Definition Minpack : Type :=
  (float -> result (list float)) -> float -> result LeastSqResult.

(** [scipy.optimize.leastsq(func, x0, full_output=1)] with a scalar [x0]:
    the residual function is evaluated at [x0] for its shape, and fewer
    residuals than parameters is a [TypeError] ("Improper input: N=1 must
    not exceed M=0"). *)
Definition leastsq (lmdif : Minpack) (func : float -> result (list float))
    (x0 : float) : result LeastSqResult :=
  let! shape := func x0 in
  if Nat.ltb (length shape) 1 then Raise TypeError
  else lmdif func x0.

(** A slot of the returned tuple that holds either NaN or a solver
    diagnostic. *)
Inductive diagnostic : Type :=
| DiagNaN
| DiagCov (cov_x : list (list float))
| DiagInt (nfev : Z)
| DiagStr (mesg : string).

Record DemandModelResult : Type := mkDemandModelResult {
  dm_demand : DSeries float;
  dm_tau : float;
  dm_alpha : float;
  dm_mse : float;
  dm_rmse : float;
  dm_cvrmse : float;
  dm_mape : float;
  dm_mae : float;
  dm_cov_x : diagnostic;
  dm_nfev : diagnostic;
  dm_mesg : diagnostic
}.

(** The daily demand of [calc_cdd] / [calc_hdd]: [hourly_dd tau deltaT]
    floored at zero, summed (NaN skipped) per calendar day, over 24. *)
Definition calc_dd (hourly_dd : float -> float -> float)
    (core_day_set_deltaT : HSeries float) (tau : float) : list float :=
  let hourly :=
    List.map (fun r => (fst r, Np.maximum (hourly_dd tau (snd r)) 0))
      core_day_set_deltaT in
  List.map (fun g => (Np.nansum (snd g) / 24)%float) (Pd.groupby_date hourly).

(** [calc_estimates(tau)]. *)
Definition calc_estimates (hourly_dd : float -> float -> float)
    (core_day_set_deltaT : HSeries float) (daily_runtime : DSeries float)
    (total_runtime : float) (tau : float)
  : result (list float * float * DSeries float) :=
  let dd := calc_dd hourly_dd core_day_set_deltaT tau in
  let total_dd := Np.sum dd in
  let alpha_estimate :=
    if negb (total_dd =? 0)%float then (total_runtime / total_dd)%float
    else nan in
  let runtime_estimate := List.map (fun d => (d * alpha_estimate)%float) dd in
  let! errors := Pd.sub_array daily_runtime runtime_estimate in
  Ok (dd, alpha_estimate, errors).

Definition estimate_errors (hourly_dd : float -> float -> float)
    (core_day_set_deltaT : HSeries float) (daily_runtime : DSeries float)
    (total_runtime : float) (tau_estimate : float) : result (list float) :=
  let! (_, _, errors) :=
    calc_estimates hourly_dd core_day_set_deltaT daily_runtime
      total_runtime tau_estimate in
  Ok (Pd.values errors).

Definition nan_demand_result (demand : DSeries float) : DemandModelResult :=
  mkDemandModelResult demand nan nan nan nan nan nan nan
    DiagNaN DiagNaN DiagNaN.

(** The common body of [get_cooling_demand] and [get_heating_demand]
    after the capability guard; the two differ in the sign of the hourly
    degree measure and in the runtime series they fit. *)
Definition fit_demand (lmdif : Minpack) (self : Thermostat)
    (hourly_dd : float -> float -> float) (runtime_daily : DSeries float)
    (core_day_set : CoreDaySet) : result DemandModelResult :=
  let! core_day_set_temp_in :=
    Pd.getitem_mask (temperature_in self) (hourly core_day_set) in
  let! core_day_set_temp_out :=
    Pd.getitem_mask (temperature_out self) (hourly core_day_set) in
  let core_day_set_deltaT :=
    Pd.sub_series core_day_set_temp_in core_day_set_temp_out in
  let! daily_selected :=
    Pd.getitem_mask (daily core_day_set) (daily core_day_set) in
  let daily_index := Pd.index daily_selected in
  let! daily_runtime := Pd.getitem_mask runtime_daily (daily core_day_set) in
  let total_runtime := Np.nansum (Pd.values daily_runtime) in
  let tau_starting_guess := 0%float in
  match leastsq lmdif
          (estimate_errors hourly_dd core_day_set_deltaT daily_runtime
             total_runtime)
          tau_starting_guess with
  | Raise TypeError =>
      (* len 0 *)
      if negb (Nat.eqb (length daily_runtime) 0) then Raise AssertionError
      else
        let! demand := Pd.make_checked daily_index [] in
        Ok (nan_demand_result demand)
  | Raise e => Raise e
  | Ok y =>
      let tau_estimate := lsq_x0 y in
      let! (dd, alpha_estimate, errors) :=
        calc_estimates hourly_dd core_day_set_deltaT daily_runtime
          total_runtime tau_estimate in
      let errors := Pd.values errors in
      let mse := Np.nanmean (List.map (fun e => (e * e)%float) errors) in
      let rmse := Np.pow_half mse in
      let mean_daily_runtime := Np.nanmean (Pd.values daily_runtime) in
      let cov_x :=
        match lsq_cov_x y with Some c => c | None => [[]] end in
      let nfev := lsq_nfev y in
      let mesg := lsq_mesg y in
      let! cvrmse :=
        match Np.divide rmse mean_daily_runtime with
        | Raise ZeroDivisionError => Ok nan
        | r => r
        end in
      let mape :=
        Np.nanmean
          (List.map (fun e => PrimFloat.abs (e / mean_daily_runtime)) errors) in
      let mae := Np.nanmean (List.map PrimFloat.abs errors) in
      let! demand := Pd.make_checked daily_index dd in
      Ok (mkDemandModelResult demand tau_estimate alpha_estimate mse rmse
            cvrmse mape mae (DiagCov cov_x) (DiagInt nfev) (DiagStr mesg))
  end.

(** [Thermostat.get_cooling_demand]: hourly degree measure
    [max(tau - deltaT, 0)]. *)
Definition get_cooling_demand (lmdif : Minpack) (self : Thermostat)
    (core_cooling_day_set : CoreDaySet) : result DemandModelResult :=
  let! _ := _protect_cooling self in
  fit_demand lmdif self (fun tau deltaT => (tau - deltaT)%float)
    (cool_runtime_daily self) core_cooling_day_set.

(** [Thermostat.get_heating_demand]: hourly degree measure
    [max(deltaT - tau, 0)]. *)
Definition get_heating_demand (lmdif : Minpack) (self : Thermostat)
    (core_heating_day_set : CoreDaySet) : result DemandModelResult :=
  let! _ := _protect_heating self in
  fit_demand lmdif self (fun tau deltaT => (deltaT - tau)%float)
    (heat_runtime_daily self) core_heating_day_set.

(* ================================================================== *)
(** * Resistance heat utilization bins *)

Definition VAR_MIN_RHU_RUNTIME : Z := 30 * 60.

Definition RESISTANCE_HEAT_USE_BINS_MIN_TEMP : Z := 0.
Definition RESISTANCE_HEAT_USE_BINS_MAX_TEMP : Z := 60.
Definition RESISTANCE_HEAT_USE_BIN_TEMP_WIDTH : Z := 5.

(** [range(start, stop, step)] for a positive step. *)
Definition range_step (start stop step : Z) : list Z :=
  List.map (fun i => start + Z.of_nat i * step)
    (seq 0 (Z.to_nat ((stop - start + step - 1) / step))).

Definition RESISTANCE_HEAT_USE_BIN : list Z :=
  range_step RESISTANCE_HEAT_USE_BINS_MIN_TEMP
    (RESISTANCE_HEAT_USE_BINS_MAX_TEMP + RESISTANCE_HEAT_USE_BIN_TEMP_WIDTH)
    RESISTANCE_HEAT_USE_BIN_TEMP_WIDTH.

Definition RESISTANCE_HEAT_USE_WIDE_BIN : list Z := [30; 45].

(** A row of the frame [get_resistance_heat_utilization_runtime] builds. *)
Record RuntimeTempRow : Type := mkRuntimeTempRow {
  rt_temperature : float;
  rt_heat_runtime : float;
  rt_aux_runtime : float;
  rt_emg_runtime : float;
  rt_total_minutes : float
}.

Definition RuntimeTemp : Type := list (Date * RuntimeTempRow).

(** A [pandas.Interval] [(left, right]] between two bin edges. *)
Record Interval : Type := mkInterval { left : Z; right : Z }.

(** A row of the binned frame the function returns, indexed by its bin. *)
Record RhuRow : Type := mkRhuRow {
  rhu_bin : Interval;
  rhu_heat_runtime : float;
  rhu_aux_runtime : float;
  rhu_emg_runtime : float;
  rhu_total_minutes : float;
  rhu_rhu : float;
  rhu_total_runtime : float;
  rhu_data_is_nonsense : bool
}.

(** The arguments of one [warnings.warn] call of the function. *)
Record RhuWarning : Type := mkRhuWarning {
  w_aux_runtime : float;
  w_heat_runtime : float;
  w_left : Z;
  w_right : Z;
  w_thermostat_id : string;
  w_start_date : Date;
  w_end_date : Date
}.

Fixpoint strictly_increasing (bins : list Z) : bool :=
  match bins with
  | a :: ((b :: _) as rest) => (a <? b) && strictly_increasing rest
  | _ => true
  end.

(** The categories of [pd.cut(x, bins)] for a list of edges: the
    right-closed intervals between consecutive edges.  Edges that do not
    increase are a [ValueError]. *)
Definition cut_intervals (bins : list Z) : result (list Interval) :=
  if strictly_increasing bins
  then Ok (List.map (fun p => mkInterval (fst p) (snd p))
             (combine bins (tl bins)))
  else Raise ValueError.

(** Membership of a value in a category; NaN falls in none. *)
Definition in_interval (iv : Interval) (x : float) : bool :=
  ((Np.of_Z (left iv) <? x) && (x <=? Np.of_Z (right iv)))%float.

(** [if min_runtime_minutes:] *)
Definition truthy (n : option Z) : bool :=
  match n with Some m => negb (m =? 0) | None => false end.

(** One row of [runtime_temp.groupby("bins")[...].sum()] followed by the
    column computations of the function, in their order. *)
Definition rhu_row (runtime_temp : RuntimeTemp)
    (min_runtime_minutes : option Z) (iv : Interval) : RhuRow :=
  let rows :=
    List.filter (fun r => in_interval iv (rt_temperature (snd r))) runtime_temp in
  let heat_runtime := Np.nansum (List.map (fun r => rt_heat_runtime (snd r)) rows) in
  let aux_runtime := Np.nansum (List.map (fun r => rt_aux_runtime (snd r)) rows) in
  let emg_runtime := Np.nansum (List.map (fun r => rt_emg_runtime (snd r)) rows) in
  let total_minutes := Np.nansum (List.map (fun r => rt_total_minutes (snd r)) rows) in
  let rhu := ((aux_runtime + emg_runtime) / (heat_runtime + emg_runtime))%float in
  let total_runtime := (heat_runtime + aux_runtime + emg_runtime)%float in
  let below :=
    match min_runtime_minutes with
    | Some m => truthy min_runtime_minutes && (total_runtime <? Np.of_Z m)%float
    | None => false
    end in
  let rhu := if below then nan else rhu in
  let total_runtime' := if below then nan else total_runtime in
  let data_is_nonsense := (heat_runtime <? aux_runtime)%float in
  let rhu := if data_is_nonsense then nan else rhu in
  mkRhuRow iv heat_runtime aux_runtime emg_runtime total_minutes rhu
    total_runtime' data_is_nonsense.

Definition rhu_warning (self : Thermostat) (core_heating_day_set : CoreDaySet)
    (item : RhuRow) : RhuWarning :=
  mkRhuWarning (rhu_aux_runtime item) (rhu_heat_runtime item)
    (left (rhu_bin item)) (right (rhu_bin item)) (thermostat_id self)
    (start_date core_heating_day_set) (end_date core_heating_day_set).

(** [Thermostat.get_resistance_heat_utilization_bins]: the binned frame
    (or [None]) together with the warnings emitted on the way. *)
Definition get_resistance_heat_utilization_bins (self : Thermostat)
    (runtime_temp : option RuntimeTemp) (bins : list Z)
    (core_heating_day_set : CoreDaySet) (min_runtime_minutes : option Z)
  : result (option (list RhuRow) * list RhuWarning) :=
  let! _ := _protect_resistance_heat self in
  let! _ := _protect_aux_emerg self in
  match runtime_temp with
  | None => Ok (None, [])
  | Some runtime_temp =>
      let! categories := cut_intervals bins in
      let runtime_rhu :=
        List.map (rhu_row runtime_temp min_runtime_minutes) categories in
      let warned :=
        if existsb rhu_data_is_nonsense runtime_rhu
        then List.map (rhu_warning self core_heating_day_set)
               (List.filter rhu_data_is_nonsense runtime_rhu)
        else [] in
      Ok (Some runtime_rhu, warned)
  end.

(* ================================================================== *)
(** * Hourly regional baseline: the hour-of-year key *)

(** [df["leap_adjustment"]] of [get_baseline_hourly_cooling_demand] and
    [get_baseline_hourly_heating_demand]. *)
Definition leap_adjustment (t : Timestamp) : bool :=
  Calendar.is_leap_year (year (date t))
  && (59 <=? Calendar.dayofyear (date t)).

(** [df["hour_of_year"]]; a [True] adjustment counts as 1. *)
Definition hour_of_year (t : Timestamp) : Z :=
  1 + hour t
  + (Calendar.dayofyear (date t) - 1 - (if leap_adjustment t then 1 else 0)) * 24.

(** The baseline table: its [hour_of_year] and [temperature_in] columns. *)
Definition BaselineTable : Type := list (Z * float).

(** [df.merge(temp_baseline, on="hour_of_year")]: the inner join, in the
    order of the left rows; each row keeps its outdoor temperature and
    gains the matching baseline temperature. *)
Definition merge_baseline (df : list (Timestamp * float * Z))
    (temp_baseline : BaselineTable) : list (float * float) :=
  flat_map (fun row =>
              List.map (fun b => (snd b, snd (fst row)))
                (List.filter (fun b => fst b =? snd row) temp_baseline))
    df.

(** The common body of the two hourly-baseline demand functions. *)
Definition baseline_hourly_demand (self : Thermostat)
    (hourly_dd : float -> float -> float) (core_day_set : CoreDaySet)
    (temp_baseline : BaselineTable) (tau : float)
  : result (DSeries float) :=
  let! hourly_temp_out :=
    Pd.getitem_mask (temperature_out self) (hourly core_day_set) in
  if Nat.eqb (length hourly_temp_out) 0 then Ok []
  else
    let df :=
      List.map (fun r => (fst r, snd r, hour_of_year (fst r))) hourly_temp_out in
    let merged := merge_baseline df temp_baseline in
    let hourly :=
      List.map (fun m => Np.maximum (hourly_dd tau (fst m - snd m)%float) 0)
        merged in
    if negb (Nat.eqb (length hourly) (length hourly_temp_out))
    then Raise ValueError
    else
      let demand :=
        List.map (fun g => (Np.nansum (snd g) / 24)%float)
          (Pd.groupby_date (combine (Pd.index hourly_temp_out) hourly)) in
      let! daily_selected :=
        Pd.getitem_mask (daily core_day_set) (daily core_day_set) in
      Pd.make_checked (Pd.index daily_selected) demand.

Definition get_baseline_hourly_cooling_demand (self : Thermostat)
    (core_cooling_day_set : CoreDaySet) (temp_baseline : BaselineTable)
    (tau : float) : result (DSeries float) :=
  let! _ := _protect_cooling self in
  baseline_hourly_demand self (fun tau deltaT => (tau - deltaT)%float)
    core_cooling_day_set temp_baseline tau.

Definition get_baseline_hourly_heating_demand (self : Thermostat)
    (core_heating_day_set : CoreDaySet) (temp_baseline : BaselineTable)
    (tau : float) : result (DSeries float) :=
  let! _ := _protect_heating self in
  baseline_hourly_demand self (fun tau deltaT => (deltaT - tau)%float)
    core_heating_day_set temp_baseline tau.

(* ================================================================== *)
(** * Sigmoid fit of resistance heat utilization *)

(** A binned [DataFrame]: its interval index and its float columns by
    name.  Frames are Python objects: they live in a [heap] and are passed
    by reference. *)
Record DataFrame : Type := mkDataFrame {
  df_index : list Interval;
  df_columns : gmap string (list float)
}.

Definition loc : Type := positive.
Definition heap : Type := gmap loc DataFrame.

Definition df_column (df : DataFrame) (c : string) : result (list float) :=
  match df_columns df !! c with
  | Some v => Ok v
  | None => Raise AttributeError
  end.

(** [df[c] = values] *)
Definition df_setitem (df : DataFrame) (c : string) (v : list float)
  : DataFrame :=
  mkDataFrame (df_index df) (<[c := v]> (df_columns df)).

Definition keep_rows {A} (keep : list bool) (l : list A) : list A :=
  List.map snd (List.filter fst (combine keep l)).

Definition df_keep (df : DataFrame) (keep : list bool) : DataFrame :=
  mkDataFrame (keep_rows keep (df_index df))
    (keep_rows keep <$> df_columns df).

Definition row_has_nan (df : DataFrame) (i : nat) : bool :=
  existsb (fun kv => Np.isnan (nth i (snd kv) 0%float))
    (map_to_list (df_columns df)).

(** [df.dropna()]: the rows without a missing value. *)
Definition dropna (df : DataFrame) : DataFrame :=
  df_keep df
    (List.map (fun i => negb (row_has_nan df i)) (seq 0 (length (df_index df)))).

(** [Interval.mid] *)
Definition mid (iv : Interval) : float :=
  (0.5 * (Np.of_Z (left iv) + Np.of_Z (right iv)))%float.

(** The curve [0.5 * (1 - erf((t - mu) / (sigma * sqrt(2))))]. *)
Definition sigmoid (erf : float -> float) (mu sigma t : float) : float :=
  (0.5 * (1 - erf ((t - mu) / (sigma * PrimFloat.sqrt 2))))%float.

(** The nested [calc_estimates(parameters, runtime_rhu)] of
    [fit_sigmoid_model]. *)
Definition fit_sigmoid_model_calc_estimates (erf : float -> float)
    (n_points_threshold : Z) (parameters : list float)
    (runtime_rhu : DataFrame) : result float :=
  let! mu := match nth_error parameters 0 with
             | Some v => Ok v | None => Raise IndexError end in
  let! sigma := match nth_error parameters 1 with
                | Some v => Ok v | None => Raise IndexError end in
  let rhu := dropna runtime_rhu in
  let! n_points := df_column rhu "n_points" in
  let rhu :=
    df_keep rhu
      (List.map (fun n => (Np.of_Z n_points_threshold <? n)%float) n_points) in
  let temperatures := List.map mid (df_index rhu) in
  let function_fit := List.map (sigmoid erf mu sigma) temperatures in
  let! rhu_values := df_column rhu "rhu" in
  let errors :=
    List.map (fun p => ((fst p - snd p) * (fst p - snd p))%float)
      (combine function_fit rhu_values) in
  let! n_points := df_column rhu "n_points" in
  Ok (PrimFloat.sqrt (Np.sum errors / Np.sum n_points)).

(** The trust-region driver behind [scipy.optimize.least_squares]. *)
Definition TrustRegion : Type :=
  (list float -> result float) -> list float -> result (list float).

Definition isfinite (x : float) : bool :=
  negb (Np.isnan x) && negb (PrimFloat.is_infinity x).

(** [scipy.optimize.least_squares(fun, x0, kwargs=...)], returning [y.x]:
    the residual is first evaluated at [x0] and must be finite there
    ([ValueError] otherwise). *)
Definition least_squares (trf : TrustRegion)
    (fun_ : list float -> result float) (x0 : list float)
  : result (list float) :=
  let! f0 := fun_ x0 in
  if isfinite f0 then trf fun_ x0 else Raise ValueError.

Definition deref (h : heap) (l : loc) : result DataFrame :=
  match h !! l with
  | Some df => Ok df
  | None => Raise AttributeError
  end.

(** The [try] block of [fit_sigmoid_model], as a computation on the heap
    that may raise after having written to it. *)
Definition fit_sigmoid_model_try (trf : TrustRegion) (erf : float -> float)
    (runtime_rhu : loc) (n_points_threshold : Z) (h : heap)
  : heap * result (float * float * float * float) :=
  let initial_parameters := [30; 5]%float in
  match
    (let! df := deref h runtime_rhu in
     let! y_x :=
       least_squares trf
         (fun parameters =>
            fit_sigmoid_model_calc_estimates erf n_points_threshold
              parameters df)
         initial_parameters in
     let! mu_estimate := match nth_error y_x 0 with
                         | Some v => Ok v | None => Raise IndexError end in
     let! sigma_estimate := match nth_error y_x 1 with
                            | Some v => Ok v | None => Raise IndexError end in
     let! sigmoid_model_error :=
       fit_sigmoid_model_calc_estimates erf n_points_threshold y_x df in
     Ok (df, mu_estimate, sigma_estimate, sigmoid_model_error))
  with
  | Raise e => (h, Raise e)
  | Ok (df, mu_estimate, sigma_estimate, sigmoid_model_error) =>
      let estimated_rhu :=
        List.map (fun x => sigmoid erf mu_estimate sigma_estimate (mid x))
          (df_index df) in
      let df' := df_setitem df "estimated_rhu" estimated_rhu in
      let h' := <[runtime_rhu := df']> h in
      (h',
       let! column := df_column df' "estimated_rhu" in
       Ok (mu_estimate, sigma_estimate, sigmoid_model_error,
           Np.nansum column))
  end.

(** [Thermostat.fit_sigmoid_model(runtime_rhu, n_points_threshold)]: the
    heap after the call and the four returned values ([None] as [None]). *)
Definition fit_sigmoid_model (trf : TrustRegion) (erf : float -> float)
    (runtime_rhu : loc) (n_points_threshold : Z) (h : heap)
  : heap * (option float * option float * option float * option float) :=
  match fit_sigmoid_model_try trf erf runtime_rhu n_points_threshold h with
  | (h', Ok (mu_estimate, sigma_estimate, sigmoid_model_error,
             sigmoid_integral)) =>
      (h', (Some mu_estimate, Some sigma_estimate, Some sigmoid_model_error,
            Some sigmoid_integral))
  | (h', Raise _) => (h', (None, None, None, None))
  end.

(* ================================================================== *)
(** * Specification vocabulary and example data *)

Local Open Scope nat_scope.

(** Membership of a label in an index. *)
Definition label_in {L} `{EqDecision L} (l : L) (idx : list L) : bool :=
  existsb (fun l' => bool_decide (l' = l)) idx.

Definition ex_baseline : list float := [100; 200]%float.
Definition ex_avoided : list float := [10; 20]%float.

(** The mean of the element-wise ratios, for comparison with
    [percent_savings]. *)
Definition mean_of_ratios (a b : list float) : float :=
  (mean (List.map (fun p => (fst p / snd p)%float) (combine a b)) * 100)%float.

(** The nearest valid sample before (after) position [i] of [ys] sits at
    position [j] ([k]); or there is none on that side. *)
Definition nearest_valid_before (ys : list float) (i j : nat) : Prop :=
  j < i /\ Np.isnan (nth j ys nan) = false /\
  forall m, j < m < i -> Np.isnan (nth m ys nan) = true.

Definition nearest_valid_after (ys : list float) (i k : nat) : Prop :=
  i < k < length ys /\ Np.isnan (nth k ys nan) = false /\
  forall m, i < m < k -> Np.isnan (nth m ys nan) = true.

Definition no_valid_before (ys : list float) (i : nat) : Prop :=
  forall m, m < i -> Np.isnan (nth m ys nan) = true.

Definition no_valid_after (ys : list float) (i : nat) : Prop :=
  forall m, i < m < length ys -> Np.isnan (nth m ys nan) = true.

(** The chord through the samples at positions [j] and [k], read at
    position [i]. *)
Definition chord (ys : list float) (j k i : nat) : float :=
  ((nth k ys nan - nth j ys nan)
   / (Np.of_Z (Z.of_nat k) - Np.of_Z (Z.of_nat j))
   * (Np.of_Z (Z.of_nat i) - Np.of_Z (Z.of_nat j))
   + nth j ys nan)%float.

(** What [limit=1, limit_direction="both"] does to a series [ys], written
    on the result [out]: valid samples are kept; a missing sample between
    two missing (or absent) samples stays missing; a missing sample next to
    a valid one is overwritten with the linear interpolant, which is the
    chord through the nearest valid sample on each side, or the nearest
    valid sample itself when one side has none -- for a gap of exactly one
    sample, the chord between its two neighbours. *)
Definition interpolated_limit_one_both (ys out : list float) : Prop :=
  length out = length ys /\
  forall i : nat, i < length ys ->
    let z := Z.of_nat i in
    (Np.isnan (nth i ys nan) = false -> nth i out nan = nth i ys nan) /\
    (Np.isnan (nth i ys nan) = true ->
     Pd.invalid_at ys (z - 1) = true -> Pd.invalid_at ys (z + 1) = true ->
     nth i out nan = nan) /\
    (Np.isnan (nth i ys nan) = true ->
     Pd.invalid_at ys (z - 1) = false \/ Pd.invalid_at ys (z + 1) = false ->
     (forall j k, nearest_valid_before ys i j -> nearest_valid_after ys i k ->
        nth i out nan = chord ys j k i) /\
     (forall k, no_valid_before ys i -> nearest_valid_after ys i k ->
        nth i out nan = nth k ys nan /\ Np.isnan (nth i out nan) = false) /\
     (forall j, nearest_valid_before ys i j -> no_valid_after ys i ->
        nth i out nan = nth j ys nan /\ Np.isnan (nth i out nan) = false)) /\
    (Np.isnan (nth i ys nan) = true ->
     Pd.invalid_at ys (z - 1) = false -> Pd.invalid_at ys (z + 1) = false ->
     nth i out nan = chord ys (i - 1) (i + 1) i).

(** An hourly series from its first timestamp and its samples. *)
Definition hourly_series {A} (start : Timestamp) (vals : list A)
  : HSeries A :=
  combine (Calendar.date_range_H start (length vals)) vals.

(** A taxonomy in which heating (cooling) is present exactly when a heat
    (cool) type is given, without resistance heat; the fixture
    [thermostat_template] gives no type. *)
Definition typed_equipment : EquipmentType :=
  mkEquipmentType
    (fun t => bool_decide (t <> None)) (fun t => bool_decide (t <> None))
    (fun _ => false) (fun _ => false) (fun _ => false).

Definition ts_2020_06_29 : Timestamp := mkTimestamp (mkDate 2020 6 29) 0.

(** Indoor temperature with a gap of two consecutive missing hours. *)
Definition gap_of_two : list float := [1; nan; nan; 4]%float.

(** A missing sample of [ys] that belongs to a gap of more than one
    consecutive missing sample. *)
Definition missing_at (ys : list float) (z : Z) : bool :=
  (0 <=? z)%Z && (z <? Z.of_nat (length ys))%Z
  && Np.isnan (nth (Z.to_nat z) ys 0%float).

Definition in_long_gap (ys : list float) (i : nat) : bool :=
  missing_at ys (Z.of_nat i)
  && (missing_at ys (Z.of_nat i - 1) || missing_at ys (Z.of_nat i + 1)).

Definition feb (y d h : Z) : Timestamp := mkTimestamp (mkDate y 2 d) h.

(** A heat pump with electric backup, which has auxiliary, emergency
    and resistance heat. *)
Definition heat_pump : Thermostat :=
  mkThermostat "FAKE" (Some "heat_pump_electric_backup") None None None
    false true true true true "FAKE" "FAKE" [] [] None None [] []
    (Some []) (Some []) [] [] None None.

Definition jan_2020 : CoreDaySet :=
  mkCoreDaySet "heating_ALL" [] [] (mkDate 2020 1 1) (mkDate 2020 1 31).

(** Two days of binned input: the first falls in the 30-35F bin with
    [aux_runtime=50] over [heat_runtime=30], the second in the 40-45F bin
    with [aux_runtime=10] under [heat_runtime=30]. *)
Definition aux_over_heat : RuntimeTemp :=
  [(mkDate 2020 1 1, mkRuntimeTempRow 32 30 50 0 1440);
   (mkDate 2020 1 2, mkRuntimeTempRow 41 30 10 5 1440)]%float.

(** The column the call writes. *)
Definition estimated_rhu (erf : float -> float) (mu sigma : float)
    (df : DataFrame) : list float :=
  List.map (fun x => sigmoid erf mu sigma (mid x)) (df_index df).

(** A frame with three bins, a stand-in for [erf], and two drivers: one
    that returns parameters, one that fails. *)
Definition three_bins : DataFrame :=
  mkDataFrame [mkInterval 0 5; mkInterval 5 10; mkInterval 10 15]
    (<["rhu" := [1; nan; 0]%float]>
       (<["n_points" := [10; 0; 20]%float]> ∅)).

Definition ramp (x : float) : float := (x / 16)%float.

Definition trf_returns : TrustRegion := fun _ _ => Ok [7; 3]%float.
Definition trf_raises : TrustRegion := fun _ _ => Raise ValueError.

(** The mask carries every label of the series it selects from. *)
Definition mask_covers {L A} `{EqDecision L} (mask : Series L bool)
    (s : Series L A) : Prop :=
  forall r, In r s -> Pd.covered mask (fst r) = true.

(** The mask selects no row. *)
Definition selects_nothing {L} (mask : Series L bool) : Prop :=
  forall r, In r mask -> snd r = false.

Definition all_nan_result : DemandModelResult :=
  mkDemandModelResult [] nan nan nan nan nan nan nan DiagNaN DiagNaN DiagNaN.

(** Two days of hourly data from 2020-06-29 00:00: heating runs on the
    first day only, cooling on neither; four outdoor readings are
    missing. *)
Definition two_days_heat : list float :=
  (repeat 2 24 ++ repeat 0 24)%float.
Definition two_days_cool : list float := repeat 0%float 48.
Definition two_days_in : list float := repeat 70%float 48.
Definition two_days_out : list float :=
  (repeat 50 20 ++ repeat nan 4 ++ repeat 50 24)%float.

Definition two_days_record : result Thermostat :=
  Thermostat__init__ typed_equipment "FAKE" (Some "non_heat_pump") None
    (Some "central") None "FAKE" "FAKE"
    (hourly_series ts_2020_06_29 two_days_in)
    (hourly_series ts_2020_06_29 two_days_out)
    (Some (hourly_series ts_2020_06_29 two_days_cool))
    (Some (hourly_series ts_2020_06_29 two_days_heat))
    None None.

Definition two_days : Thermostat :=
  match two_days_record with Ok t => t | Raise _ => heat_pump end.

(** The daily mask [mask] over the days of [two_days], with its hourly
    broadcast (the shape of the fixtures [core_*_day_set_type_1_empty]). *)
Definition two_days_set (mask : list bool) : CoreDaySet :=
  let daily_mask := Pd.make (Pd.index (heat_runtime_daily two_days)) mask in
  mkCoreDaySet "empty" daily_mask
    (match _get_hourly_boolean daily_mask with Ok h => h | Raise _ => [] end)
    (mkDate 2020 6 29) (mkDate 2020 6 30).

(** A driver that would fail if it were ever called. *)
Definition lmdif_raises : Minpack := fun _ _ => Raise ValueError.






(** A driver that stops at its starting guess, as MINPACK does when the
    residuals do not depend on the parameter. *)
Definition lmdif_stays : Minpack :=
  fun _ x0 => Ok (mkLeastSqResult x0 None 2 "orthogonal").

(** A driver that returns [tau = 5] after three evaluations. *)
Definition lmdif_returns : Minpack :=
  fun _ _ => Ok (mkLeastSqResult 5 None 3 "converged").


(** The window test of [_get_range_boolean] for one day, on the bounds a
    set records. *)
Definition in_window (cs : CoreDaySet) (d : Date) : bool :=
  Calendar.date_leb (start_date cs) d && Calendar.date_ltb d (end_date cs).

(** What holds of every set a detector on the daily runtime [rd] emits. *)
Definition emitted (rd : DSeries float) (cs : CoreDaySet) : Prop :=
  _get_hourly_boolean (daily cs) = Ok (hourly cs) /\
  Pd.index (daily cs) = Pd.index rd.

(** The threshold masks of the two detectors, before the window. *)
Definition heating_thresholds (self : Thermostat) (mn mx : Z)
  : DSeries bool :=
  Pd.and_series
    (if has_cooling self
     then Pd.and_series (ge_threshold (heat_runtime_daily self) mn)
            (le_threshold (cool_runtime_daily self) mx)
     else Pd.and_scalar (ge_threshold (heat_runtime_daily self) mn) true)
    (Pd.and_series (enough_temp (temperature_in self))
       (enough_temp (temperature_out self))).

Definition cooling_thresholds (self : Thermostat) (mn mx : Z)
  : DSeries bool :=
  Pd.and_series
    (if has_heating self
     then Pd.and_series (le_threshold (heat_runtime_daily self) mx)
            (ge_threshold (cool_runtime_daily self) mn)
     else Pd.and_scalar (ge_threshold (cool_runtime_daily self) mn) true)
    (Pd.and_series (enough_temp (temperature_in self))
       (enough_temp (temperature_out self))).

(** A daily-frequency index: each label is the day after the previous
    one. *)
Fixpoint consecutive_from (d : Date) (l : list Date) : Prop :=
  match l with
  | [] => True
  | x :: r => x = d /\ consecutive_from (Calendar.next_day d) r
  end.

Definition daily_frequency (l : list Date) : Prop :=
  match l with
  | [] => True
  | d :: r => consecutive_from (Calendar.next_day d) r
  end.

(** The hourly mask [h] is the 24-hour broadcast of the daily mask [d]:
    24 rows per day, hour [k] of day [i] carrying the value of day [i] and
    the label "day [i], [k] o'clock". *)
Definition broadcast_24 (d : DSeries bool) (h : HSeries bool) : Prop :=
  length h = 24 * length d /\
  forall (i k : nat) (dd : Date) (dt : Timestamp),
    i < length d -> k < 24 ->
    nth (24 * i + k) (Pd.values h) false = nth i (Pd.values d) false /\
    nth (24 * i + k) (Pd.index h) dt
    = mkTimestamp (nth i (Pd.index d) dd) (Z.of_nat k).

(** The heating set of [two_days] under [entire_dataset]. *)
Definition two_days_heating_all : CoreDaySet :=
  match get_core_heating_days two_days "entire_dataset" 30 0 with
  | Ok [cs] => cs
  | _ => jan_2020
  end.

(** The calendar days an hourly series has rows on, ascending. *)
Definition days_of {A} (t : HSeries A) : list Date :=
  Pd.sorted_dates (List.map (fun r => date (fst r)) t).

(** The number of missing (null) readings of a series on a day. *)
Definition missing_readings (t : HSeries float) (d : Date) : Z :=
  Pd.isnull_sum (List.map snd (List.filter (Pd.on_date d) t)).

(** The daily runtime of a day (NaN when the series has no such day). *)
Definition daily_runtime_on (s : DSeries float) (d : Date) : float :=
  Pd.lookup_nan s d.

(** The inclusion test in the words of the specification: enough primary
    runtime, little enough secondary runtime when the equipment has that
    mode, and at most two missing readings of each temperature. *)
Definition qualifies (primary secondary : DSeries float)
    (has_secondary : bool) (temp_in temp_out : HSeries float)
    (min_minutes_primary max_minutes_secondary : Z) (d : Date) : bool :=
  (Np.of_Z min_minutes_primary <=? daily_runtime_on primary d)%float
  && (if has_secondary
      then (daily_runtime_on secondary d <=? Np.of_Z max_minutes_secondary)%float
      else true)
  && (missing_readings temp_in d <=? 2)%Z
  && (missing_readings temp_out d <=? 2)%Z.

(** The series of a record share one index: the secondary daily runtime
    (when the equipment has that mode) is indexed like the primary one, and
    the days of both temperature series are the days of the primary daily
    runtime. *)
Definition shared_index (primary secondary : DSeries float)
    (has_secondary : bool) (temp_in temp_out : HSeries float) : Prop :=
  (has_secondary = true -> Pd.index secondary = Pd.index primary) /\
  days_of temp_in = Pd.index primary /\
  days_of temp_out = Pd.index primary.

(** The window test applies to the period-based methods only. *)
Definition window_test (method : string) (cs : CoreDaySet) (d : Date)
  : bool :=
  if bool_decide (method = "entire_dataset") then true else in_window cs d.

(** The heating sets of [two_days] under [year_mid_to_mid]: one period,
    1 July 2019 to 1 July 2020, clipped to the data. *)
Definition two_days_heating_period : CoreDaySet :=
  match get_core_heating_days two_days "year_mid_to_mid" 30 0 with
  | Ok [cs] => cs
  | _ => jan_2020
  end.

Definition jun_29 : Date := mkDate 2020 6 29.
Definition jun_30 : Date := mkDate 2020 6 30.

(** The call of the fixture [thermostat_template]: no equipment type and
    zero-length series throughout. *)
Definition thermostat_template : result Thermostat :=
  Thermostat__init__ typed_equipment "FAKE" None None None None "FAKE" "FAKE"
    [] [] (Some []) (Some []) (Some []) (Some []).

(** A taxonomy in which the type ["none"] stands for the absence of the
    mode, and no type has resistance heat. *)
Definition optional_equipment : EquipmentType :=
  mkEquipmentType
    (fun t => bool_decide (t <> None /\ t <> Some "none"))
    (fun t => bool_decide (t <> None /\ t <> Some "none"))
    (fun _ => false) (fun _ => false) (fun _ => false).

(** A record without heating or cooling equipment, built from zero-length
    series throughout. *)
Definition no_equipment : result Thermostat :=
  Thermostat__init__ optional_equipment "FAKE" (Some "none") None
    (Some "none") None "FAKE" "FAKE"
    [] [] (Some []) (Some []) (Some []) (Some []).

(** The runtime argument of the constructor is zero-length. *)
Definition zero_length (runtime : option (HSeries float)) : Prop :=
  runtime = None \/ runtime = Some [].

(** Daily heating runtimes of -48 and 48 minutes: out of range, and of
    zero mean. *)
Definition signed_days : Thermostat :=
  match
    Thermostat__init__ typed_equipment "FAKE" (Some "non_heat_pump") None
      (Some "central") None "FAKE" "FAKE"
      (hourly_series ts_2020_06_29 two_days_in)
      (hourly_series ts_2020_06_29 two_days_out)
      (Some (hourly_series ts_2020_06_29 two_days_cool))
      (Some (hourly_series ts_2020_06_29 (repeat (-2) 24 ++ repeat 2 24)%float))
      None None
  with Ok t => t | Raise _ => heat_pump end.

(* ================================================================== *)
(** * Runtime totals and day counts *)

(** [Thermostat.total_heating_runtime]: [Series.sum()] of the daily
    runtimes the daily mask selects (NaN skipped, 0 for no row). *)
Definition total_heating_runtime (self : Thermostat)
    (core_day_set : CoreDaySet) : result float :=
  let! _ := _protect_heating self in
  let! selected :=
    Pd.getitem_mask (heat_runtime_daily self) (daily core_day_set) in
  Ok (Np.nansum (Pd.values selected)).

(** [Thermostat.total_cooling_runtime]. *)
Definition total_cooling_runtime (self : Thermostat)
    (core_day_set : CoreDaySet) : result float :=
  let! _ := _protect_cooling self in
  let! selected :=
    Pd.getitem_mask (cool_runtime_daily self) (daily core_day_set) in
  Ok (Np.nansum (Pd.values selected)).

(** [runtime[core_day_set.hourly].sum()] on an hourly runtime attribute;
    subscripting [None] is a [TypeError]. *)
Definition total_hourly_runtime (runtime : option (HSeries float))
    (core_day_set : CoreDaySet) : result float :=
  match runtime with
  | None => Raise TypeError
  | Some runtime =>
      let! selected := Pd.getitem_mask runtime (hourly core_day_set) in
      Ok (Np.nansum (Pd.values selected))
  end.

(** [Thermostat.total_auxiliary_heating_runtime]. *)
Definition total_auxiliary_heating_runtime (self : Thermostat)
    (core_day_set : CoreDaySet) : result float :=
  let! _ := _protect_aux_emerg self in
  total_hourly_runtime (auxiliary_heat_runtime self) core_day_set.

(** [Thermostat.total_emergency_heating_runtime]. *)
Definition total_emergency_heating_runtime (self : Thermostat)
    (core_day_set : CoreDaySet) : result float :=
  let! _ := _protect_aux_emerg self in
  total_hourly_runtime (emergency_heat_runtime self) core_day_set.

(** [s.sum()] of a boolean Series: the number of [True] rows. *)
Definition bool_sum {L} (s : Series L bool) : Z :=
  Z.of_nat (length (List.filter snd s)).

(** [Thermostat.get_core_day_set_n_days]. *)
Definition get_core_day_set_n_days (self : Thermostat)
    (core_day_set : CoreDaySet) : Z :=
  bool_sum (daily core_day_set).

(* ================================================================== *)
(** * Output columns of the resistance heat utilization *)

(** [RESISTANCE_HEAT_USE_BIN_PAIRS] and
    [RESISTANCE_HEAT_USE_WIDE_BIN_PAIRS]. *)
Definition RESISTANCE_HEAT_USE_BIN_PAIRS : list (Z * Z) :=
  List.map (fun x => (nth x RESISTANCE_HEAT_USE_BIN 0%Z,
                      nth (x + 1) RESISTANCE_HEAT_USE_BIN 0%Z))
    (seq 0 (length RESISTANCE_HEAT_USE_BIN - 1)).

Definition RESISTANCE_HEAT_USE_WIDE_BIN_PAIRS : list (Z * Z) := [(30, 45)%Z].

(** A bin bound handed to [_format_rhu]: an integer, or an infinity. *)
Inductive bound : Type :=
| Finite (z : Z)
| NegInf
| PosInf.

#[global] Instance bound_eq_dec : EqDecision bound.
Proof. solve_decision. Defined.

(** The exceptions of the formatting helpers: [OverflowError], which
    [int(x)] raises on an infinity, beside those of [exn]. *)
Inductive format_exn : Type :=
| OverflowError
| Other (e : exn).

(** [int(x)] of a bound. *)
Definition int_of_bound (x : bound) : format_exn + Z :=
  match x with
  | Finite z => inr z
  | NegInf | PosInf => inl OverflowError
  end.

(** [format(n, "02d")]: the decimal digits, zero-padded after the sign to
    two characters in all. *)
Definition format_02d (n : Z) : string :=
  if (n <? 0)%Z then format_int n
  else
    let digits := format_int n in
    if (String.length digits <? 2)%nat then ("0" ++ digits)%string
    else digits.

(** The three format strings of [_format_rhu]. *)
Inductive rhu_format : Type :=
| RangeFormat   (* "{rhu_type}_{low:02d}F_to_{high:02d}F" *)
| LessFormat    (* "{rhu_type}_less{high:02d}F" *)
| GreaterFormat (* "{rhu_type}_greater{low:02d}F" *).

(** [format_string.format(rhu_type=rhu_type, low=low, high=high)]. *)
Definition apply_format (format_string : rhu_format) (rhu_type : string)
    (low high : Z) : string :=
  match format_string with
  | RangeFormat =>
      (rhu_type ++ "_" ++ format_02d low ++ "F_to_" ++ format_02d high
       ++ "F")%string
  | LessFormat => (rhu_type ++ "_less" ++ format_02d high ++ "F")%string
  | GreaterFormat => (rhu_type ++ "_greater" ++ format_02d low ++ "F")%string
  end.

(** [Thermostat._format_rhu]. *)
Definition _format_rhu (rhu_type : string) (low high : bound)
    (duty_cycle : option string) : format_exn + string :=
  let format_string := RangeFormat in
  let '(format_string, low) :=
    if bool_decide (low = NegInf) then (LessFormat, Finite 0)
    else (format_string, low) in
  let '(format_string, high) :=
    if bool_decide (high = PosInf) then (GreaterFormat, Finite 0)
    else (format_string, high) in
  match int_of_bound low with
  | inl e => inl e
  | inr low_ =>
      match int_of_bound high with
      | inl e => inl e
      | inr high_ =>
          let result := apply_format format_string rhu_type low_ high_ in
          match duty_cycle with
          | Some duty_cycle => inr (result ++ "_" ++ duty_cycle)%string
          | None => inr result
          end
      end
  end.

(** A value stored under an output column. *)
Inductive pyval : Type :=
| PyNone
| PyFloat (x : float)
| PyBool (b : bool)
| PyInterval (iv : Interval).

(** [getattr(item, name)] on a row of [rhu_bins.itertuples()]: Python's
    attribute look-up on the named tuple. *)
Definition Getattr : Type := RhuRow -> string -> result pyval.

(** The loop of [_rhu_outputs] over the rows of the binned frame. *)
Fixpoint rhu_outputs_rows (getattr : Getattr) (rhu_type : string)
    (duty_cycle : option string) (items : list RhuRow)
    (local_outputs : gmap string pyval) : format_exn + gmap string pyval :=
  match items with
  | [] => inr local_outputs
  | item :: items =>
      match _format_rhu rhu_type (Finite (left (rhu_bin item)))
              (Finite (right (rhu_bin item))) duty_cycle with
      | inl e => inl e
      | inr column =>
          match duty_cycle with
          | None =>
              rhu_outputs_rows getattr rhu_type duty_cycle items
                (<[column := PyFloat (rhu_rhu item)]> local_outputs)
          | Some attribute =>
              match getattr item attribute with
              | Raise e => inl (Other e)
              | Ok v =>
                  rhu_outputs_rows getattr rhu_type duty_cycle items
                    (<[column := v]> local_outputs)
              end
          end
      end
  end.

(** The loop of [_rhu_outputs] over the bounds of the bins, when there is
    no frame. *)
Fixpoint rhu_outputs_bounds (rhu_type : string) (duty_cycle : option string)
    (rhu_usage_bins : list (bound * bound))
    (local_outputs : gmap string pyval) : format_exn + gmap string pyval :=
  match rhu_usage_bins with
  | [] => inr local_outputs
  | (low, high) :: rhu_usage_bins =>
      match _format_rhu rhu_type low high duty_cycle with
      | inl e => inl e
      | inr column =>
          rhu_outputs_bounds rhu_type duty_cycle rhu_usage_bins
            (<[column := PyNone]> local_outputs)
      end
  end.

(** [Thermostat._rhu_outputs]. *)
Definition _rhu_outputs (getattr : Getattr) (rhu_type : string)
    (rhu_bins : option (list RhuRow)) (rhu_usage_bins : list (bound * bound))
    (duty_cycle : option string) : format_exn + gmap string pyval :=
  match rhu_bins with
  | Some rhu_bins =>
      rhu_outputs_rows getattr rhu_type duty_cycle rhu_bins ∅
  | None => rhu_outputs_bounds rhu_type duty_cycle rhu_usage_bins ∅
  end.

(** The integer pairs of the module, as bounds. *)
Definition bounds_of (pairs : list (Z * Z)) : list (bound * bound) :=
  List.map (fun p => (Finite (fst p), Finite (snd p))) pairs.

(** The first entries of [RHU_COLUMNS] in [thermostat/columns.py]: the
    columns of the narrow bins and of the wide bin, for [rhu1] and
    [rhu2]. *)
Definition RHU_COLUMNS_BINS : list string :=
  ["rhu1_00F_to_05F"; "rhu1_05F_to_10F"; "rhu1_10F_to_15F";
   "rhu1_15F_to_20F"; "rhu1_20F_to_25F"; "rhu1_25F_to_30F";
   "rhu1_30F_to_35F"; "rhu1_35F_to_40F"; "rhu1_40F_to_45F";
   "rhu1_45F_to_50F"; "rhu1_50F_to_55F"; "rhu1_55F_to_60F";
   "rhu1_30F_to_45F";
   "rhu2_00F_to_05F"; "rhu2_05F_to_10F"; "rhu2_10F_to_15F";
   "rhu2_15F_to_20F"; "rhu2_20F_to_25F"; "rhu2_25F_to_30F";
   "rhu2_30F_to_35F"; "rhu2_35F_to_40F"; "rhu2_40F_to_45F";
   "rhu2_45F_to_50F"; "rhu2_50F_to_55F"; "rhu2_55F_to_60F";
   "rhu2_30F_to_45F"].

(* ================================================================== *)
(** * Baseline demand and runtime *)

(** The common body of [get_baseline_cooling_demand] and
    [get_baseline_heating_demand]: the outdoor temperatures of the hours
    the set selects, the hourly degree measure against the comfort
    temperature, and its daily aggregate under the days the set selects. *)
Definition baseline_demand (self : Thermostat)
    (hourly_dd : float -> float -> float) (core_day_set : CoreDaySet)
    (tau : float) : result (DSeries float) :=
  let! hourly_temp_out :=
    Pd.getitem_mask (temperature_out self) (hourly core_day_set) in
  let demand := calc_dd hourly_dd hourly_temp_out tau in
  let! daily_selected :=
    Pd.getitem_mask (daily core_day_set) (daily core_day_set) in
  Pd.make_checked (Pd.index daily_selected) demand.

(** [Thermostat.get_baseline_cooling_demand]: hourly degree measure
    [max(tau - (temp_baseline - temp_out), 0)]. *)
Definition get_baseline_cooling_demand (self : Thermostat)
    (core_cooling_day_set : CoreDaySet) (temp_baseline tau : float)
  : result (DSeries float) :=
  let! _ := _protect_cooling self in
  baseline_demand self
    (fun tau temp_out => (tau - (temp_baseline - temp_out))%float)
    core_cooling_day_set tau.

(** [Thermostat.get_baseline_heating_demand]: hourly degree measure
    [max(temp_baseline - temp_out - tau, 0)]. *)
Definition get_baseline_heating_demand (self : Thermostat)
    (core_heating_day_set : CoreDaySet) (temp_baseline tau : float)
  : result (DSeries float) :=
  let! _ := _protect_heating self in
  baseline_demand self
    (fun tau temp_out => (temp_baseline - temp_out - tau)%float)
    core_heating_day_set tau.

(** [Thermostat.get_baseline_cooling_runtime] and
    [Thermostat.get_baseline_heating_runtime]:
    [np.maximum(alpha * demand, 0)]. *)
Definition get_baseline_cooling_runtime (baseline_cooling_demand : DSeries float)
    (alpha : float) : DSeries float :=
  List.map (fun r => (fst r, Np.maximum (alpha * snd r) 0))
    baseline_cooling_demand.

Definition get_baseline_heating_runtime (baseline_heating_demand : DSeries float)
    (alpha : float) : DSeries float :=
  List.map (fun r => (fst r, Np.maximum (alpha * snd r) 0))
    baseline_heating_demand.

(* ================================================================== *)
(** * The date range of a core day set *)

(** Days before January 1 of year [y], and the ordinal of a date, in the
    proleptic Gregorian calendar of [datetime] and [numpy.datetime64]:
    subtracting two dates subtracts their ordinals. *)
Definition days_before_year (y : Z) : Z :=
  ((y - 1) * 365 + (y - 1) / 4 - (y - 1) / 100 + (y - 1) / 400)%Z.

Definition toordinal (d : Date) : Z :=
  (days_before_year (year d) + Calendar.dayofyear d)%Z.

(** [Thermostat.get_inputfile_date_range]: the whole days from
    [start_date] to [end_date]. *)
Definition get_inputfile_date_range (self : Thermostat)
    (core_day_set : CoreDaySet) : Z :=
  (toordinal (end_date core_day_set) - toordinal (start_date core_day_set))%Z.

(* ================================================================== *)
(** * Ignored days *)

(** [a | b] on two boolean Series: position by position when the two
    indexes are the same; otherwise pandas aligns the rows on the sorted
    union of the labels, fills the right side with [False], and a label the
    left side lacks gives [False] whatever the right side holds. *)
Definition or_series (a b : DSeries bool) : DSeries bool :=
  if decide (Pd.index a = Pd.index b)
  then List.map (fun p => (fst (fst p), snd (fst p) || snd (snd p)))
         (combine a b)
  else List.map (fun l => (l, match Pd.lookup a l with
                              | Some x => x || Pd.selected b l
                              | None => false
                              end))
         (Pd.sorted_labels (Pd.index a ++ Pd.index b)).

(** [arr & s] for a boolean array [arr] and a boolean Series [s]: numpy
    broadcasts the two arrays of values (equal lengths, or an array of one
    element), and the result takes the labels of [s], which must be as many
    as the values. *)
Definition and_broadcast (arr : list bool) (s : DSeries bool)
  : result (DSeries bool) :=
  if Nat.eqb (length arr) (length s)
  then Ok (List.map (fun p => (fst (snd p), fst p && snd (snd p)))
             (combine arr s))
  else match arr with
       | [a] => Ok (List.map (fun r => (fst r, a && snd r)) s)
       | _ => Raise ValueError
       end.

(** An intermediate value of [get_ignored_days]: a boolean array or a
    boolean Series.  The per-mode flags are a Series, or Python's [False]
    ([None] here) when the equipment lacks the mode. *)
Inductive boolvec : Type :=
| NdArray (values : list bool)
| PdSeries (s : DSeries bool).

(** [x & flags] *)
Definition vec_and (x : boolvec) (flags : option (DSeries bool))
  : result boolvec :=
  match x, flags with
  | NdArray a, None => Ok (NdArray (List.map (fun b => b && false) a))
  | NdArray a, Some s => let! r := and_broadcast a s in Ok (PdSeries r)
  | PdSeries s, None => Ok (PdSeries (Pd.and_scalar s false))
  | PdSeries a, Some b => Ok (PdSeries (Pd.and_series a b))
  end.

(** [x | y] on two flags. *)
Definition flags_or (x y : option (DSeries bool)) : option (DSeries bool) :=
  match x, y with
  | None, None => None
  | None, Some s => Some (List.map (fun r => (fst r, false || snd r)) s)
  | Some s, None => Some (List.map (fun r => (fst r, snd r || false)) s)
  | Some a, Some b => Some (or_series a b)
  end.

(** [x.sum()] *)
Definition vec_sum (x : boolvec) : Z :=
  match x with
  | NdArray a => Z.of_nat (length (List.filter (fun b : bool => b) a))
  | PdSeries s => bool_sum s
  end.

(** [series > 0] and [pd.isnull(series)]. *)
Definition gt_zero (s : DSeries float) : DSeries bool :=
  List.map (fun r => (fst r, (0 <? snd r)%float)) s.

Definition isnull (s : DSeries float) : DSeries bool :=
  List.map (fun r => (fst r, Np.isnan (snd r))) s.

(** [Thermostat.get_ignored_days]: [(n_both, n_days_insufficient)]. *)
Definition get_ignored_days (self : Thermostat) (core_day_set : CoreDaySet)
  : result (Z * Z) :=
  let in_range :=
    _get_range_boolean (Pd.index (daily core_day_set))
      (start_date core_day_set) (end_date core_day_set) in
  let '(has_heating_, null_heating) :=
    if has_heating self
    then (Some (gt_zero (heat_runtime_daily self)),
          Some (isnull (heat_runtime_daily self)))
    else (None, None) in
  let '(has_cooling_, null_cooling) :=
    if has_cooling self
    then (Some (gt_zero (cool_runtime_daily self)),
          Some (isnull (cool_runtime_daily self)))
    else (None, None) in
  let! both := vec_and (NdArray in_range) has_heating_ in
  let! both := vec_and both has_cooling_ in
  let n_both := vec_sum both in
  let! insufficient :=
    vec_and (NdArray in_range) (flags_or null_heating null_cooling) in
  let n_days_insufficient := vec_sum insufficient in
  Ok (n_both, n_days_insufficient).

(* ================================================================== *)
(** * Further vocabulary and example data *)

(** The calendar order on dates, as a proposition. *)
Definition date_lt (a b : Date) : Prop :=
  (year a < year b
   \/ (year a = year b
       /\ (month a < month b \/ (month a = month b /\ day a < day b))))%Z.

(** Heating runs on each of three days from 2020-06-30 00:00, across the
    July 1 boundary of the heating periods; cooling never runs. *)
Definition ts_2020_06_30 : Timestamp := mkTimestamp (mkDate 2020 6 30) 0.

Definition three_days : Thermostat :=
  match
    Thermostat__init__ typed_equipment "FAKE" (Some "non_heat_pump") None
      (Some "central") None "FAKE" "FAKE"
      (hourly_series ts_2020_06_30 (repeat 70%float 72))
      (hourly_series ts_2020_06_30 (repeat 50%float 72))
      (Some (hourly_series ts_2020_06_30 (repeat 0%float 72)))
      (Some (hourly_series ts_2020_06_30 (repeat 2%float 72)))
      None None
  with Ok t => t | Raise _ => heat_pump end.

Definition three_days_first_period : CoreDaySet :=
  match get_core_heating_days three_days "year_mid_to_mid" 30 0 with
  | Ok (cs :: _) => cs
  | _ => jan_2020
  end.

Definition three_days_second_period : CoreDaySet :=
  match get_core_heating_days three_days "year_mid_to_mid" 30 0 with
  | Ok (_ :: cs :: _) => cs
  | _ => jan_2020
  end.

Definition new_years_eve_2020 : Timestamp :=
  mkTimestamp (mkDate 2020 12 31) 23.

(** The heating fit of [two_days] on its second day, with the driver that
    returns [tau = 5]. *)
Definition two_days_fit : DemandModelResult :=
  match get_heating_demand lmdif_returns two_days (two_days_set [false; true])
  with Ok r => r | Raise _ => all_nan_result end.

(** A frame without the ["n_points"] column. *)
Definition no_counts : DataFrame :=
  mkDataFrame [mkInterval 0 5; mkInterval 5 10]
    (<["rhu" := [1; 0]%float]> ∅).

(** The character [c] does not occur in [s]. *)
Fixpoint no_char (c : Ascii.ascii) (s : string) : Prop :=
  match s with
  | EmptyString => True
  | String a s' => a <> c /\ no_char c s'
  end.

(** The column a bin with integer bounds is stored under. *)
Definition column_name (rhu_type : string) (low high : Z) : string :=
  apply_format RangeFormat rhu_type low high.

Definition row_column (rhu_type : string) (row : RhuRow) : string :=
  column_name rhu_type (left (rhu_bin row)) (right (rhu_bin row)).

(** A named tuple without the attribute asked for. *)
Definition no_attribute : Getattr := fun _ _ => Raise AttributeError.

(** Two days without demand. *)
Definition zero_demand : DSeries float :=
  [(mkDate 2020 6 29, 0%float); (mkDate 2020 6 30, 0%float)].

(** An hourly runtime argument whose index runs from a valid day to a
    valid day that is not earlier, as a sorted [DatetimeIndex] does. *)
Definition spans_valid_days (runtime : option (HSeries float)) : Prop :=
  exists (s : HSeries float) (t0 t1 : Timestamp),
    runtime = Some s /\
    Pd.index_first s = Ok t0 /\ Pd.index_last s = Ok t1 /\
    Calendar.valid_date (date t0) /\ Calendar.valid_date (date t1) /\
    Calendar.date_leb (date t0) (date t1) = true.

Definition three_days_all : CoreDaySet :=
  match get_core_heating_days three_days "entire_dataset" 30 0 with
  | Ok [cs] => cs
  | _ => jan_2020
  end.

(** A day of the window of a core day set on which both modes ran, and one
    on which a daily runtime is missing; a mode the equipment lacks counts
    for neither. *)
Definition both_modes_on (self : Thermostat) (cs : CoreDaySet) (d : Date)
  : bool :=
  in_window cs d
  && (has_heating self
      && (0 <? daily_runtime_on (heat_runtime_daily self) d)%float)
  && (has_cooling self
      && (0 <? daily_runtime_on (cool_runtime_daily self) d)%float).

Definition runtime_missing_on (self : Thermostat) (cs : CoreDaySet)
    (d : Date) : bool :=
  in_window cs d
  && ((has_heating self
       && Np.isnan (daily_runtime_on (heat_runtime_daily self) d))
      || (has_cooling self
          && Np.isnan (daily_runtime_on (cool_runtime_daily self) d))).

(** Heating runs on each of four days from 2020-01-01 00:00; cooling runs
    on the second day as well. *)
Definition ts_2020_01_01 : Timestamp := mkTimestamp (mkDate 2020 1 1) 0.

Definition mixed_days : Thermostat :=
  match
    Thermostat__init__ typed_equipment "FAKE" (Some "non_heat_pump") None
      (Some "central") None "FAKE" "FAKE"
      (hourly_series ts_2020_01_01 (repeat 70%float 96))
      (hourly_series ts_2020_01_01 (repeat 50%float 96))
      (Some (hourly_series ts_2020_01_01
               (repeat 0%float 24 ++ repeat 1%float 24 ++ repeat 0%float 48)))
      (Some (hourly_series ts_2020_01_01 (repeat 2%float 96)))
      None None
  with Ok t => t | Raise _ => heat_pump end.

Definition mixed_days_all : CoreDaySet :=
  match get_core_heating_days mixed_days "entire_dataset" 30 0 with
  | Ok [cs] => cs
  | _ => jan_2020
  end.

(** The hours of a day, and the test that a timestamp carries one. *)
Definition hours_of_day : list Z := List.map Z.of_nat (seq 0 24).

Definition hour_of_day (t : Timestamp) : bool :=
  (0 <=? hour t)%Z && (hour t <=? 23)%Z.

(** The rows of an hourly mask that repeats each row of a daily mask on
    the 24 hours of its day. *)
Definition each_hour {A} (d : DSeries A) : HSeries A :=
  flat_map (fun r => List.map (fun k => (mkTimestamp (fst r) k, snd r))
                       hours_of_day) d.

(** The sample at [t] lies on a day of the daily index [idx]. *)
Definition on_data_day (idx : list Date) (t : Timestamp) : bool :=
  label_in (date t) idx && hour_of_day t.

(** The NaN-skipping sum of the samples of an hourly series that fall on
    the core days of a set; a sample outside the days of the set's daily
    mask cannot be aligned with the hourly mask. *)
Definition runtime_on_core_days (cs : CoreDaySet) (s : HSeries float)
  : result float :=
  if forallb (fun r => on_data_day (Pd.index (daily cs)) (fst r)) s
  then Ok (Np.nansum
             (Pd.values
                (List.filter (fun r => Pd.selected (daily cs) (date (fst r)))
                   s)))
  else Raise IndexingError.

(** A taxonomy in which the heat pump with electric backup has auxiliary,
    emergency and resistance heat. *)
Definition backup_equipment : EquipmentType :=
  mkEquipmentType
    (fun t => bool_decide (t <> None)) (fun t => bool_decide (t <> None))
    (fun t => bool_decide (t = Some "heat_pump_electric_backup"))
    (fun t => bool_decide (t = Some "heat_pump_electric_backup"))
    (fun t => bool_decide (t = Some "heat_pump_electric_backup")).

(** Three days of a heat pump from 2020-01-01 00:00: the compressor runs
    2 minutes, the auxiliary heat 1 minute and the emergency heat half a
    minute in every hour; cooling runs on the second day as well. *)
Definition backup_days : Thermostat :=
  match
    Thermostat__init__ backup_equipment "FAKE"
      (Some "heat_pump_electric_backup") None (Some "heat_pump") None
      "FAKE" "FAKE"
      (hourly_series ts_2020_01_01 (repeat 70%float 72))
      (hourly_series ts_2020_01_01 (repeat 50%float 72))
      (Some (hourly_series ts_2020_01_01
               (repeat 0%float 24 ++ repeat 1%float 24 ++ repeat 0%float 24)))
      (Some (hourly_series ts_2020_01_01 (repeat 2%float 72)))
      (Some (hourly_series ts_2020_01_01 (repeat 1%float 72)))
      (Some (hourly_series ts_2020_01_01 (repeat 0.5%float 72)))
  with Ok t => t | Raise _ => heat_pump end.

Definition backup_days_all : CoreDaySet :=
  match get_core_heating_days backup_days "entire_dataset" 30 0 with
  | Ok [cs] => cs
  | _ => jan_2020
  end.

(** A list of days in strictly ascending order. *)
Fixpoint ascending (l : list Date) : Prop :=
  match l with
  | [] => True
  | d :: r => Forall (date_lt d) r /\ ascending r
  end.

(** The core days of a set: the days its daily mask selects, in order. *)
Definition core_days (cs : CoreDaySet) : list Date :=
  List.filter (Pd.selected (daily cs)) (Pd.index (daily cs)).

(** The baseline demand of one day: the hourly degree measure of each
    outdoor temperature of the day, floored at zero, summed (NaN skipped),
    over 24. *)
Definition baseline_demand_on (hourly_dd : float -> float -> float)
    (temperature : HSeries float) (tau : float) (d : Date) : float :=
  (Np.nansum
     (List.map (fun r => Np.maximum (hourly_dd tau (snd r)) 0)
        (List.filter (Pd.on_date d) temperature)) / 24)%float.

(* ================================================================== *)
(** * Properties *)

(** ** Generic facts about the error monad and lists *)

Lemma rbind_ok {A B} (m : result A) (k : A -> result B) (b : B) :
  rbind m k = Ok b -> exists a, m = Ok a /\ k a = Ok b.
Proof. destruct m as [a|e]; simpl; [eauto | discriminate]. Qed.

Lemma nth_combine_seq {A} (l : list A) (i : nat) (d : A) :
  i < length l ->
  nth i (combine (seq 0 (length l)) l) (0, d) = (i, nth i l d).
Proof.
  intro Hi. rewrite combine_nth by apply length_seq.
  rewrite seq_nth by assumption. reflexivity.
Qed.

(** ** Savings *)

(** C1: [percent_savings] returns the mean of the avoided runtime divided by
    the mean of the baseline runtime, times 100 -- a ratio of means, which
    differs from the mean of the ratios -- and on baseline [100, 200] and
    avoided [10, 20] the result is exactly 10.0. *)
Theorem percent_savings_ratio_of_means :
  (forall (av bl : list float) (tid : string),
      percent_savings av bl tid = Ok (mean av / mean bl * 100)%float) /\
  percent_savings ex_avoided ex_baseline "FAKE" = Ok 10%float /\
  mean_of_ratios [10; 90]%float [100; 300]%float <>
    (mean [10; 90] / mean [100; 300] * 100)%float.
Proof.
  split; [reflexivity|].
  split; [vm_compute; reflexivity|].
  vm_compute. intro H. discriminate H.
Qed.

(** ** Interpolation *)

Lemma interpolate_values_length (ys : list float) :
  length (Pd.interpolate_values ys) = length ys.
Proof.
  unfold Pd.interpolate_values. destruct (forallb Np.isnan ys).
  - apply length_map.
  - rewrite length_map, length_combine, length_seq. apply Nat.min_id.
Qed.

Lemma invalid_at_in_range (ys : list float) (i : nat) :
  i < length ys ->
  Pd.invalid_at ys (Z.of_nat i) = Np.isnan (nth i ys nan).
Proof.
  intro Hi. unfold Pd.invalid_at.
  replace (Z.of_nat i <? 0)%Z with false by (symmetry; apply Z.ltb_ge; lia).
  replace (Z.of_nat (length ys) <=? Z.of_nat i)%Z with false
    by (symmetry; apply Z.leb_gt; lia).
  simpl. now rewrite Nat2Z.id.
Qed.

Lemma all_nan_invalid (ys : list float) (z : Z) :
  forallb Np.isnan ys = true -> Pd.invalid_at ys z = true.
Proof.
  intro Hall. unfold Pd.invalid_at.
  destruct ((z <? 0)%Z || (Z.of_nat (length ys) <=? z)%Z) eqn:Hr; [reflexivity|].
  apply orb_false_iff in Hr as [H0 H1].
  apply Z.ltb_ge in H0. apply Z.leb_gt in H1.
  rewrite forallb_forall in Hall. apply Hall, nth_In. lia.
Qed.

Lemma interpolate_values_nth (ys : list float) (i : nat) :
  i < length ys ->
  nth i (Pd.interpolate_values ys) nan =
    if forallb Np.isnan ys then nan
    else if Np.isnan (nth i ys nan)
         then (if Pd.preserve_nan ys (Z.of_nat i) then nan
               else Pd.np_interp ys (Z.of_nat i))
         else nth i ys nan.
Proof.
  intro Hi. unfold Pd.interpolate_values.
  destruct (forallb Np.isnan ys).
  - assert (Hc : forall (l : list float) n,
               nth n (List.map (fun _ : float => nan) l) nan = nan).
    { induction l as [|x l IH]; intros [|n]; simpl; auto. }
    apply Hc.
  - set (f := fun p : nat * float => _).
    rewrite nth_indep with (d' := f (0, nan))
      by (now rewrite length_map, length_combine, length_seq, Nat.min_id).
    rewrite map_nth, nth_combine_seq by assumption.
    reflexivity.
Qed.

Lemma values_interpolate {L} (s : Series L float) :
  Pd.values (Pd.interpolate s) = Pd.interpolate_values (Pd.values s).
Proof.
  unfold Pd.interpolate, Pd.values.
  set (out := Pd.interpolate_values (List.map snd s)).
  assert (Hlen : length (List.map fst s) = length out).
  { unfold out. now rewrite interpolate_values_length, !length_map. }
  clearbody out. revert out Hlen.
  induction (List.map fst s) as [|l ls IH]; intros [|o out] Hlen;
    simpl in *; try discriminate; [reflexivity|].
  f_equal. apply IH. lia.
Qed.

Lemma prev_valid_done (ys : list float) (pos i : Z) acc :
  (i <= pos)%Z -> Pd.prev_valid ys pos i acc = acc.
Proof.
  intro H. destruct ys as [|y ys]; simpl; [reflexivity|].
  now replace (i <=? pos)%Z with true by (symmetry; apply Z.leb_le; lia).
Qed.

Lemma prev_valid_neighbour (ys : list float) :
  forall (pos i : Z) acc,
    (pos <= i - 1 < pos + Z.of_nat (length ys))%Z ->
    Np.isnan (nth (Z.to_nat (i - 1 - pos)) ys nan) = false ->
    Pd.prev_valid ys pos i acc
    = Some ((i - 1)%Z, nth (Z.to_nat (i - 1 - pos)) ys nan).
Proof.
  induction ys as [|y ys IH]; intros pos i acc Hr Hv; simpl in Hr; [lia|].
  simpl Pd.prev_valid.
  replace (i <=? pos)%Z with false by (symmetry; apply Z.leb_gt; lia).
  destruct (Z.eq_dec pos (i - 1)%Z) as [->|Hne].
  - replace (i - 1 - (i - 1))%Z with 0%Z in * by lia. simpl in *.
    rewrite Hv. apply prev_valid_done. lia.
  - replace (Z.to_nat (i - 1 - pos)) with (S (Z.to_nat (i - 1 - (pos + 1))))
      in * by lia.
    simpl in *. apply IH; [lia | assumption].
Qed.

Lemma next_valid_neighbour (ys : list float) :
  forall (pos i : Z),
    (pos <= i + 1 < pos + Z.of_nat (length ys))%Z ->
    Np.isnan (nth (Z.to_nat (i + 1 - pos)) ys nan) = false ->
    Pd.next_valid ys pos i
    = Some ((i + 1)%Z, nth (Z.to_nat (i + 1 - pos)) ys nan).
Proof.
  induction ys as [|y ys IH]; intros pos i Hr Hv; simpl in Hr; [lia|].
  simpl Pd.next_valid.
  destruct (Z.eq_dec pos (i + 1)%Z) as [->|Hne].
  - replace (i + 1 - (i + 1))%Z with 0%Z in * by lia. simpl in *.
    rewrite Hv.
    now replace (i <? i + 1)%Z with true by (symmetry; apply Z.ltb_lt; lia).
  - replace (i <? pos)%Z with false by (symmetry; apply Z.ltb_ge; lia).
    simpl.
    replace (Z.to_nat (i + 1 - pos)) with (S (Z.to_nat (i + 1 - (pos + 1))))
      in * by lia.
    simpl in *. apply IH; [lia | assumption].
Qed.

Lemma invalid_at_false (ys : list float) (z : Z) :
  Pd.invalid_at ys z = false ->
  (0 <= z < Z.of_nat (length ys))%Z /\
  Np.isnan (nth (Z.to_nat z) ys nan) = false.
Proof.
  unfold Pd.invalid_at.
  destruct ((z <? 0)%Z || (Z.of_nat (length ys) <=? z)%Z) eqn:Hr;
    [discriminate|].
  apply orb_false_iff in Hr as [H0 H1].
  apply Z.ltb_ge in H0. apply Z.leb_gt in H1. intro Hv. split; [lia|exact Hv].
Qed.

Lemma prev_valid_none (ys : list float) :
  forall (pos i : Z) acc,
    (forall m, m < length ys -> (pos + Z.of_nat m < i)%Z ->
       Np.isnan (nth m ys nan) = true) ->
    Pd.prev_valid ys pos i acc = acc.
Proof.
  induction ys as [|y ys IH]; intros pos i acc Hnan; [reflexivity|].
  simpl Pd.prev_valid.
  destruct (i <=? pos)%Z eqn:Hle; [reflexivity|].
  apply Z.leb_gt in Hle.
  assert (Hy : Np.isnan y = true)
    by (apply (Hnan 0); simpl; lia).
  rewrite Hy. apply IH. intros m Hm Hlt.
  apply (Hnan (S m)); simpl; lia.
Qed.

Lemma prev_valid_some (ys : list float) :
  forall (pos i : Z) acc (j : nat),
    j < length ys -> (pos + Z.of_nat j < i)%Z ->
    Np.isnan (nth j ys nan) = false ->
    (forall m, j < m < length ys -> (pos + Z.of_nat m < i)%Z ->
       Np.isnan (nth m ys nan) = true) ->
    Pd.prev_valid ys pos i acc = Some ((pos + Z.of_nat j)%Z, nth j ys nan).
Proof.
  induction ys as [|y ys IH]; intros pos i acc j Hj Hlt Hv Hnan;
    simpl in Hj; [lia|].
  simpl Pd.prev_valid.
  replace (i <=? pos)%Z with false by (symmetry; apply Z.leb_gt; lia).
  destruct j as [|j].
  - simpl in Hv. rewrite Hv. rewrite Z.add_0_r.
    apply prev_valid_none. intros m Hm Hmi.
    apply (Hnan (S m)); simpl; lia.
  - simpl in Hv. rewrite (IH (pos + 1)%Z i _ j); [| lia | lia | exact Hv |].
    + simpl nth. do 2 f_equal. lia.
    + intros m Hm Hmi. apply (Hnan (S m)); simpl; lia.
Qed.

Lemma next_valid_none (ys : list float) :
  forall (pos i : Z),
    (forall m, m < length ys -> (i < pos + Z.of_nat m)%Z ->
       Np.isnan (nth m ys nan) = true) ->
    Pd.next_valid ys pos i = None.
Proof.
  induction ys as [|y ys IH]; intros pos i Hnan; [reflexivity|].
  simpl Pd.next_valid.
  destruct (i <? pos)%Z eqn:Hlt.
  - apply Z.ltb_lt in Hlt.
    assert (Hy : Np.isnan y = true) by (apply (Hnan 0); simpl; lia).
    rewrite Hy. simpl. apply IH. intros m Hm Hmi.
    apply (Hnan (S m)); simpl; lia.
  - simpl. apply IH. intros m Hm Hmi. apply (Hnan (S m)); simpl; lia.
Qed.

Lemma next_valid_some (ys : list float) :
  forall (pos i : Z) (k : nat),
    k < length ys -> (i < pos + Z.of_nat k)%Z ->
    Np.isnan (nth k ys nan) = false ->
    (forall m, m < k -> (i < pos + Z.of_nat m)%Z ->
       Np.isnan (nth m ys nan) = true) ->
    Pd.next_valid ys pos i = Some ((pos + Z.of_nat k)%Z, nth k ys nan).
Proof.
  induction ys as [|y ys IH]; intros pos i k Hk Hlt Hv Hnan;
    simpl in Hk; [lia|].
  simpl Pd.next_valid. destruct k as [|k].
  - simpl in Hv. rewrite Hv, Z.add_0_r.
    replace (i <? pos)%Z with true by (symmetry; apply Z.ltb_lt; lia).
    reflexivity.
  - simpl in Hv.
    assert (Hskip : (i <? pos)%Z && negb (Np.isnan y) = false).
    { destruct (i <? pos)%Z eqn:Hip; [|reflexivity].
      apply Z.ltb_lt in Hip.
      assert (Hy : Np.isnan y = true) by (apply (Hnan 0); simpl; lia).
      now rewrite Hy. }
    rewrite Hskip.
    rewrite (IH (pos + 1)%Z i k); [| lia | lia | exact Hv |].
    + simpl nth. do 2 f_equal. lia.
    + intros m Hm Hmi. apply (Hnan (S m)); simpl; lia.
Qed.

Lemma np_interp_between (ys : list float) (i j k : nat) :
  i < length ys ->
  nearest_valid_before ys i j -> nearest_valid_after ys i k ->
  Pd.np_interp ys (Z.of_nat i) = chord ys j k i.
Proof.
  intros Hi (Hji & Hjv & Hjn) (Hik & Hkv & Hkn). unfold Pd.np_interp.
  rewrite (prev_valid_some ys 0 (Z.of_nat i) None j);
    [| lia | lia | exact Hjv | intros m Hm Hmi; apply Hjn; lia].
  rewrite (next_valid_some ys 0 (Z.of_nat i) k);
    [| lia | lia | exact Hkv | intros m Hm Hmi; apply Hkn; lia].
  reflexivity.
Qed.

Lemma np_interp_leading (ys : list float) (i k : nat) :
  no_valid_before ys i -> nearest_valid_after ys i k ->
  Pd.np_interp ys (Z.of_nat i) = nth k ys nan.
Proof.
  intros Hnone (Hik & Hkv & Hkn). unfold Pd.np_interp.
  rewrite (prev_valid_none ys 0 (Z.of_nat i) None)
    by (intros m Hm Hmi; apply Hnone; lia).
  rewrite (next_valid_some ys 0 (Z.of_nat i) k);
    [| lia | lia | exact Hkv | intros m Hm Hmi; apply Hkn; lia].
  reflexivity.
Qed.

Lemma np_interp_trailing (ys : list float) (i j : nat) :
  i < length ys ->
  nearest_valid_before ys i j -> no_valid_after ys i ->
  Pd.np_interp ys (Z.of_nat i) = nth j ys nan.
Proof.
  intros Hi (Hji & Hjv & Hjn) Hnone. unfold Pd.np_interp.
  rewrite (prev_valid_some ys 0 (Z.of_nat i) None j);
    [| lia | lia | exact Hjv | intros m Hm Hmi; apply Hjn; lia].
  rewrite (next_valid_none ys 0 (Z.of_nat i))
    by (intros m Hm Hmi; apply Hnone; lia).
  reflexivity.
Qed.

Lemma interpolate_values_spec (ys : list float) :
  interpolated_limit_one_both ys (Pd.interpolate_values ys).
Proof.
  split; [apply interpolate_values_length|].
  intros i Hi z.
  pose proof (interpolate_values_nth ys i Hi) as Hn. fold z in Hn.
  pose proof (invalid_at_in_range ys i Hi) as Hinv. fold z in Hinv.
  assert (Hneigh : Np.isnan (nth i ys nan) = true ->
            Pd.invalid_at ys (z - 1) = false \/ Pd.invalid_at ys (z + 1) = false ->
            nth i (Pd.interpolate_values ys) nan = Pd.np_interp ys z).
  { intros Hnan Hor. rewrite Hn.
    destruct (forallb Np.isnan ys) eqn:Hall.
    - destruct Hor as [H|H];
        rewrite (all_nan_invalid ys _ Hall) in H; discriminate.
    - rewrite Hnan. unfold Pd.preserve_nan.
      destruct Hor as [H|H]; rewrite H;
        now rewrite ?andb_false_r. }
  split; [|split; [|split]].
  - intro Hv. rewrite Hn, Hv.
    destruct (forallb Np.isnan ys) eqn:Hall; [|reflexivity].
    rewrite forallb_forall in Hall.
    rewrite (Hall (nth i ys nan)) in Hv by (apply nth_In; assumption).
    discriminate.
  - intros Hnan Hp Hq. rewrite Hn, Hnan.
    destruct (forallb Np.isnan ys); [reflexivity|].
    unfold Pd.preserve_nan. now rewrite Hinv, Hnan, Hp, Hq.
  - intros Hnan Hor. rewrite (Hneigh Hnan Hor). unfold z.
    split; [|split].
    + intros j k Hj Hk. now apply np_interp_between.
    + intros k Hnone Hk. rewrite (np_interp_leading ys i k Hnone Hk).
      split; [reflexivity | exact (proj1 (proj2 Hk))].
    + intros j Hj Hnone. rewrite (np_interp_trailing ys i j Hi Hj Hnone).
      split; [reflexivity | exact (proj1 (proj2 Hj))].
  - intros Hnan Hp Hq. rewrite (Hneigh Hnan (or_introl Hp)). unfold z.
    apply invalid_at_false in Hp as [Hpr Hpv].
    apply invalid_at_false in Hq as [Hqr Hqv].
    replace (Z.to_nat (z - 1)) with (i - 1) in Hpv by (unfold z; lia).
    replace (Z.to_nat (z + 1)) with (i + 1) in Hqv by (unfold z; lia).
    apply np_interp_between; [exact Hi | |].
    + split; [unfold z in Hpr; lia|]. split; [exact Hpv|]. intros m Hm. lia.
    + split; [unfold z in Hqr; lia|]. split; [exact Hqv|]. intros m Hm. lia.
Qed.

(** ** Stored temperatures *)

(** C6, as stated, fails: on temperatures [1, NaN, NaN, 4] both samples of
    the two-hour gap are overwritten, and the record the constructor builds
    stores [1, 2, 3, 4]. *)
Lemma gap_of_two_is_filled :
  in_long_gap gap_of_two 1 = true /\
  in_long_gap gap_of_two 2 = true /\
  Pd.interpolate_values gap_of_two = [1; 2; 3; 4]%float /\
  exists t,
    Thermostat__init__ typed_equipment "FAKE" (Some "non_heat_pump") None
      (Some "central") None "FAKE" "FAKE"
      (hourly_series ts_2020_06_29 gap_of_two)
      (hourly_series ts_2020_06_29 gap_of_two)
      (Some (hourly_series ts_2020_06_29 [0; 0; 0; 0]%float))
      (Some (hourly_series ts_2020_06_29 [2; 2; 2; 2]%float))
      None None = Ok t /\
    Pd.values (temperature_in t) = [1; 2; 3; 4]%float /\
    Pd.values (temperature_out t) = [1; 2; 3; 4]%float /\
    Np.isnan (nth 1 (Pd.values (temperature_in t)) nan) = false /\
    Np.isnan (nth 2 (Pd.values (temperature_in t)) nan) = false.
Proof.
  repeat split; try (vm_compute; reflexivity).
  eexists. split; [vm_compute; reflexivity|].
  repeat split; vm_compute; reflexivity.
Qed.

(** C6, amended: the interpolation of the constructor ([limit=1] in both
    directions) keeps valid samples, leaves missing a sample whose two
    neighbours are missing or absent, and overwrites every missing sample
    that has a valid sample just before or just after it with the linear
    interpolant: the chord through the nearest valid sample on each side
    (its two neighbours for a gap of one), or the nearest valid sample
    itself where one side of the series has none. *)
Theorem stored_temperature_interpolation :
  forall E tid ht hst ct cst zc stn tin tout cr hr aux emg t,
    Thermostat__init__ E tid ht hst ct cst zc stn tin tout cr hr aux emg
    = Ok t ->
    interpolated_limit_one_both (Pd.values tin) (Pd.values (temperature_in t))
    /\ interpolated_limit_one_both (Pd.values tout)
         (Pd.values (temperature_out t)).
Proof.
  intros E tid ht hst ct cst zc stn tin tout cr hr aux emg t Hinit.
  unfold Thermostat__init__ in Hinit.
  apply rbind_ok in Hinit as [[] [_ Hret]].
  apply rbind_ok in Hret as [[] [_ Hret]].
  injection Hret as <-. simpl.
  unfold _interpolate. simpl.
  rewrite !values_interpolate.
  split; apply interpolate_values_spec.
Qed.

Lemma stored_temperature_interpolation_witness :
  exists t,
    Thermostat__init__ typed_equipment "FAKE" (Some "non_heat_pump") None
      (Some "central") None "FAKE" "FAKE"
      (hourly_series ts_2020_06_29 [1; nan; nan; nan; 5]%float)
      (hourly_series ts_2020_06_29 [nan; nan; 3; nan; 5]%float)
      (Some (hourly_series ts_2020_06_29 [0; 0; 0; 0; 0]%float))
      (Some (hourly_series ts_2020_06_29 [2; 2; 2; 2; 2]%float))
      None None = Ok t /\
    Pd.values (temperature_in t) = [1; 2; nan; 4; 5]%float /\
    Pd.values (temperature_out t) = [nan; 3; 3; 4; 5]%float /\
    interpolated_limit_one_both [1; nan; nan; nan; 5]%float
      (Pd.values (temperature_in t)) /\
    interpolated_limit_one_both [nan; nan; 3; nan; 5]%float
      (Pd.values (temperature_out t)).
Proof.
  eexists. split; [vm_compute; reflexivity|].
  split; [vm_compute; reflexivity|]. split; [vm_compute; reflexivity|].
  exact (stored_temperature_interpolation typed_equipment "FAKE"
           (Some "non_heat_pump") None (Some "central") None "FAKE" "FAKE"
           (hourly_series ts_2020_06_29 [1; nan; nan; nan; 5]%float)
           (hourly_series ts_2020_06_29 [nan; nan; 3; nan; 5]%float)
           (Some (hourly_series ts_2020_06_29 [0; 0; 0; 0; 0]%float))
           (Some (hourly_series ts_2020_06_29 [2; 2; 2; 2; 2]%float))
           None None _ eq_refl).
Defined.

(** ** Hour-of-year key of the hourly baseline *)

Lemma dayofyear_common (y m d : Z) :
  Calendar.is_leap_year y = false ->
  Calendar.dayofyear (mkDate y m d) = (Calendar.days_before_month m + d)%Z.
Proof. intro H. unfold Calendar.dayofyear. simpl. rewrite H. simpl. lia. Qed.

Lemma dayofyear_leap (y m d : Z) :
  Calendar.is_leap_year y = true ->
  Calendar.dayofyear (mkDate y m d)
  = (Calendar.days_before_month m + d + (if (2 <? m)%Z then 1 else 0))%Z.
Proof. intro H. unfold Calendar.dayofyear. simpl. now rewrite H. Qed.

(** In a common year the key is the plain hour count of the year. *)
Lemma hour_of_year_common (y m d h : Z) :
  Calendar.is_leap_year y = false ->
  hour_of_year (mkTimestamp (mkDate y m d) h)
  = (1 + h + (Calendar.days_before_month m + d - 1) * 24)%Z.
Proof.
  intro H. unfold hour_of_year, leap_adjustment. simpl.
  rewrite H, (dayofyear_common y m d H). simpl. lia.
Qed.

(** What the code gets right: in a leap year, every valid date other than
    February 28 and February 29 receives the key of the same calendar date
    and hour of a common year, and February 29 receives the key of
    February 28. *)
Lemma hour_of_year_leap_other_dates (y y' m d h : Z) :
  Calendar.is_leap_year y = true ->
  Calendar.is_leap_year y' = false ->
  Calendar.valid_date (mkDate y m d) ->
  (m = 2%Z -> d <> 28%Z) ->
  hour_of_year (mkTimestamp (mkDate y m d) h)
  = if (m =? 2)%Z && (d =? 29)%Z
    then hour_of_year (feb y' 28 h)
    else hour_of_year (mkTimestamp (mkDate y' m d) h).
Proof.
  intros Hl Hc [Hm Hd] Hne. simpl in Hm, Hd.
  unfold feb. rewrite !(hour_of_year_common y' _ _ _ Hc).
  unfold hour_of_year, leap_adjustment. simpl.
  rewrite Hl, (dayofyear_leap y m d Hl).
  unfold Calendar.days_in_month in Hd. rewrite Hl in Hd.
  assert (Hcases : (m = 1 \/ m = 2 \/ m = 3 \/ m = 4 \/ m = 5 \/ m = 6 \/
                    m = 7 \/ m = 8 \/ m = 9 \/ m = 10 \/ m = 11 \/ m = 12)%Z)
    by lia.
  destruct Hcases as [->|[->|[->|[->|[->|[->|[->|[->|[->|[->|[->| ->]]]]]]]]]]];
    unfold Calendar.days_before_month; simpl in *;
    try (specialize (Hne eq_refl));
    try (destruct (d =? 29)%Z eqn:Hd29;
         [apply Z.eqb_eq in Hd29 | apply Z.eqb_neq in Hd29]);
    match goal with
    | |- context [(59 <=? ?x)%Z] =>
        destruct (59 <=? x)%Z eqn:Hcmp;
        [apply Z.leb_le in Hcmp | apply Z.leb_gt in Hcmp]; lia
    end.
Qed.

(** C9: the adjustment starts one day early.  In a leap year the hours of
    February 28 receive the keys of February 27 of a common year -- the
    rows 24 before the ones that date has in a common year -- so February 28
    is displaced along with February 29. *)
Theorem hour_of_year_leap_feb28 :
  forall y y' h : Z,
    Calendar.is_leap_year y = true ->
    Calendar.is_leap_year y' = false ->
    hour_of_year (feb y 28 h) = hour_of_year (feb y' 27 h) /\
    hour_of_year (feb y 28 h) = (hour_of_year (feb y' 28 h) - 24)%Z /\
    hour_of_year (feb y 28 h) = hour_of_year (feb y 27 h).
Proof.
  intros y y' h Hl Hc. unfold feb.
  rewrite !(hour_of_year_common y' _ _ _ Hc).
  unfold hour_of_year, leap_adjustment. simpl.
  rewrite Hl, !(dayofyear_leap y _ _ Hl).
  unfold Calendar.days_before_month. simpl. repeat split; lia.
Qed.

Lemma hour_of_year_leap_feb28_witness :
  hour_of_year (feb 2020 28 0) = hour_of_year (feb 2019 27 0) /\
  hour_of_year (feb 2020 28 0) = (hour_of_year (feb 2019 28 0) - 24)%Z /\
  hour_of_year (feb 2020 28 0) = hour_of_year (feb 2020 27 0).
Proof.
  exact (hour_of_year_leap_feb28 2020 2019 0 eq_refl eq_refl).
Defined.

(** The keys at the turn of February 2020, against those of 2019. *)
Example hour_of_year_february_2020 :
  List.map hour_of_year [feb 2020 27 0; feb 2020 28 0; feb 2020 29 0]
  = [1369; 1369; 1393]%Z /\
  List.map hour_of_year [feb 2019 27 0; feb 2019 28 0] = [1369; 1393]%Z.
Proof. split; reflexivity. Qed.

(** ** Resistance heat utilization bins *)

Lemma cut_intervals_length (bins : list Z) (cats : list Interval) :
  cut_intervals bins = Ok cats -> length cats = length bins - 1.
Proof.
  unfold cut_intervals. destruct (strictly_increasing bins); [|discriminate].
  intro H. injection H as <-.
  rewrite length_map, length_combine.
  destruct bins as [|b bs]; [reflexivity|]. cbn [tl length].
  rewrite Nat.min_r by lia. lia.
Qed.

(** C8: with the capabilities the function requires and increasing bin
    edges, the call returns the binned frame without raising; in every bin
    whose summed auxiliary runtime exceeds its summed heat runtime the bin is
    flagged, its [rhu] is NaN and a warning for that bin is emitted. *)
Theorem rhu_nonsense_bins :
  forall (self : Thermostat) (runtime_temp : RuntimeTemp) (bins : list Z)
         (cds : CoreDaySet) (min_runtime_minutes : option Z),
    has_resistance_heat self = true ->
    has_auxiliary self = true ->
    has_emergency self = true ->
    strictly_increasing bins = true ->
    exists categories warned,
      cut_intervals bins = Ok categories /\
      get_resistance_heat_utilization_bins self (Some runtime_temp) bins cds
        min_runtime_minutes
      = Ok (Some (List.map (rhu_row runtime_temp min_runtime_minutes)
                    categories), warned) /\
      forall iv, In iv categories ->
        let row := rhu_row runtime_temp min_runtime_minutes iv in
        (rhu_heat_runtime row <? rhu_aux_runtime row)%float = true ->
        rhu_rhu row = nan /\
        rhu_data_is_nonsense row = true /\
        In (rhu_warning self cds row) warned.
Proof.
  intros self rt bins cds mn Hres Haux Hemg Hinc.
  unfold get_resistance_heat_utilization_bins, _protect_resistance_heat,
    _protect_aux_emerg, cut_intervals.
  rewrite Hres, Haux, Hemg, Hinc.
  cbv beta iota delta [rbind negb andb].
  set (categories := List.map _ (combine bins (tl bins))).
  set (rows := List.map (rhu_row rt mn) categories).
  eexists categories, _. split; [reflexivity|]. split; [reflexivity|].
  intros iv Hin Hgt. set (row := rhu_row rt mn iv) in *.
  assert (Hflag : rhu_data_is_nonsense row = true) by exact Hgt.
  assert (Hrow : In row rows) by (apply in_map; exact Hin).
  repeat split.
  - unfold row, rhu_row in *. simpl in *. now rewrite Hgt.
  - exact Hflag.
  - assert (Hex : existsb rhu_data_is_nonsense rows = true)
      by (apply existsb_exists; eauto).
    rewrite Hex. apply in_map. apply filter_In. split; assumption.
Qed.

Lemma rhu_nonsense_bins_witness :
  exists warned,
    get_resistance_heat_utilization_bins heat_pump (Some aux_over_heat)
      RESISTANCE_HEAT_USE_WIDE_BIN jan_2020 None
    = Ok (Some [rhu_row aux_over_heat None (mkInterval 30 45)], warned) /\
    rhu_aux_runtime (rhu_row aux_over_heat None (mkInterval 30 45)) = 60%float /\
    rhu_heat_runtime (rhu_row aux_over_heat None (mkInterval 30 45)) = 60%float /\
    (let row := rhu_row aux_over_heat None (mkInterval 30 35) in
     rhu_aux_runtime row = 50%float /\ rhu_heat_runtime row = 30%float /\
     rhu_rhu row = nan /\ rhu_data_is_nonsense row = true /\
     In (rhu_warning heat_pump jan_2020 row)
        (match get_resistance_heat_utilization_bins heat_pump
                 (Some aux_over_heat) RESISTANCE_HEAT_USE_BIN jan_2020 None
         with Ok (_, w) => w | Raise _ => [] end)).
Proof.
  destruct (rhu_nonsense_bins heat_pump aux_over_heat RESISTANCE_HEAT_USE_BIN
              jan_2020 None eq_refl eq_refl eq_refl eq_refl)
    as (categories & warned & Hcut & Hcall & Hbins).
  injection Hcut as <-.
  eexists. split; [vm_compute; reflexivity|].
  split; [vm_compute; reflexivity|]. split; [vm_compute; reflexivity|].
  cbv zeta. rewrite Hcall.
  specialize (Hbins (mkInterval 30 35)).
  split; [vm_compute; reflexivity|]. split; [vm_compute; reflexivity|].
  apply Hbins; [vm_compute; tauto | vm_compute; reflexivity].
Defined.

(** ** Sigmoid fit *)

(** Whether [calc_estimates] raises depends on the frame, not on the
    parameters. *)
Lemma calc_estimates_total (erf : float -> float) (thr : Z)
    (p : list float) (mu sigma : float) (df : DataFrame) (e : float) :
  fit_sigmoid_model_calc_estimates erf thr p df = Ok e ->
  exists e',
    fit_sigmoid_model_calc_estimates erf thr [mu; sigma] df = Ok e'.
Proof.
  unfold fit_sigmoid_model_calc_estimates. intro H.
  apply rbind_ok in H as (mu0 & _ & H).
  apply rbind_ok in H as (sigma0 & _ & H).
  apply rbind_ok in H as (np & Hnp & H).
  apply rbind_ok in H as (rv & Hrv & H).
  apply rbind_ok in H as (np' & Hnp' & _).
  cbn [nth_error rbind]. rewrite Hnp. cbn [rbind].
  rewrite Hrv. cbn [rbind]. rewrite Hnp'. cbn [rbind]. eauto.
Qed.

(** C10: when the solve succeeds with [y.x = [mu, sigma]], the frame the
    caller passed is updated in place -- it gains the column
    ['estimated_rhu'], its other columns and its index are kept, no other
    frame of the heap changes -- and four values are returned; when the
    solve raises, the heap is unchanged and the four values are [None]. *)
Theorem fit_sigmoid_model_frame_effect :
  forall (trf : TrustRegion) (erf : float -> float) (runtime_rhu : loc)
         (n_points_threshold : Z) (h : heap) (df : DataFrame),
    h !! runtime_rhu = Some df ->
    let solve :=
      least_squares trf
        (fun parameters =>
           fit_sigmoid_model_calc_estimates erf n_points_threshold
             parameters df)
        [30; 5]%float in
    (forall mu sigma : float,
        solve = Ok [mu; sigma] ->
        exists (h' : heap) (df' : DataFrame) (err integral : float),
          fit_sigmoid_model trf erf runtime_rhu n_points_threshold h
          = (h', (Some mu, Some sigma, Some err, Some integral)) /\
          h' = <[runtime_rhu := df']> h /\
          h' !! runtime_rhu = Some df' /\
          df_index df' = df_index df /\
          df_columns df' !! "estimated_rhu"
          = Some (estimated_rhu erf mu sigma df) /\
          (forall c : string, c <> "estimated_rhu" ->
             df_columns df' !! c = df_columns df !! c) /\
          (forall l : loc, l <> runtime_rhu -> h' !! l = h !! l)) /\
    (forall e : exn,
        solve = Raise e ->
        fit_sigmoid_model trf erf runtime_rhu n_points_threshold h
        = (h, (None, None, None, None))).
Proof.
  intros trf erf l thr h df Hdf solve. split.
  - intros mu sigma Hsolve.
    assert (Hf0 : exists e0,
              fit_sigmoid_model_calc_estimates erf thr [30; 5]%float df
              = Ok e0).
    { unfold solve, least_squares in Hsolve.
      apply rbind_ok in Hsolve as (f0 & Hf0 & _). eauto. }
    destruct Hf0 as [e0 Hf0].
    destruct (calc_estimates_total erf thr _ mu sigma df e0 Hf0) as [err Herr].
    exists (<[l := df_setitem df "estimated_rhu" (estimated_rhu erf mu sigma df)]> h),
      (df_setitem df "estimated_rhu" (estimated_rhu erf mu sigma df)),
      err, (Np.nansum (estimated_rhu erf mu sigma df)).
    split.
    + unfold fit_sigmoid_model, fit_sigmoid_model_try, deref.
      rewrite Hdf. cbn [rbind]. fold solve. rewrite Hsolve.
      cbn [rbind nth_error]. rewrite Herr. cbn [rbind].
      unfold df_column, df_setitem. cbn [df_columns].
      rewrite lookup_insert_eq. reflexivity.
    + split; [reflexivity|]. split; [apply lookup_insert_eq|].
      split; [reflexivity|]. split; [apply lookup_insert_eq|].
      split.
      * intros c Hc. cbn [df_setitem df_columns].
        apply lookup_insert_ne. congruence.
      * intros l' Hl'. apply lookup_insert_ne. congruence.
  - intros e Hsolve.
    unfold fit_sigmoid_model, fit_sigmoid_model_try, deref.
    rewrite Hdf. cbn [rbind]. fold solve. rewrite Hsolve. reflexivity.
Qed.

Lemma fit_sigmoid_model_frame_effect_witness :
  (exists h' df' err integral,
      fit_sigmoid_model trf_returns ramp 1%positive 2
        (<[1%positive := three_bins]> ∅)
      = (h', (Some 7%float, Some 3%float, Some err, Some integral)) /\
      h' !! 1%positive = Some df' /\
      df_columns df' !! "estimated_rhu"
      = Some (estimated_rhu ramp 7 3 three_bins) /\
      df_columns three_bins !! "estimated_rhu" = None) /\
  fit_sigmoid_model trf_raises ramp 1%positive 2
    (<[1%positive := three_bins]> ∅)
  = (<[1%positive := three_bins]> ∅, (None, None, None, None)).
Proof.
  pose proof (fit_sigmoid_model_frame_effect trf_returns ramp 1%positive 2
                (<[1%positive := three_bins]> ∅) three_bins eq_refl) as Hok.
  pose proof (fit_sigmoid_model_frame_effect trf_raises ramp 1%positive 2
                (<[1%positive := three_bins]> ∅) three_bins eq_refl) as Hno.
  cbv zeta in Hok, Hno. split.
  - destruct (proj1 Hok 7%float 3%float eq_refl)
      as (h' & df' & err & integral & Hcall & _ & Hh' & _ & Hcol & _).
    exists h', df', err, integral. repeat split; try assumption.
  - exact (proj2 Hno ValueError eq_refl).
Defined.

(** ** Boolean masks *)

Lemma lookup_Some_In {L A} `{EqDecision L} (s : Series L A) (l : L) (v : A) :
  Pd.lookup s l = Some v -> In (l, v) s.
Proof.
  induction s as [|[l' v'] s IH]; simpl; [discriminate|].
  destruct (decide (l' = l)) as [->|Hne].
  - intro H. injection H as ->. now left.
  - intro H. right. auto.
Qed.

Lemma lookup_In_covered {L A} `{EqDecision L} (s : Series L A) (r : L * A) :
  In r s -> exists v, Pd.lookup s (fst r) = Some v.
Proof.
  induction s as [|[l' v'] s IH]; simpl; [tauto|].
  intros [<-|Hin]; simpl.
  - destruct (decide (l' = l')); [eauto | congruence].
  - destruct (decide (l' = fst r)); [eauto | auto].
Qed.

Lemma mask_covers_self {L} `{EqDecision L} (mask : Series L bool) :
  mask_covers mask mask.
Proof.
  intros r Hin. unfold Pd.covered.
  destruct (lookup_In_covered mask r Hin) as [v ->]. reflexivity.
Qed.

Lemma getitem_mask_covers {L A} `{EqDecision L} (s : Series L A)
    (mask : Series L bool) :
  mask_covers mask s ->
  Pd.getitem_mask s mask
  = Ok (List.filter (fun r => Pd.selected mask (fst r)) s).
Proof.
  intro Hc. unfold Pd.getitem_mask.
  replace (forallb (fun r => Pd.covered mask (fst r)) s) with true;
    [reflexivity|].
  symmetry. apply forallb_forall. exact Hc.
Qed.

Lemma selects_nothing_selected {L} `{EqDecision L} (mask : Series L bool)
    (l : L) :
  selects_nothing mask -> Pd.selected mask l = false.
Proof.
  intro Hn. unfold Pd.selected.
  destruct (Pd.lookup mask l) as [[|]|] eqn:Hl; try reflexivity.
  apply lookup_Some_In in Hl. apply Hn in Hl. discriminate.
Qed.

Lemma getitem_mask_nothing {L A} `{EqDecision L} (s : Series L A)
    (mask : Series L bool) :
  mask_covers mask s -> selects_nothing mask ->
  Pd.getitem_mask s mask = Ok [].
Proof.
  intros Hc Hn. rewrite getitem_mask_covers by assumption. f_equal.
  induction s as [|r s IH]; [reflexivity|]. simpl.
  rewrite selects_nothing_selected by assumption.
  apply IH. intros r' Hr'. apply Hc. now right.
Qed.

Lemma np_repeat_all_false (vals : list bool) (n : nat) :
  (forall b, In b vals -> b = false) ->
  forall b, In b (np_repeat vals n) -> b = false.
Proof.
  intros Hv b Hin. unfold np_repeat in Hin.
  apply in_flat_map in Hin as (v & Hvin & Hrep).
  apply repeat_spec in Hrep. subst b. auto.
Qed.

Lemma broadcast_selects_nothing (d : DSeries bool) (h : HSeries bool) :
  Pd.values h = np_repeat (Pd.values d) 24 ->
  selects_nothing d -> selects_nothing h.
Proof.
  intros Hb Hd r Hr.
  apply (np_repeat_all_false (Pd.values d) 24).
  - intros b Hbin. unfold Pd.values in Hbin.
    apply in_map_iff in Hbin as (r' & <- & Hr'). auto.
  - rewrite <- Hb. unfold Pd.values. now apply in_map.
Qed.

(** ** Demand models on an empty core day set *)

Lemma fit_demand_nothing (lmdif : Minpack) (self : Thermostat)
    (hourly_dd : float -> float -> float) (runtime_daily : DSeries float)
    (cds : CoreDaySet) :
  selects_nothing (daily cds) ->
  selects_nothing (hourly cds) ->
  mask_covers (hourly cds) (temperature_in self) ->
  mask_covers (hourly cds) (temperature_out self) ->
  mask_covers (daily cds) runtime_daily ->
  fit_demand lmdif self hourly_dd runtime_daily cds = Ok all_nan_result.
Proof.
  intros Hd Hh Hin Hout Hrt. unfold fit_demand.
  rewrite (getitem_mask_nothing _ _ Hin Hh).
  rewrite (getitem_mask_nothing _ _ Hout Hh).
  rewrite (getitem_mask_nothing _ _ (mask_covers_self (daily cds)) Hd).
  rewrite (getitem_mask_nothing _ _ Hrt Hd).
  reflexivity.
Qed.

(** C2: on a core day set whose daily mask selects no day (its hourly mask
    being the 24-hour broadcast of the daily one, and both masks carrying
    the labels of the series they select from), [get_cooling_demand] and
    [get_heating_demand] return without raising, whatever the solver is:
    an empty demand series and NaN in every other slot. *)
Theorem demand_on_empty_core_day_set :
  forall (lmdif : Minpack) (self : Thermostat) (cds : CoreDaySet),
    selects_nothing (daily cds) ->
    Pd.values (hourly cds) = np_repeat (Pd.values (daily cds)) 24 ->
    mask_covers (hourly cds) (temperature_in self) ->
    mask_covers (hourly cds) (temperature_out self) ->
    (has_cooling self = true ->
     mask_covers (daily cds) (cool_runtime_daily self) ->
     get_cooling_demand lmdif self cds = Ok all_nan_result) /\
    (has_heating self = true ->
     mask_covers (daily cds) (heat_runtime_daily self) ->
     get_heating_demand lmdif self cds = Ok all_nan_result).
Proof.
  intros lmdif self cds Hd Hb Hin Hout.
  pose proof (broadcast_selects_nothing _ _ Hb Hd) as Hh.
  split; intros Hcap Hrt.
  - unfold get_cooling_demand, _protect_cooling. rewrite Hcap. cbn [negb rbind].
    now apply fit_demand_nothing.
  - unfold get_heating_demand, _protect_heating. rewrite Hcap. cbn [negb rbind].
    now apply fit_demand_nothing.
Qed.

Lemma selects_nothing_forallb {L} (mask : Series L bool) :
  forallb (fun r => negb (snd r)) mask = true -> selects_nothing mask.
Proof.
  intros H r Hr. rewrite forallb_forall in H. apply H in Hr.
  now destruct (snd r).
Qed.

Lemma mask_covers_forallb {L A} `{EqDecision L} (mask : Series L bool)
    (s : Series L A) :
  forallb (fun r => Pd.covered mask (fst r)) s = true -> mask_covers mask s.
Proof. intro H. unfold mask_covers. apply forallb_forall. exact H. Qed.

Lemma two_days_constructed : two_days_record = Ok two_days.
Proof. vm_compute. reflexivity. Qed.

Lemma demand_on_empty_core_day_set_witness :
  get_cooling_demand lmdif_raises two_days (two_days_set [false; false])
  = Ok all_nan_result /\
  get_heating_demand lmdif_raises two_days (two_days_set [false; false])
  = Ok all_nan_result.
Proof.
  destruct (demand_on_empty_core_day_set lmdif_raises two_days
              (two_days_set [false; false])) as [Hc Hh].
  - apply selects_nothing_forallb. vm_compute. reflexivity.
  - vm_compute. reflexivity.
  - apply mask_covers_forallb. vm_compute. reflexivity.
  - apply mask_covers_forallb. vm_compute. reflexivity.
  - split.
    + apply Hc; [reflexivity|]. apply mask_covers_forallb. vm_compute.
      reflexivity.
    + apply Hh; [reflexivity|]. apply mask_covers_forallb. vm_compute.
      reflexivity.
Defined.

(** ** Zero runtimes through the demand fit (binary64 facts) *)

Local Open Scope float_scope.














Local Close Scope float_scope.

(** ** Demand models on a non-empty core day set *)












(** Outside the runtime domain the NaN is not guaranteed: on daily heating
    runtimes of -48 and 48 minutes, which no record of minutes between 0
    and 60 has, the mean is zero and the residuals are not, and
    [rmse / mean] is infinity -- the division of [numpy.float64] values
    raises no [ZeroDivisionError]. *)
Example cvrmse_of_signed_runtimes :
  Pd.values (heat_runtime_daily signed_days) = [-48; 48]%float /\
  Np.nanmean (Pd.values (heat_runtime_daily signed_days)) = 0%float /\
  (exists r,
      get_heating_demand lmdif_stays signed_days (two_days_set [true; true])
      = Ok r /\
      dm_tau r = 0%float /\ dm_rmse r = 48%float /\ dm_cvrmse r = infinity) /\
  (exists r,
      get_heating_demand lmdif_returns signed_days (two_days_set [true; true])
      = Ok r /\
      dm_tau r = 5%float /\ dm_rmse r = 48%float /\ dm_cvrmse r = infinity).
Proof.
  split; [vm_compute; reflexivity|]. split; [vm_compute; reflexivity|].
  split.
  - eexists. split; [vm_compute; reflexivity|].
    split; [reflexivity|]. split; reflexivity.
  - eexists. split; [vm_compute; reflexivity|].
    split; [reflexivity|]. split; reflexivity.
Qed.

(** ** Label look-up through the mask operations *)

Section MaskLookup.
Context {L : Type} `{EqDecision L} `{LabelOrder L}.

Lemma label_in_In (l : L) (idx : list L) :
  label_in l idx = true <-> In l idx.
Proof.
  unfold label_in. rewrite existsb_exists. split.
  - intros (l' & Hin & Heq). apply bool_decide_eq_true_1 in Heq. now subst.
  - intro Hin. exists l. split; [exact Hin|].
    now apply bool_decide_eq_true_2.
Qed.

Lemma In_insert_label (x l : L) (ls : list L) :
  In x (Pd.insert_label l ls) <-> x = l \/ In x ls.
Proof.
  induction ls as [|l' ls IH]; simpl.
  - intuition congruence.
  - destruct (decide (l = l')) as [->|Hne].
    + simpl. intuition congruence.
    + destruct (label_ltb l l'); simpl; [intuition congruence|].
      rewrite IH. intuition congruence.
Qed.

Lemma In_sorted_labels (x : L) (ls : list L) :
  In x (Pd.sorted_labels ls) <-> In x ls.
Proof.
  unfold Pd.sorted_labels. induction ls as [|l ls IH]; simpl; [tauto|].
  rewrite In_insert_label, IH. intuition congruence.
Qed.

Lemma lookup_map_snd {A B} (f : L -> A -> B) (s : Series L A) (l : L) :
  Pd.lookup (List.map (fun r => (fst r, f (fst r) (snd r))) s) l
  = option_map (f l) (Pd.lookup s l).
Proof.
  induction s as [|[l' v] s IH]; [reflexivity|]. simpl.
  destruct (decide (l' = l)) as [->|]; [reflexivity | exact IH].
Qed.

Lemma lookup_of_labels {B} (g : L -> B) (idx : list L) (l : L) :
  Pd.lookup (List.map (fun l => (l, g l)) idx) l
  = if label_in l idx then Some (g l) else None.
Proof.
  unfold label_in. induction idx as [|l' idx IH]; [reflexivity|].
  cbn [List.map Pd.lookup fst snd existsb].
  destruct (decide (l' = l)) as [->|Hne].
  - now rewrite bool_decide_eq_true_2.
  - rewrite bool_decide_eq_false_2 by assumption. exact IH.
Qed.

Lemma lookup_zip {A B C} (f : A -> B -> C) (a : Series L A)
    (b : Series L B) (l : L) :
  Pd.index a = Pd.index b ->
  Pd.lookup
    (List.map (fun p => (fst (fst p), f (snd (fst p)) (snd (snd p))))
       (combine a b)) l
  = match Pd.lookup a l, Pd.lookup b l with
    | Some x, Some y => Some (f x y)
    | _, _ => None
    end.
Proof.
  revert b. induction a as [|[la x] a IH]; intros [|[lb y] b] Hidx;
    simpl in *; try discriminate; [reflexivity|].
  injection Hidx as <- Hidx.
  destruct (decide (la = l)); [reflexivity | now apply IH].
Qed.

Lemma lookup_Some_index {A} (s : Series L A) (l : L) (v : A) :
  Pd.lookup s l = Some v -> In l (Pd.index s).
Proof.
  intro Hl. apply lookup_Some_In in Hl.
  unfold Pd.index. change l with (fst (l, v)). now apply in_map.
Qed.

Lemma selected_index (s : Series L bool) (l : L) :
  Pd.selected s l = true -> In l (Pd.index s).
Proof.
  unfold Pd.selected. destruct (Pd.lookup s l) as [[|]|] eqn:Hl;
    try discriminate.
  intros _. eapply lookup_Some_index, Hl.
Qed.

Lemma selected_and_series (a b : Series L bool) (l : L) :
  Pd.selected (Pd.and_series a b) l = Pd.selected a l && Pd.selected b l.
Proof.
  unfold Pd.and_series. destruct (decide (Pd.index a = Pd.index b)) as [He|_].
  - unfold Pd.selected at 1.
    rewrite (lookup_zip andb a b l He). unfold Pd.selected.
    destruct (Pd.lookup a l) as [[|]|], (Pd.lookup b l) as [[|]|];
      reflexivity.
  - unfold Pd.selected at 1.
    rewrite (lookup_of_labels (fun l => Pd.selected a l && Pd.selected b l)).
    destruct (label_in l _) eqn:Hin.
    + now destruct (Pd.selected a l && Pd.selected b l).
    + destruct (Pd.selected a l) eqn:Ha; [|reflexivity].
      apply selected_index in Ha.
      assert (Hl : label_in l (Pd.sorted_labels (Pd.index a ++ Pd.index b))
                   = true).
      { apply label_in_In, In_sorted_labels, in_or_app. now left. }
      congruence.
Qed.

Lemma index_and_series_aligned (a b : Series L bool) :
  Pd.index a = Pd.index b -> Pd.index (Pd.and_series a b) = Pd.index a.
Proof.
  intro He. unfold Pd.and_series.
  destruct (decide (Pd.index a = Pd.index b)) as [_|Hne]; [|congruence].
  unfold Pd.index in *. rewrite map_map. cbn [fst].
  revert b He. induction a as [|ra a IH]; intros [|rb b] He; simpl in *;
    try discriminate; [reflexivity|].
  injection He as Hr He. f_equal. now apply IH.
Qed.

Lemma selected_and_scalar_true (a : Series L bool) (l : L) :
  Pd.selected (Pd.and_scalar a true) l = Pd.selected a l.
Proof.
  unfold Pd.and_scalar, Pd.selected.
  rewrite (lookup_map_snd (fun _ v => v && true) a l).
  destruct (Pd.lookup a l) as [[|]|]; reflexivity.
Qed.

Lemma selected_reindex (s : Series L bool) (idx : list L) (l : L) :
  Pd.selected (Pd.reindex s idx) l = label_in l idx && Pd.selected s l.
Proof.
  unfold Pd.selected at 1, Pd.reindex.
  rewrite (lookup_of_labels (Pd.selected s)).
  destruct (label_in l idx); simpl; [|reflexivity].
  now destruct (Pd.selected s l).
Qed.

Lemma index_reindex (s : Series L bool) (idx : list L) :
  Pd.index (Pd.reindex s idx) = idx.
Proof.
  unfold Pd.index, Pd.reindex. rewrite map_map. simpl. apply map_id.
Qed.

(** A plain array computed from the labels, and-ed position by position. *)
Lemma and_array_of_labels (f : L -> bool) (s m : Series L bool) :
  Pd.and_array (List.map f (Pd.index s)) s = Ok m ->
  m = List.map (fun r => (fst r, f (fst r) && snd r)) s.
Proof.
  unfold Pd.and_array. destruct (Nat.eqb _ _); [|discriminate].
  intro Hm. injection Hm as <-. unfold Pd.index.
  induction s as [|r s IH]; [reflexivity|]. simpl. now rewrite IH.
Qed.

Lemma and_array_of_labels_ok (f : L -> bool) (s : Series L bool) :
  Pd.and_array (List.map f (Pd.index s)) s
  = Ok (List.map (fun r => (fst r, f (fst r) && snd r)) s).
Proof.
  destruct (Pd.and_array (List.map f (Pd.index s)) s) as [m|e] eqn:Hm.
  - f_equal. now apply and_array_of_labels.
  - unfold Pd.and_array, Pd.index in Hm.
    rewrite !length_map, Nat.eqb_refl in Hm. discriminate.
Qed.

Lemma selected_and_labels (f : L -> bool) (s : Series L bool) (l : L) :
  Pd.selected (List.map (fun r => (fst r, f (fst r) && snd r)) s) l
  = f l && Pd.selected s l.
Proof.
  unfold Pd.selected.
  rewrite (lookup_map_snd (fun l v => f l && v) s l).
  destruct (Pd.lookup s l) as [[|]|]; simpl; destruct (f l); reflexivity.
Qed.

End MaskLookup.

(** ** Structure of the detected core day sets *)

Lemma collect_In {A B} (f : A -> result (list B)) (l : list A)
    (xs : list B) (x : B) :
  collect f l = Ok xs -> In x xs ->
  exists a b, In a l /\ f a = Ok b /\ In x b.
Proof.
  revert xs. induction l as [|a l IH]; intros xs Hc Hx; simpl in Hc.
  - injection Hc as <-. destruct Hx.
  - apply rbind_ok in Hc as (b & Hb & Hc).
    apply rbind_ok in Hc as (bs & Hbs & Hc).
    injection Hc as <-. apply in_app_or in Hx as [Hx|Hx].
    + exists a, b. split; [now left|]. split; assumption.
    + destruct (IH bs Hbs Hx) as (a' & b' & Ha' & Hfa' & Hx').
      exists a', b'. split; [now right|]. split; assumption.
Qed.

Lemma _get_range_boolean_map (idx : list Date) (st en : Date) :
  _get_range_boolean idx st en
  = List.map (fun d => Calendar.date_leb st d && Calendar.date_ltb d en) idx.
Proof.
  unfold _get_range_boolean. induction idx as [|d idx IH]; [reflexivity|].
  simpl. now rewrite IH.
Qed.

Lemma period_core_day_set_shape (rd : DSeries float) (meets : DSeries bool)
    (ds de : Date) (nm : string) (ws we : Date) (l : list CoreDaySet)
    (cs : CoreDaySet) :
  period_core_day_set rd meets ds de nm ws we = Ok l -> In cs l ->
  emitted rd cs /\ Pd.any (daily cs) = true.
Proof.
  intros Hp Hin. unfold period_core_day_set in Hp.
  apply rbind_ok in Hp as (m & Hm & Hp).
  destruct (Pd.any _) eqn:Hany.
  - apply rbind_ok in Hp as (h & Hh & Hp). injection Hp as <-.
    destruct Hin as [<-|[]]. unfold emitted. cbn [daily hourly].
    repeat split; try assumption. apply index_reindex.
  - injection Hp as <-. destruct Hin.
Qed.

Lemma period_core_day_set_selected (rd : DSeries float)
    (meets : DSeries bool) (ds de : Date) (nm : string) (ws we : Date)
    (l : list CoreDaySet) (cs : CoreDaySet) :
  Pd.index meets = Pd.index rd ->
  period_core_day_set rd meets ds de nm ws we = Ok l -> In cs l ->
  forall d, Pd.selected (daily cs) d
            = label_in d (Pd.index rd)
              && (in_window cs d && Pd.selected meets d).
Proof.
  intros Hidx Hp Hin. unfold period_core_day_set in Hp.
  rewrite _get_range_boolean_map, <- Hidx, and_array_of_labels_ok in Hp.
  cbn [rbind] in Hp.
  destruct (Pd.any _) eqn:Hany.
  - apply rbind_ok in Hp as (h & Hh & Hp). injection Hp as <-.
    destruct Hin as [<-|[]]. unfold in_window.
    cbn [daily hourly start_date end_date].
    intro d. rewrite <- Hidx, selected_reindex. f_equal.
    apply (selected_and_labels
             (fun d => Calendar.date_leb (Calendar.date_max ws ds) d
                       && Calendar.date_ltb d (Calendar.date_min we de))).
  - injection Hp as <-. destruct Hin.
Qed.

(** The sets [get_core_heating_days] returns, by method. *)
Lemma get_core_heating_days_cases (self : Thermostat) (method : string)
    (mn mx : Z) (sets : list CoreDaySet) :
  get_core_heating_days self method mn mx = Ok sets ->
  has_heating self = true /\
  exists ds de,
    Pd.index_first (heat_runtime_daily self) = Ok ds /\
    Pd.index_last (heat_runtime_daily self) = Ok de /\
    ((method = "year_mid_to_mid" /\
      collect
        (fun y =>
           period_core_day_set (heat_runtime_daily self)
             (heating_thresholds self mn mx) ds de
             ("heating_" ++ format_int y ++ "-" ++ format_int (y + 1))
             (mkDate y 7 1) (mkDate (y + 1) 7 1))
        (range (year ds - 1) (year de + 1)) = Ok sets) \/
     (method = "entire_dataset" /\
      exists h,
        _get_hourly_boolean
          (Pd.reindex (heating_thresholds self mn mx)
             (Pd.index (heat_runtime_daily self))) = Ok h /\
        sets = [mkCoreDaySet "heating_ALL"
                  (Pd.reindex (heating_thresholds self mn mx)
                     (Pd.index (heat_runtime_daily self))) h ds de])).
Proof.
  unfold get_core_heating_days. intro Hg.
  destruct (bool_decide (method = "year_mid_to_mid")) eqn:Hm1;
    destruct (bool_decide (method = "entire_dataset")) eqn:Hm2;
    cbn [orb negb] in Hg; try discriminate;
    apply rbind_ok in Hg as ([] & Hprot & Hg);
    apply rbind_ok in Hg as (ds & Hds & Hg);
    apply rbind_ok in Hg as (de & Hde & Hg);
    (split;
     [unfold _protect_heating in Hprot;
      destruct (has_heating self); [reflexivity | discriminate]|]);
    exists ds, de; (split; [exact Hds|]); (split; [exact Hde|]).
  - left. apply bool_decide_eq_true_1 in Hm1. split; [exact Hm1 | exact Hg].
  - left. apply bool_decide_eq_true_1 in Hm1. split; [exact Hm1 | exact Hg].
  - right. apply bool_decide_eq_true_1 in Hm2. split; [exact Hm2|].
    apply rbind_ok in Hg as (h & Hh & Hg). injection Hg as <-.
    exists h. split; [exact Hh | reflexivity].
Qed.

Lemma get_core_cooling_days_cases (self : Thermostat) (method : string)
    (mn mx : Z) (sets : list CoreDaySet) :
  get_core_cooling_days self method mn mx = Ok sets ->
  has_cooling self = true /\
  exists ds de,
    Pd.index_first (cool_runtime_daily self) = Ok ds /\
    Pd.index_last (cool_runtime_daily self) = Ok de /\
    ((method = "year_end_to_end" /\
      collect
        (fun y =>
           period_core_day_set (cool_runtime_daily self)
             (cooling_thresholds self mn mx) ds de
             ("cooling_" ++ format_int y)
             (mkDate y 1 1) (mkDate (y + 1) 1 1))
        (range (year ds) (year de + 1)) = Ok sets) \/
     (method = "entire_dataset" /\
      exists h,
        _get_hourly_boolean
          (Pd.reindex (cooling_thresholds self mn mx)
             (Pd.index (cool_runtime_daily self))) = Ok h /\
        sets = [mkCoreDaySet "cooling_ALL"
                  (Pd.reindex (cooling_thresholds self mn mx)
                     (Pd.index (cool_runtime_daily self))) h ds de])).
Proof.
  unfold get_core_cooling_days. intro Hg.
  destruct (bool_decide (method = "year_end_to_end")) eqn:Hm1;
    destruct (bool_decide (method = "entire_dataset")) eqn:Hm2;
    cbn [orb negb] in Hg; try discriminate;
    apply rbind_ok in Hg as ([] & Hprot & Hg);
    apply rbind_ok in Hg as (ds & Hds & Hg);
    apply rbind_ok in Hg as (de & Hde & Hg);
    (split;
     [unfold _protect_cooling in Hprot;
      destruct (has_cooling self); [reflexivity | discriminate]|]);
    exists ds, de; (split; [exact Hds|]); (split; [exact Hde|]).
  - left. apply bool_decide_eq_true_1 in Hm1. split; [exact Hm1 | exact Hg].
  - left. apply bool_decide_eq_true_1 in Hm1. split; [exact Hm1 | exact Hg].
  - right. apply bool_decide_eq_true_1 in Hm2. split; [exact Hm2|].
    apply rbind_ok in Hg as (h & Hh & Hg). injection Hg as <-.
    exists h. split; [exact Hh | reflexivity].
Qed.

Lemma heating_emitted (self : Thermostat) (method : string) (mn mx : Z)
    (sets : list CoreDaySet) (cs : CoreDaySet) :
  get_core_heating_days self method mn mx = Ok sets -> In cs sets ->
  emitted (heat_runtime_daily self) cs.
Proof.
  intros Hg Hin.
  destruct (get_core_heating_days_cases _ _ _ _ _ Hg)
    as (_ & ds & de & _ & _ & [[_ Hc]|(_ & h & Hh & ->)]).
  - destruct (collect_In _ _ _ _ Hc Hin) as (y & l & _ & Hp & Hl).
    exact (proj1 (period_core_day_set_shape _ _ _ _ _ _ _ _ _ Hp Hl)).
  - destruct Hin as [<-|[]]. split; [exact Hh | apply index_reindex].
Qed.

Lemma cooling_emitted (self : Thermostat) (method : string) (mn mx : Z)
    (sets : list CoreDaySet) (cs : CoreDaySet) :
  get_core_cooling_days self method mn mx = Ok sets -> In cs sets ->
  emitted (cool_runtime_daily self) cs.
Proof.
  intros Hg Hin.
  destruct (get_core_cooling_days_cases _ _ _ _ _ Hg)
    as (_ & ds & de & _ & _ & [[_ Hc]|(_ & h & Hh & ->)]).
  - destruct (collect_In _ _ _ _ Hc Hin) as (y & l & _ & Hp & Hl).
    exact (proj1 (period_core_day_set_shape _ _ _ _ _ _ _ _ _ Hp Hl)).
  - destruct Hin as [<-|[]]. split; [exact Hh | apply index_reindex].
Qed.

(** ** The hourly mask is the 24-hour broadcast of the daily mask *)

Lemma length_date_range_H (t : Timestamp) (n : nat) :
  length (Calendar.date_range_H t n) = n.
Proof. revert t. induction n; intro t; simpl; [reflexivity | now rewrite IHn]. Qed.

Lemma length_np_repeat {A} (vals : list A) (n : nat) :
  length (np_repeat vals n) = length vals * n.
Proof.
  unfold np_repeat. induction vals as [|v vals IH]; [reflexivity|].
  simpl. rewrite length_app, repeat_length, IH. reflexivity.
Qed.

Lemma nth_date_range_H (t dflt : Timestamp) (n j : nat) :
  j < n ->
  nth j (Calendar.date_range_H t n) dflt = Nat.iter j Calendar.next_hour t.
Proof.
  revert t j. induction n as [|n IH]; intros t j Hj; [lia|].
  destruct j as [|j]; [reflexivity|].
  cbn [Calendar.date_range_H nth]. rewrite IH by lia.
  symmetry. apply Nat.iter_succ_r.
Qed.

Lemma iter_next_hour_same_day (d : Date) (k : nat) :
  k < 24 ->
  Nat.iter k Calendar.next_hour (Calendar.midnight d)
  = mkTimestamp d (Z.of_nat k).
Proof.
  induction k as [|k IH]; intro Hk; [reflexivity|].
  rewrite Nat.iter_succ, IH by lia. unfold Calendar.next_hour.
  cbn [hour date].
  replace (Z.of_nat k <? 23)%Z with true by (symmetry; apply Z.ltb_lt; lia).
  f_equal. lia.
Qed.

Lemma iter_next_hour_day (d : Date) :
  Nat.iter 24 Calendar.next_hour (Calendar.midnight d)
  = Calendar.midnight (Calendar.next_day d).
Proof.
  change 24 with (S 23). rewrite Nat.iter_succ.
  rewrite iter_next_hour_same_day by lia. reflexivity.
Qed.

Lemma iter_add {A} (f : A -> A) (a b : nat) (x : A) :
  Nat.iter (a + b) f x = Nat.iter a f (Nat.iter b f x).
Proof.
  induction a as [|a IH]; [reflexivity|].
  change (S a + b) with (S (a + b)). now rewrite !Nat.iter_succ, IH.
Qed.

Lemma iter_next_hour (d : Date) (i k : nat) :
  k < 24 ->
  Nat.iter (24 * i + k) Calendar.next_hour (Calendar.midnight d)
  = mkTimestamp (Nat.iter i Calendar.next_day d) (Z.of_nat k).
Proof.
  intro Hk. revert d. induction i as [|i IH]; intro d.
  - rewrite Nat.mul_0_r. now apply iter_next_hour_same_day.
  - replace (24 * S i + k) with ((24 * i + k) + 24) by lia.
    rewrite iter_add, iter_next_hour_day, IH.
    now rewrite Nat.iter_succ_r.
Qed.

Lemma nth_np_repeat {A} (vals : list A) (n i k : nat) (dflt : A) :
  i < length vals -> k < n ->
  nth (n * i + k) (np_repeat vals n) dflt = nth i vals dflt.
Proof.
  unfold np_repeat. revert i.
  induction vals as [|v vals IH]; intros i Hi Hk; simpl in Hi; [lia|].
  cbn [flat_map]. destruct i as [|i].
  - rewrite Nat.mul_0_r, Nat.add_0_l, app_nth1 by (now rewrite repeat_length).
    apply nth_repeat_lt. assumption.
  - rewrite app_nth2 by (rewrite repeat_length; lia).
    rewrite repeat_length.
    replace (n * S i + k - n) with (n * i + k) by lia.
    apply IH; [lia | assumption].
Qed.

Lemma combine_fst_snd {A B} (a : list A) (b : list B) :
  length a = length b ->
  List.map fst (combine a b) = a /\ List.map snd (combine a b) = b.
Proof.
  revert b. induction a as [|x a IH]; intros [|y b] Hl; simpl in *;
    try discriminate; [split; reflexivity|].
  destruct (IH b) as [-> ->]; [lia|]. split; reflexivity.
Qed.

Lemma _get_hourly_boolean_spec (d : DSeries bool) (h : HSeries bool) :
  _get_hourly_boolean d = Ok h ->
  exists first,
    Pd.index_first d = Ok first /\
    Pd.index h
    = Calendar.date_range_H (Calendar.midnight first) (length d * 24) /\
    Pd.values h = np_repeat (Pd.values d) 24.
Proof.
  unfold _get_hourly_boolean. intro Hh.
  apply rbind_ok in Hh as (first & Hf & Hh). injection Hh as <-.
  exists first. split; [exact Hf|].
  unfold Pd.make, Pd.index, Pd.values. rewrite (length_map fst d).
  apply combine_fst_snd.
  now rewrite length_date_range_H, length_np_repeat, !length_map.
Qed.

Lemma nth_consecutive_from (d dflt : Date) (l : list Date) (i : nat) :
  consecutive_from d l -> i < length l ->
  nth i l dflt = Nat.iter i Calendar.next_day d.
Proof.
  revert d i. induction l as [|x l IH]; intros d i Hc Hi; simpl in Hi; [lia|].
  destruct Hc as [-> Hc]. destruct i as [|i]; [reflexivity|].
  cbn [nth]. rewrite (IH _ _ Hc) by lia. symmetry. apply Nat.iter_succ_r.
Qed.

Lemma nth_daily_frequency (dflt : Date) (l : list Date) (i : nat) :
  daily_frequency l -> i < length l ->
  nth i l dflt = Nat.iter i Calendar.next_day (nth 0 l dflt).
Proof.
  destruct l as [|d l]; simpl; [lia|]. intros Hc Hi.
  destruct i as [|i]; [reflexivity|].
  rewrite (nth_consecutive_from _ dflt l i Hc) by lia.
  symmetry. apply Nat.iter_succ_r.
Qed.

Lemma days_until_consecutive (fuel : nat) (d last : Date) :
  consecutive_from d (Calendar.days_until fuel d last).
Proof.
  revert d. induction fuel as [|n IH]; intro d; simpl; [exact I|].
  destruct (Calendar.date_leb d last); simpl; [|exact I].
  split; [reflexivity | apply IH].
Qed.

Lemma daily_frequency_of_consecutive (d : Date) (l : list Date) :
  consecutive_from d l -> daily_frequency l.
Proof. destruct l; simpl; [trivial|]. now intros [-> H]. Qed.

Lemma resample_runtime_daily_frequency (runtime : option (HSeries float)) :
  daily_frequency (Pd.index (resample_runtime runtime)).
Proof.
  unfold resample_runtime. destruct runtime as [s|]; [|exact I].
  destruct (negb (Pd.empty s)); [|exact I].
  unfold Pd.resample_D_sum.
  destruct s as [|[t0 v0] s']; [exact I|].
  destruct (rev ((t0, v0) :: s')) as [|[t1 v1] r]; [exact I|].
  unfold Pd.index. rewrite map_map. cbn [fst]. rewrite map_id.
  eapply daily_frequency_of_consecutive, days_until_consecutive.
Qed.

Lemma index_first_nth {A} (s : DSeries A) (first dd : Date) :
  Pd.index_first s = Ok first -> nth 0 (Pd.index s) dd = first.
Proof.
  destruct s as [|[l v] s]; simpl; [discriminate|]. now intros [= ->].
Qed.

Lemma broadcast_of_hourly_boolean (d : DSeries bool) (h : HSeries bool) :
  _get_hourly_boolean d = Ok h -> daily_frequency (Pd.index d) ->
  broadcast_24 d h.
Proof.
  intros Hh Hfreq.
  destruct (_get_hourly_boolean_spec d h Hh) as (first & Hf & Hidx & Hvals).
  assert (Hlen : length h = 24 * length d).
  { rewrite <- (length_map fst h). fold (Pd.index h).
    rewrite Hidx, length_date_range_H. lia. }
  split; [exact Hlen|].
  intros i k dd dt Hi Hk. split.
  - rewrite Hvals. apply nth_np_repeat; [|assumption].
    unfold Pd.values. now rewrite length_map.
  - rewrite Hidx, nth_date_range_H by lia.
    rewrite iter_next_hour by assumption. f_equal.
    rewrite (nth_daily_frequency dd) by
      (try assumption; unfold Pd.index; now rewrite length_map).
    now rewrite (index_first_nth d first dd Hf).
Qed.

(** C4: for a record built by the constructor, every core day set either
    detector returns has an hourly mask of exactly 24 rows per row of its
    daily mask, in which hour [k] of day [i] has the value of day [i] -- so
    every hour of an included day is included -- and is labelled with the
    calendar day of row [i] of the daily mask. *)
Theorem hourly_mask_is_daily_broadcast :
  forall E tid ht hst ct cst zc stn tin tout cr hr aux emg
         (self : Thermostat) (method : string) (mn mx : Z)
         (sets : list CoreDaySet) (cs : CoreDaySet),
    Thermostat__init__ E tid ht hst ct cst zc stn tin tout cr hr aux emg
    = Ok self ->
    get_core_heating_days self method mn mx = Ok sets \/
    get_core_cooling_days self method mn mx = Ok sets ->
    In cs sets ->
    broadcast_24 (daily cs) (hourly cs) /\
    (forall i k : nat,
        i < length (daily cs) -> k < 24 ->
        nth i (Pd.values (daily cs)) false = true ->
        nth (24 * i + k) (Pd.values (hourly cs)) false = true).
Proof.
  intros E tid ht hst ct cst zc stn tin tout cr hr aux emg self method mn mx
    sets cs Hinit Hdet Hin.
  unfold Thermostat__init__ in Hinit.
  apply rbind_ok in Hinit as ([] & _ & Hself).
  apply rbind_ok in Hself as ([] & _ & Hself). injection Hself as <-.
  assert (Hb : broadcast_24 (daily cs) (hourly cs)).
  { destruct Hdet as [Hg|Hg].
    - destruct (heating_emitted _ _ _ _ _ _ Hg Hin) as [Hh Hidx].
      apply broadcast_of_hourly_boolean; [exact Hh|].
      rewrite Hidx. cbn [heat_runtime_daily].
      apply resample_runtime_daily_frequency.
    - destruct (cooling_emitted _ _ _ _ _ _ Hg Hin) as [Hh Hidx].
      apply broadcast_of_hourly_boolean; [exact Hh|].
      rewrite Hidx. cbn [cool_runtime_daily].
      apply resample_runtime_daily_frequency. }
  split; [exact Hb|].
  intros i k Hi Hk Htrue. destruct Hb as [_ Hb].
  destruct (Hb i k (mkDate 0 1 1) (Calendar.midnight (mkDate 0 1 1)) Hi Hk)
    as [-> _].
  exact Htrue.
Qed.

Lemma two_days_heating_detected :
  get_core_heating_days two_days "entire_dataset" 30 0
  = Ok [two_days_heating_all].
Proof. vm_compute. reflexivity. Qed.

Lemma hourly_mask_is_daily_broadcast_witness :
  get_core_heating_days two_days "entire_dataset" 30 0
  = Ok [two_days_heating_all] /\
  Pd.values (daily two_days_heating_all) = [true; false] /\
  length (hourly two_days_heating_all) = 48 /\
  broadcast_24 (daily two_days_heating_all) (hourly two_days_heating_all) /\
  (forall i k : nat,
      i < length (daily two_days_heating_all) -> k < 24 ->
      nth i (Pd.values (daily two_days_heating_all)) false = true ->
      nth (24 * i + k) (Pd.values (hourly two_days_heating_all)) false
      = true).
Proof.
  split; [exact two_days_heating_detected|].
  split; [vm_compute; reflexivity|]. split; [vm_compute; reflexivity|].
  exact (hourly_mask_is_daily_broadcast typed_equipment "FAKE"
           (Some "non_heat_pump") None (Some "central") None "FAKE" "FAKE"
           (hourly_series ts_2020_06_29 two_days_in)
           (hourly_series ts_2020_06_29 two_days_out)
           (Some (hourly_series ts_2020_06_29 two_days_cool))
           (Some (hourly_series ts_2020_06_29 two_days_heat))
           None None two_days "entire_dataset" 30 0
           [two_days_heating_all] two_days_heating_all
           two_days_constructed (or_introl two_days_heating_detected)
           (or_introl eq_refl)).
Defined.

(** ** Which days a core day set includes *)

Lemma enough_temp_rows (t : HSeries float) :
  enough_temp t
  = List.map (fun d => (d, (missing_readings t d <=? 2)%Z)) (days_of t).
Proof.
  unfold enough_temp, Pd.groupby_date, days_of, missing_readings.
  now rewrite map_map.
Qed.

Lemma index_enough_temp (t : HSeries float) :
  Pd.index (enough_temp t) = days_of t.
Proof.
  rewrite enough_temp_rows. unfold Pd.index. rewrite map_map. apply map_id.
Qed.

Lemma selected_enough_temp (t : HSeries float) (d : Date) :
  Pd.selected (enough_temp t) d
  = label_in d (days_of t) && (missing_readings t d <=? 2)%Z.
Proof.
  rewrite enough_temp_rows. unfold Pd.selected.
  rewrite (lookup_of_labels (fun d => (missing_readings t d <=? 2)%Z)).
  destruct (label_in d (days_of t)); [|reflexivity].
  now destruct (missing_readings t d <=? 2)%Z.
Qed.

Lemma lookup_in_index {A} (s : DSeries A) (d : Date) :
  In d (Pd.index s) -> exists v, Pd.lookup s d = Some v.
Proof.
  unfold Pd.index. intro Hin. apply in_map_iff in Hin as (r & <- & Hr).
  now apply lookup_In_covered.
Qed.

Lemma selected_ge_threshold (s : DSeries float) (n : Z) (d : Date) :
  In d (Pd.index s) ->
  Pd.selected (ge_threshold s n) d
  = (Np.of_Z n <=? daily_runtime_on s d)%float.
Proof.
  intro Hin. destruct (lookup_in_index s d Hin) as [v Hv].
  unfold Pd.selected, ge_threshold, daily_runtime_on, Pd.lookup_nan.
  rewrite (lookup_map_snd (fun _ v => (Np.of_Z n <=? v)%float) s d), Hv.
  simpl. now destruct (Np.of_Z n <=? v)%float.
Qed.

Lemma selected_le_threshold (s : DSeries float) (n : Z) (d : Date) :
  In d (Pd.index s) ->
  Pd.selected (le_threshold s n) d
  = (daily_runtime_on s d <=? Np.of_Z n)%float.
Proof.
  intro Hin. destruct (lookup_in_index s d Hin) as [v Hv].
  unfold Pd.selected, le_threshold, daily_runtime_on, Pd.lookup_nan.
  rewrite (lookup_map_snd (fun _ v => (v <=? Np.of_Z n)%float) s d), Hv.
  simpl. now destruct (v <=? Np.of_Z n)%float.
Qed.

Lemma index_ge_threshold (s : DSeries float) (n : Z) :
  Pd.index (ge_threshold s n) = Pd.index s.
Proof. unfold Pd.index, ge_threshold. rewrite map_map. reflexivity. Qed.

Lemma index_le_threshold (s : DSeries float) (n : Z) :
  Pd.index (le_threshold s n) = Pd.index s.
Proof. unfold Pd.index, le_threshold. rewrite map_map. reflexivity. Qed.

Lemma index_and_scalar {L} (a : Series L bool) (b : bool) :
  Pd.index (Pd.and_scalar a b) = Pd.index a.
Proof. unfold Pd.index, Pd.and_scalar. rewrite map_map. reflexivity. Qed.

Lemma index_enough_both (primary : DSeries float)
    (temp_in temp_out : HSeries float) :
  days_of temp_in = Pd.index primary ->
  days_of temp_out = Pd.index primary ->
  Pd.index (Pd.and_series (enough_temp temp_in) (enough_temp temp_out))
  = Pd.index primary.
Proof.
  intros Hin Hout.
  rewrite index_and_series_aligned; rewrite !index_enough_temp; congruence.
Qed.

Lemma index_heating_thresholds (self : Thermostat) (mn mx : Z) :
  shared_index (heat_runtime_daily self) (cool_runtime_daily self)
    (has_cooling self) (temperature_in self) (temperature_out self) ->
  Pd.index (heating_thresholds self mn mx)
  = Pd.index (heat_runtime_daily self).
Proof.
  intros (Hsec & Hin & Hout). unfold heating_thresholds.
  pose proof (index_enough_both _ _ _ Hin Hout) as He.
  destruct (has_cooling self).
  - assert (Hi : Pd.index
                   (Pd.and_series (ge_threshold (heat_runtime_daily self) mn)
                      (le_threshold (cool_runtime_daily self) mx))
                 = Pd.index (heat_runtime_daily self)).
    { rewrite index_and_series_aligned;
        rewrite ?index_ge_threshold, ?index_le_threshold;
        [reflexivity | symmetry; now apply Hsec]. }
    rewrite index_and_series_aligned; congruence.
  - assert (Hi : Pd.index
                   (Pd.and_scalar (ge_threshold (heat_runtime_daily self) mn)
                      true)
                 = Pd.index (heat_runtime_daily self))
      by now rewrite index_and_scalar, index_ge_threshold.
    rewrite index_and_series_aligned; congruence.
Qed.

Lemma index_cooling_thresholds (self : Thermostat) (mn mx : Z) :
  shared_index (cool_runtime_daily self) (heat_runtime_daily self)
    (has_heating self) (temperature_in self) (temperature_out self) ->
  Pd.index (cooling_thresholds self mn mx)
  = Pd.index (cool_runtime_daily self).
Proof.
  intros (Hsec & Hin & Hout). unfold cooling_thresholds.
  pose proof (index_enough_both _ _ _ Hin Hout) as He.
  destruct (has_heating self).
  - assert (Hi : Pd.index
                   (Pd.and_series (le_threshold (heat_runtime_daily self) mx)
                      (ge_threshold (cool_runtime_daily self) mn))
                 = Pd.index (cool_runtime_daily self)).
    { rewrite index_and_series_aligned;
        rewrite ?index_ge_threshold, ?index_le_threshold;
        now apply Hsec. }
    rewrite index_and_series_aligned; congruence.
  - assert (Hi : Pd.index
                   (Pd.and_scalar (ge_threshold (cool_runtime_daily self) mn)
                      true)
                 = Pd.index (cool_runtime_daily self))
      by now rewrite index_and_scalar, index_ge_threshold.
    rewrite index_and_series_aligned; congruence.
Qed.

Lemma selected_heating_thresholds (self : Thermostat) (mn mx : Z) (d : Date) :
  shared_index (heat_runtime_daily self) (cool_runtime_daily self)
    (has_cooling self) (temperature_in self) (temperature_out self) ->
  In d (Pd.index (heat_runtime_daily self)) ->
  Pd.selected (heating_thresholds self mn mx) d
  = qualifies (heat_runtime_daily self) (cool_runtime_daily self)
      (has_cooling self) (temperature_in self) (temperature_out self)
      mn mx d.
Proof.
  intros (Hsec & Hin & Hout) Hd. unfold heating_thresholds, qualifies.
  rewrite !selected_and_series, !selected_enough_temp, Hin, Hout.
  rewrite (proj2 (label_in_In d _) Hd). cbn [andb].
  rewrite andb_assoc. f_equal. f_equal.
  destruct (has_cooling self).
  - rewrite selected_and_series, selected_ge_threshold by assumption.
    rewrite selected_le_threshold by (rewrite Hsec; auto). reflexivity.
  - rewrite selected_and_scalar_true, selected_ge_threshold by assumption.
    now rewrite andb_true_r.
Qed.

Lemma selected_cooling_thresholds (self : Thermostat) (mn mx : Z) (d : Date) :
  shared_index (cool_runtime_daily self) (heat_runtime_daily self)
    (has_heating self) (temperature_in self) (temperature_out self) ->
  In d (Pd.index (cool_runtime_daily self)) ->
  Pd.selected (cooling_thresholds self mn mx) d
  = qualifies (cool_runtime_daily self) (heat_runtime_daily self)
      (has_heating self) (temperature_in self) (temperature_out self)
      mn mx d.
Proof.
  intros (Hsec & Hin & Hout) Hd. unfold cooling_thresholds, qualifies.
  rewrite !selected_and_series, !selected_enough_temp, Hin, Hout.
  rewrite (proj2 (label_in_In d _) Hd). cbn [andb].
  rewrite andb_assoc. f_equal. f_equal.
  destruct (has_heating self).
  - rewrite selected_and_series, selected_ge_threshold by assumption.
    rewrite selected_le_threshold by (rewrite Hsec; auto).
    apply andb_comm.
  - rewrite selected_and_scalar_true, selected_ge_threshold by assumption.
    now rewrite andb_true_r.
Qed.

(** C5: in a record whose series share one index, a day of the record is
    included in the daily mask of a detected core day set exactly when the
    primary daily runtime is at least [min_minutes], the secondary daily
    runtime is at most [max_minutes] (no test without the secondary
    capability), each temperature series has at most two missing readings
    on that day, and -- for the period-based methods -- the day lies in the
    clipped window [[start_date, end_date)] of the set. *)
Theorem core_day_inclusion :
  forall (self : Thermostat) (method : string) (mn mx : Z)
         (sets : list CoreDaySet) (cs : CoreDaySet) (d : Date),
    In cs sets ->
    (get_core_heating_days self method mn mx = Ok sets ->
     shared_index (heat_runtime_daily self) (cool_runtime_daily self)
       (has_cooling self) (temperature_in self) (temperature_out self) ->
     In d (Pd.index (heat_runtime_daily self)) ->
     Pd.selected (daily cs) d
     = qualifies (heat_runtime_daily self) (cool_runtime_daily self)
         (has_cooling self) (temperature_in self) (temperature_out self)
         mn mx d
       && window_test method cs d) /\
    (get_core_cooling_days self method mn mx = Ok sets ->
     shared_index (cool_runtime_daily self) (heat_runtime_daily self)
       (has_heating self) (temperature_in self) (temperature_out self) ->
     In d (Pd.index (cool_runtime_daily self)) ->
     Pd.selected (daily cs) d
     = qualifies (cool_runtime_daily self) (heat_runtime_daily self)
         (has_heating self) (temperature_in self) (temperature_out self)
         mn mx d
       && window_test method cs d).
Proof.
  intros self method mn mx sets cs d Hin. split; intros Hg Hshared Hd.
  - rewrite <- (selected_heating_thresholds self mn mx d Hshared Hd).
    destruct (get_core_heating_days_cases _ _ _ _ _ Hg)
      as (_ & ds & de & _ & _ & [[-> Hc]|(-> & h & Hh & ->)]).
    + destruct (collect_In _ _ _ _ Hc Hin) as (y & l & _ & Hp & Hl).
      rewrite (period_core_day_set_selected _ _ _ _ _ _ _ _ _
                 (index_heating_thresholds self mn mx Hshared) Hp Hl).
      rewrite (proj2 (label_in_In d _) Hd). unfold window_test.
      rewrite bool_decide_eq_false_2 by discriminate.
      cbn [andb]. apply andb_comm.
    + destruct Hin as [<-|[]]. cbn [daily]. rewrite selected_reindex.
      rewrite (proj2 (label_in_In d _) Hd). unfold window_test.
      rewrite bool_decide_eq_true_2 by reflexivity.
      cbn [andb]. now rewrite andb_true_r.
  - rewrite <- (selected_cooling_thresholds self mn mx d Hshared Hd).
    destruct (get_core_cooling_days_cases _ _ _ _ _ Hg)
      as (_ & ds & de & _ & _ & [[-> Hc]|(-> & h & Hh & ->)]).
    + destruct (collect_In _ _ _ _ Hc Hin) as (y & l & _ & Hp & Hl).
      rewrite (period_core_day_set_selected _ _ _ _ _ _ _ _ _
                 (index_cooling_thresholds self mn mx Hshared) Hp Hl).
      rewrite (proj2 (label_in_In d _) Hd). unfold window_test.
      rewrite bool_decide_eq_false_2 by discriminate.
      cbn [andb]. apply andb_comm.
    + destruct Hin as [<-|[]]. cbn [daily]. rewrite selected_reindex.
      rewrite (proj2 (label_in_In d _) Hd). unfold window_test.
      rewrite bool_decide_eq_true_2 by reflexivity.
      cbn [andb]. now rewrite andb_true_r.
Qed.

Lemma two_days_heating_period_detected :
  get_core_heating_days two_days "year_mid_to_mid" 30 0
  = Ok [two_days_heating_period].
Proof. vm_compute. reflexivity. Qed.

Lemma two_days_shared_index :
  shared_index (heat_runtime_daily two_days) (cool_runtime_daily two_days)
    (has_cooling two_days) (temperature_in two_days)
    (temperature_out two_days).
Proof.
  split; [intros _; vm_compute; reflexivity|].
  split; vm_compute; reflexivity.
Qed.

Lemma core_day_inclusion_witness :
  (Pd.selected (daily two_days_heating_all) jun_29
   = qualifies (heat_runtime_daily two_days) (cool_runtime_daily two_days)
       (has_cooling two_days) (temperature_in two_days)
       (temperature_out two_days) 30 0 jun_29
     && window_test "entire_dataset" two_days_heating_all jun_29) /\
  (Pd.selected (daily two_days_heating_period) jun_30
   = qualifies (heat_runtime_daily two_days) (cool_runtime_daily two_days)
       (has_cooling two_days) (temperature_in two_days)
       (temperature_out two_days) 30 0 jun_30
     && window_test "year_mid_to_mid" two_days_heating_period jun_30) /\
  Pd.selected (daily two_days_heating_all) jun_29 = true /\
  Pd.selected (daily two_days_heating_period) jun_29 = true /\
  Pd.selected (daily two_days_heating_period) jun_30 = false.
Proof.
  split; [|split].
  - apply (proj1 (core_day_inclusion two_days "entire_dataset" 30 0
                    [two_days_heating_all] two_days_heating_all jun_29
                    (or_introl eq_refl))).
    + exact two_days_heating_detected.
    + exact two_days_shared_index.
    + vm_compute. tauto.
  - apply (proj1 (core_day_inclusion two_days "year_mid_to_mid" 30 0
                    [two_days_heating_period] two_days_heating_period jun_30
                    (or_introl eq_refl))).
    + exact two_days_heating_period_detected.
    + exact two_days_shared_index.
    + vm_compute. tauto.
  - split; [vm_compute; reflexivity|].
    split; vm_compute; reflexivity.
Defined.

(** ** Detection on zero-length runtime series *)

(** C3, as stated, fails.  The constructor refuses zero-length runtime
    series with an equipment type that requires the runtime ([ValueError])
    and the call of the fixture, which gives no type ([AttributeError]);
    the record it does build from zero-length series, for a thermostat
    without heating or cooling equipment, makes every detection method
    raise [ValueError] instead of returning an empty list or one empty
    set. *)
Lemma detection_raises_on_zero_length :
  Thermostat__init__ typed_equipment "FAKE" (Some "non_heat_pump") None
    (Some "central") None "FAKE" "FAKE" [] [] (Some []) (Some [])
    (Some []) (Some []) = Raise ValueError /\
  thermostat_template = Raise AttributeError /\
  exists t,
    no_equipment = Ok t /\
    heat_runtime_daily t = [] /\ cool_runtime_daily t = [] /\
    get_core_heating_days t "year_mid_to_mid" 30 0 = Raise ValueError /\
    get_core_heating_days t "entire_dataset" 30 0 = Raise ValueError /\
    get_core_cooling_days t "year_end_to_end" 30 0 = Raise ValueError /\
    get_core_cooling_days t "entire_dataset" 30 0 = Raise ValueError.
Proof.
  split; [vm_compute; reflexivity|]. split; [vm_compute; reflexivity|].
  eexists. split; [vm_compute; reflexivity|].
  repeat split; reflexivity.
Qed.

Lemma resample_zero_length (runtime : option (HSeries float)) :
  zero_length runtime -> resample_runtime runtime = [].
Proof. intros [-> | ->]; reflexivity. Qed.

Lemma _get_hourly_boolean_total (d : DSeries bool) :
  d <> [] -> exists h, _get_hourly_boolean d = Ok h.
Proof.
  intro Hne. unfold _get_hourly_boolean.
  destruct d as [|[l v] d]; [congruence|]. simpl. eauto.
Qed.

Lemma reindex_nonempty {L} `{EqDecision L} (s : Series L bool)
    {A} (rd : Series L A) :
  rd <> [] -> Pd.reindex s (Pd.index rd) <> [].
Proof. destruct rd; [congruence|]. discriminate. Qed.

Lemma init_capabilities E tid ht hst ct cst zc stn tin tout cr hr aux emg
    (self : Thermostat) :
  Thermostat__init__ E tid ht hst ct cst zc stn tin tout cr hr aux emg
  = Ok self ->
  (zero_length hr ->
   has_heating self = false /\ heat_runtime_daily self = []) /\
  (zero_length cr ->
   has_cooling self = false /\ cool_runtime_daily self = []).
Proof.
  unfold Thermostat__init__. intro H.
  apply rbind_ok in H as ([] & Hv & H). apply rbind_ok in H as ([] & _ & H).
  injection H as <-.
  cbn [has_heating has_cooling heat_runtime_daily cool_runtime_daily].
  unfold validate in Hv.
  apply rbind_ok in Hv as ([] & Hheat & Hv).
  apply rbind_ok in Hv as ([] & Hcool & _).
  unfold _validate_heating in Hheat. unfold _validate_cooling in Hcool.
  cbn [has_heating has_cooling heat_runtime_daily cool_runtime_daily]
    in Hheat, Hcool.
  split; intro Hz; rewrite (resample_zero_length _ Hz) in *.
  - split; [|reflexivity].
    destruct (eq_has_heating E ht); [discriminate | reflexivity].
  - split; [|reflexivity].
    destruct (eq_has_cooling E ct); [discriminate | reflexivity].
Qed.

(** C3, amended: zero-length runtime series make detection fail.  The
    constructor raises [ValueError] when the equipment type requires the
    runtime; a record it does build from a zero-length runtime lacks the
    mode, its daily runtime is empty, and the detector of the mode raises
    [ValueError] under each of its methods.  On a record with the
    capability and at least one day of runtime [entire_dataset] returns
    exactly one [CoreDaySet] with one mask row per day, whether or not a
    day qualifies, and the period-based methods return only sets that
    include a day. *)
Theorem detection_on_zero_length :
  (forall E tid ht hst ct cst zc stn tin tout cr hr aux emg,
      (eq_has_heating E ht = true /\ zero_length hr) \/
      (eq_has_cooling E ct = true /\ zero_length cr) ->
      Thermostat__init__ E tid ht hst ct cst zc stn tin tout cr hr aux emg
      = Raise ValueError) /\
  (forall E tid ht hst ct cst zc stn tin tout cr hr aux emg self mn mx,
      Thermostat__init__ E tid ht hst ct cst zc stn tin tout cr hr aux emg
      = Ok self ->
      (zero_length hr ->
       heat_runtime_daily self = [] /\
       get_core_heating_days self "year_mid_to_mid" mn mx = Raise ValueError /\
       get_core_heating_days self "entire_dataset" mn mx = Raise ValueError) /\
      (zero_length cr ->
       cool_runtime_daily self = [] /\
       get_core_cooling_days self "year_end_to_end" mn mx = Raise ValueError /\
       get_core_cooling_days self "entire_dataset" mn mx = Raise ValueError)) /\
  (forall self mn mx,
      (has_heating self = true -> heat_runtime_daily self <> [] ->
       exists cs,
         get_core_heating_days self "entire_dataset" mn mx = Ok [cs] /\
         name cs = "heating_ALL" /\
         length (daily cs) = length (heat_runtime_daily self)) /\
      (has_cooling self = true -> cool_runtime_daily self <> [] ->
       exists cs,
         get_core_cooling_days self "entire_dataset" mn mx = Ok [cs] /\
         name cs = "cooling_ALL" /\
         length (daily cs) = length (cool_runtime_daily self))) /\
  (forall self mn mx sets cs,
      get_core_heating_days self "year_mid_to_mid" mn mx = Ok sets \/
      get_core_cooling_days self "year_end_to_end" mn mx = Ok sets ->
      In cs sets -> Pd.any (daily cs) = true).
Proof.
  split; [|split; [|split]].
  - intros E tid ht hst ct cst zc stn tin tout cr hr aux emg Hz.
    unfold Thermostat__init__, validate, _validate_heating,
      _validate_cooling.
    cbn [has_heating has_cooling heat_runtime_daily cool_runtime_daily].
    destruct Hz as [[Hcap Hz]|[Hcap Hz]];
      rewrite Hcap, (resample_zero_length _ Hz); cbn.
    + reflexivity.
    + destruct (eq_has_heating E ht); [|reflexivity].
      now destruct (length (resample_runtime hr) =? 0).
  - intros E tid ht hst ct cst zc stn tin tout cr hr aux emg self mn mx Hinit.
    destruct (init_capabilities _ _ _ _ _ _ _ _ _ _ _ _ _ _ _ Hinit)
      as [Hheat Hcool].
    split; intro Hz.
    + destruct (Hheat Hz) as [Hcap Hempty]. split; [exact Hempty|].
      unfold get_core_heating_days, _protect_heating.
      rewrite Hcap. split; reflexivity.
    + destruct (Hcool Hz) as [Hcap Hempty]. split; [exact Hempty|].
      unfold get_core_cooling_days, _protect_cooling.
      rewrite Hcap. split; reflexivity.
  - intros self mn mx. split; intros Hcap Hne.
    + unfold get_core_heating_days, _protect_heating. rewrite Hcap.
      cbn [bool_decide negb orb rbind].
      fold (heating_thresholds self mn mx).
      destruct (heat_runtime_daily self) as [|[d0 v0] rd] eqn:Hrd;
        [congruence|].
      cbn [Pd.index_first rbind].
      destruct (Pd.index_last ((d0, v0) :: rd)) as [de|e] eqn:Hde.
      2:{ unfold Pd.index_last in Hde.
          destruct (rev ((d0, v0) :: rd)) as [|[l v] r] eqn:Hrev;
            [|discriminate].
          apply (f_equal (@length _)) in Hrev.
          rewrite length_rev in Hrev. discriminate. }
      cbn [rbind].
      destruct (_get_hourly_boolean_total
                  (Pd.reindex (heating_thresholds self mn mx)
                     (Pd.index ((d0, v0) :: rd)))) as [h Hh];
        [discriminate|].
      eexists. change (bool_decide ("entire_dataset" = "year_mid_to_mid"))
        with false. cbn iota. rewrite Hh. cbn [rbind].
      split; [reflexivity|]. split; [reflexivity|].
      cbn [daily]. unfold Pd.reindex, Pd.index. now rewrite !length_map.
    + unfold get_core_cooling_days, _protect_cooling. rewrite Hcap.
      cbn [bool_decide negb orb rbind].
      destruct (cool_runtime_daily self) as [|[d0 v0] rd] eqn:Hrd;
        [congruence|].
      cbn [Pd.index_first rbind].
      destruct (Pd.index_last ((d0, v0) :: rd)) as [de|e] eqn:Hde.
      2:{ unfold Pd.index_last in Hde.
          destruct (rev ((d0, v0) :: rd)) as [|[l v] r] eqn:Hrev;
            [|discriminate].
          apply (f_equal (@length _)) in Hrev.
          rewrite length_rev in Hrev. discriminate. }
      cbn [rbind].
      match goal with
      | |- context [_get_hourly_boolean ?m] =>
          destruct (_get_hourly_boolean_total m) as [h Hh];
          [discriminate|]
      end.
      eexists. change (bool_decide ("entire_dataset" = "year_end_to_end"))
        with false. cbn iota. rewrite Hh. cbn [rbind].
      split; [reflexivity|]. split; [reflexivity|].
      cbn [daily]. unfold Pd.reindex, Pd.index. now rewrite !length_map.
  - intros self mn mx sets cs [Hg|Hg] Hin.
    + destruct (get_core_heating_days_cases _ _ _ _ _ Hg)
        as (_ & ds & de & _ & _ & [[_ Hc]|(Hm & _)]); [|discriminate].
      destruct (collect_In _ _ _ _ Hc Hin) as (y & l & _ & Hp & Hl).
      exact (proj2 (period_core_day_set_shape _ _ _ _ _ _ _ _ _ Hp Hl)).
    + destruct (get_core_cooling_days_cases _ _ _ _ _ Hg)
        as (_ & ds & de & _ & _ & [[_ Hc]|(Hm & _)]); [|discriminate].
      destruct (collect_In _ _ _ _ Hc Hin) as (y & l & _ & Hp & Hl).
      exact (proj2 (period_core_day_set_shape _ _ _ _ _ _ _ _ _ Hp Hl)).
Qed.

Lemma detection_on_zero_length_witness :
  Thermostat__init__ typed_equipment "FAKE" (Some "non_heat_pump") None None
    None "FAKE" "FAKE" [] [] None (Some []) None None = Raise ValueError /\
  (exists t,
      no_equipment = Ok t /\
      get_core_heating_days t "entire_dataset" 30 0 = Raise ValueError /\
      get_core_cooling_days t "entire_dataset" 30 0 = Raise ValueError) /\
  (exists cs,
      get_core_heating_days two_days "entire_dataset" 30 0 = Ok [cs] /\
      name cs = "heating_ALL" /\
      length (daily cs) = length (heat_runtime_daily two_days)) /\
  Pd.any (daily two_days_heating_period) = true.
Proof.
  destruct detection_on_zero_length as (Hinit & Hraise & Hall & Hperiod).
  split; [|split; [|split]].
  - apply Hinit. left. split; [reflexivity | right; reflexivity].
  - destruct no_equipment as [t|e] eqn:Hbuilt;
      [|vm_compute in Hbuilt; discriminate Hbuilt].
    exists t. split; [reflexivity|].
    destruct (Hraise optional_equipment "FAKE" (Some "none") None
                (Some "none") None "FAKE" "FAKE" [] [] (Some []) (Some [])
                (Some []) (Some []) t 30%Z 0%Z Hbuilt) as [Hh Hc].
    split.
    + exact (proj2 (proj2 (Hh (or_intror eq_refl)))).
    + exact (proj2 (proj2 (Hc (or_intror eq_refl)))).
  - apply (proj1 (Hall two_days 30%Z 0%Z)); [reflexivity|].
    vm_compute. discriminate.
  - apply (Hperiod two_days 30%Z 0%Z [two_days_heating_period]).
    + left. exact two_days_heating_period_detected.
    + now left.
Defined.

(* ================================================================== *)
(** * Further properties of the code *)

(** ** The calendar order *)

Lemma date_ltb_lt (a b : Date) : Calendar.date_ltb a b = true <-> date_lt a b.
Proof.
  unfold Calendar.date_ltb, Calendar.date_compare, date_lt.
  destruct (Z.compare_spec (year a) (year b));
    destruct (Z.compare_spec (month a) (month b));
    destruct (Z.compare_spec (day a) (day b));
    split; intro Hx; try reflexivity; try discriminate; lia.
Qed.

Lemma date_leb_le (a b : Date) :
  Calendar.date_leb a b = true <-> date_lt a b \/ a = b.
Proof.
  unfold Calendar.date_leb, Calendar.date_compare, date_lt.
  destruct a as [ya ma da], b as [yb mb db]. cbn [year month day].
  destruct (Z.compare_spec ya yb);
    destruct (Z.compare_spec ma mb);
    destruct (Z.compare_spec da db);
    split; intro Hx; try reflexivity; try discriminate;
    try (left; lia); try (right; congruence);
    destruct Hx as [Hx|Hx]; try lia; injection Hx; lia.
Qed.

Lemma date_ltb_irrefl (a : Date) : Calendar.date_ltb a a = false.
Proof.
  destruct (Calendar.date_ltb a a) eqn:H; [|reflexivity].
  apply date_ltb_lt in H. unfold date_lt in H. lia.
Qed.

Lemma date_lt_trans (a b c : Date) : date_lt a b -> date_lt b c -> date_lt a c.
Proof. unfold date_lt. lia. Qed.

Lemma date_max_lower (a b d : Date) :
  Calendar.date_leb (Calendar.date_max a b) d = true ->
  Calendar.date_leb a d = true.
Proof.
  unfold Calendar.date_max.
  destruct (Calendar.date_ltb a b) eqn:Hab; [|trivial].
  apply date_ltb_lt in Hab. rewrite !date_leb_le.
  intros [H| ->]; left; [eapply date_lt_trans; eassumption | assumption].
Qed.

Lemma date_min_upper (a b d : Date) :
  Calendar.date_ltb d (Calendar.date_min a b) = true ->
  Calendar.date_ltb d a = true /\ Calendar.date_ltb d b = true.
Proof.
  unfold Calendar.date_min.
  destruct (Calendar.date_ltb b a) eqn:Hba.
  - intro H. split; [|exact H]. apply date_ltb_lt in Hba, H.
    apply date_ltb_lt. eapply date_lt_trans; eassumption.
  - intro H. split; [exact H|].
    destruct (Calendar.date_ltb d b) eqn:Hdb; [reflexivity|].
    apply date_ltb_lt in H.
    assert (Hnot : ~ date_lt b a)
      by (intro Hx; apply date_ltb_lt in Hx; congruence).
    assert (Hnot' : ~ date_lt d b)
      by (intro Hx; apply date_ltb_lt in Hx; congruence).
    unfold date_lt in *. lia.
Qed.

(** ** Windows of the period-based core day sets *)

Lemma period_core_day_set_bounds (rd : DSeries float) (meets : DSeries bool)
    (ds de : Date) (nm : string) (ws we : Date) (l : list CoreDaySet)
    (cs : CoreDaySet) :
  period_core_day_set rd meets ds de nm ws we = Ok l -> In cs l ->
  l = [cs] /\ name cs = nm /\
  start_date cs = Calendar.date_max ws ds /\
  end_date cs = Calendar.date_min we de.
Proof.
  intros Hp Hin. unfold period_core_day_set in Hp.
  apply rbind_ok in Hp as (m & Hm & Hp).
  destruct (Pd.any _) eqn:Hany.
  - apply rbind_ok in Hp as (h & Hh & Hp). injection Hp as <-.
    destruct Hin as [<-|[]]. repeat split; reflexivity.
  - injection Hp as <-. destruct Hin.
Qed.

Lemma in_window_last (cs : CoreDaySet) (we de : Date) :
  end_date cs = Calendar.date_min we de -> in_window cs de = false.
Proof.
  intro He. unfold in_window.
  destruct (Calendar.date_ltb de (end_date cs)) eqn:Hlt;
    [|apply andb_false_r].
  rewrite He in Hlt. apply date_min_upper in Hlt as [_ Hlt].
  rewrite date_ltb_irrefl in Hlt. discriminate.
Qed.

(** X1: under the period-based methods the last day of the daily runtime
    is in no returned core day set, whatever its runtimes are: the window
    of a period ends at the last day of data and excludes it. *)
Theorem period_sets_exclude_last_day :
  forall (self : Thermostat) (mn mx : Z) (sets : list CoreDaySet)
         (cs : CoreDaySet) (last : Date),
    In cs sets ->
    (get_core_heating_days self "year_mid_to_mid" mn mx = Ok sets ->
     shared_index (heat_runtime_daily self) (cool_runtime_daily self)
       (has_cooling self) (temperature_in self) (temperature_out self) ->
     Pd.index_last (heat_runtime_daily self) = Ok last ->
     Pd.selected (daily cs) last = false) /\
    (get_core_cooling_days self "year_end_to_end" mn mx = Ok sets ->
     shared_index (cool_runtime_daily self) (heat_runtime_daily self)
       (has_heating self) (temperature_in self) (temperature_out self) ->
     Pd.index_last (cool_runtime_daily self) = Ok last ->
     Pd.selected (daily cs) last = false).
Proof.
  intros self mn mx sets cs last Hin. split; intros Hg Hshared Hlast.
  - destruct (get_core_heating_days_cases _ _ _ _ _ Hg)
      as (_ & ds & de & _ & Hde & [[_ Hc]|(Hm & _)]); [|discriminate].
    rewrite Hlast in Hde. injection Hde as <-.
    destruct (collect_In _ _ _ _ Hc Hin) as (y & l & _ & Hp & Hl).
    rewrite (period_core_day_set_selected _ _ _ _ _ _ _ _ _
               (index_heating_thresholds self mn mx Hshared) Hp Hl).
    destruct (period_core_day_set_bounds _ _ _ _ _ _ _ _ _ Hp Hl)
      as (_ & _ & _ & Hend).
    rewrite (in_window_last cs _ _ Hend). cbn [andb]. apply andb_false_r.
  - destruct (get_core_cooling_days_cases _ _ _ _ _ Hg)
      as (_ & ds & de & _ & Hde & [[_ Hc]|(Hm & _)]); [|discriminate].
    rewrite Hlast in Hde. injection Hde as <-.
    destruct (collect_In _ _ _ _ Hc Hin) as (y & l & _ & Hp & Hl).
    rewrite (period_core_day_set_selected _ _ _ _ _ _ _ _ _
               (index_cooling_thresholds self mn mx Hshared) Hp Hl).
    destruct (period_core_day_set_bounds _ _ _ _ _ _ _ _ _ Hp Hl)
      as (_ & _ & _ & Hend).
    rewrite (in_window_last cs _ _ Hend). cbn [andb]. apply andb_false_r.
Qed.

Lemma three_days_periods_detected :
  get_core_heating_days three_days "year_mid_to_mid" 30 0
  = Ok [three_days_first_period; three_days_second_period].
Proof. vm_compute. reflexivity. Qed.

Lemma three_days_shared_index :
  shared_index (heat_runtime_daily three_days) (cool_runtime_daily three_days)
    (has_cooling three_days) (temperature_in three_days)
    (temperature_out three_days).
Proof.
  split; [intros _; vm_compute; reflexivity|].
  split; vm_compute; reflexivity.
Qed.

Lemma period_sets_exclude_last_day_witness :
  Pd.lookup (heat_runtime_daily three_days) (mkDate 2020 7 2) = Some 48%float /\
  Pd.selected (daily three_days_first_period) (mkDate 2020 7 2) = false /\
  Pd.selected (daily three_days_second_period) (mkDate 2020 7 2) = false.
Proof.
  split; [vm_compute; reflexivity|]. split.
  - apply (proj1 (period_sets_exclude_last_day three_days 30 0
                    [three_days_first_period; three_days_second_period]
                    three_days_first_period (mkDate 2020 7 2)
                    (or_introl eq_refl))).
    + exact three_days_periods_detected.
    + exact three_days_shared_index.
    + vm_compute. reflexivity.
  - apply (proj1 (period_sets_exclude_last_day three_days 30 0
                    [three_days_first_period; three_days_second_period]
                    three_days_second_period (mkDate 2020 7 2)
                    (or_intror (or_introl eq_refl)))).
    + exact three_days_periods_detected.
    + exact three_days_shared_index.
    + vm_compute. reflexivity.
Defined.

Lemma mid_year_order (a b : Z) :
  (a < b)%Z -> Calendar.date_leb (mkDate (a + 1) 7 1) (mkDate b 7 1) = true.
Proof.
  intro H. apply date_leb_le.
  destruct (Z.eq_dec (a + 1)%Z b) as [->|Hne]; [now right|].
  left. unfold date_lt. cbn [year month day]. lia.
Qed.

Lemma new_year_order (a b : Z) :
  (a < b)%Z -> Calendar.date_leb (mkDate (a + 1) 1 1) (mkDate b 1 1) = true.
Proof.
  intro H. apply date_leb_le.
  destruct (Z.eq_dec (a + 1)%Z b) as [->|Hne]; [now right|].
  left. unfold date_lt. cbn [year month day]. lia.
Qed.

(** Two windows that follow one another share no day. *)
Lemma windows_apart (cs1 cs2 : CoreDaySet) (ws1 we1 ws2 we2 ds de d : Date) :
  start_date cs1 = Calendar.date_max ws1 ds ->
  end_date cs1 = Calendar.date_min we1 de ->
  start_date cs2 = Calendar.date_max ws2 ds ->
  end_date cs2 = Calendar.date_min we2 de ->
  Calendar.date_leb we1 ws2 = true ->
  in_window cs1 d = true -> in_window cs2 d = true -> False.
Proof.
  intros Hs1 He1 Hs2 He2 Hord H1 H2. unfold in_window in *.
  apply andb_true_iff in H1 as [_ H1]. apply andb_true_iff in H2 as [H2 _].
  rewrite He1 in H1. rewrite Hs2 in H2.
  apply date_min_upper in H1 as [H1 _]. apply date_max_lower in H2.
  apply date_ltb_lt in H1. apply date_leb_le in H2, Hord.
  assert (Hlt : date_lt d d).
  { destruct Hord as [Hord|Hord]; destruct H2 as [H2|H2]; subst;
      eauto using date_lt_trans. }
  unfold date_lt in Hlt. lia.
Qed.

(** X2: the core day sets one period-based call returns share no day: a
    day included in the daily mask of one set is excluded from the daily
    mask of every other set of the same list. *)
Theorem period_sets_are_disjoint :
  forall (self : Thermostat) (mn mx : Z) (sets : list CoreDaySet)
         (cs1 cs2 : CoreDaySet) (d : Date),
    In cs1 sets -> In cs2 sets -> cs1 <> cs2 ->
    Pd.selected (daily cs1) d = true ->
    (get_core_heating_days self "year_mid_to_mid" mn mx = Ok sets ->
     shared_index (heat_runtime_daily self) (cool_runtime_daily self)
       (has_cooling self) (temperature_in self) (temperature_out self) ->
     Pd.selected (daily cs2) d = false) /\
    (get_core_cooling_days self "year_end_to_end" mn mx = Ok sets ->
     shared_index (cool_runtime_daily self) (heat_runtime_daily self)
       (has_heating self) (temperature_in self) (temperature_out self) ->
     Pd.selected (daily cs2) d = false).
Proof.
  intros self mn mx sets cs1 cs2 d Hin1 Hin2 Hne Hsel1.
  split; intros Hg Hshared.
  - destruct (get_core_heating_days_cases _ _ _ _ _ Hg)
      as (_ & ds & de & _ & _ & [[_ Hc]|(Hm & _)]); [|discriminate].
    destruct (collect_In _ _ _ _ Hc Hin1) as (y1 & l1 & _ & Hp1 & Hl1).
    destruct (collect_In _ _ _ _ Hc Hin2) as (y2 & l2 & _ & Hp2 & Hl2).
    pose proof (index_heating_thresholds self mn mx Hshared) as Hidx.
    rewrite (period_core_day_set_selected _ _ _ _ _ _ _ _ _ Hidx Hp1 Hl1)
      in Hsel1.
    rewrite (period_core_day_set_selected _ _ _ _ _ _ _ _ _ Hidx Hp2 Hl2).
    apply andb_true_iff in Hsel1 as [_ Hsel1].
    apply andb_true_iff in Hsel1 as [Hw1 _].
    destruct (in_window cs2 d) eqn:Hw2; [|apply andb_false_r].
    exfalso.
    destruct (period_core_day_set_bounds _ _ _ _ _ _ _ _ _ Hp1 Hl1)
      as (Hl1' & _ & Hs1 & He1).
    destruct (period_core_day_set_bounds _ _ _ _ _ _ _ _ _ Hp2 Hl2)
      as (Hl2' & _ & Hs2 & He2).
    destruct (Z.lt_trichotomy y1 y2) as [Hlt|[Heq|Hgt]].
    + exact (windows_apart cs1 cs2 _ _ _ _ ds de d Hs1 He1 Hs2 He2
               (mid_year_order _ _ Hlt) Hw1 Hw2).
    + subst y2. rewrite Hp1 in Hp2. injection Hp2 as <-.
      rewrite Hl1' in Hl2'. injection Hl2' as Heq. congruence.
    + exact (windows_apart cs2 cs1 _ _ _ _ ds de d Hs2 He2 Hs1 He1
               (mid_year_order _ _ Hgt) Hw2 Hw1).
  - destruct (get_core_cooling_days_cases _ _ _ _ _ Hg)
      as (_ & ds & de & _ & _ & [[_ Hc]|(Hm & _)]); [|discriminate].
    destruct (collect_In _ _ _ _ Hc Hin1) as (y1 & l1 & _ & Hp1 & Hl1).
    destruct (collect_In _ _ _ _ Hc Hin2) as (y2 & l2 & _ & Hp2 & Hl2).
    pose proof (index_cooling_thresholds self mn mx Hshared) as Hidx.
    rewrite (period_core_day_set_selected _ _ _ _ _ _ _ _ _ Hidx Hp1 Hl1)
      in Hsel1.
    rewrite (period_core_day_set_selected _ _ _ _ _ _ _ _ _ Hidx Hp2 Hl2).
    apply andb_true_iff in Hsel1 as [_ Hsel1].
    apply andb_true_iff in Hsel1 as [Hw1 _].
    destruct (in_window cs2 d) eqn:Hw2; [|apply andb_false_r].
    exfalso.
    destruct (period_core_day_set_bounds _ _ _ _ _ _ _ _ _ Hp1 Hl1)
      as (Hl1' & _ & Hs1 & He1).
    destruct (period_core_day_set_bounds _ _ _ _ _ _ _ _ _ Hp2 Hl2)
      as (Hl2' & _ & Hs2 & He2).
    destruct (Z.lt_trichotomy y1 y2) as [Hlt|[Heq|Hgt]].
    + exact (windows_apart cs1 cs2 _ _ _ _ ds de d Hs1 He1 Hs2 He2
               (new_year_order _ _ Hlt) Hw1 Hw2).
    + subst y2. rewrite Hp1 in Hp2. injection Hp2 as <-.
      rewrite Hl1' in Hl2'. injection Hl2' as Heq. congruence.
    + exact (windows_apart cs2 cs1 _ _ _ _ ds de d Hs2 He2 Hs1 He1
               (new_year_order _ _ Hgt) Hw2 Hw1).
Qed.

Lemma period_sets_are_disjoint_witness :
  Pd.selected (daily three_days_first_period) (mkDate 2020 6 30) = true /\
  Pd.selected (daily three_days_second_period) (mkDate 2020 6 30) = false.
Proof.
  split; [vm_compute; reflexivity|].
  destruct (period_sets_are_disjoint three_days 30 0
              [three_days_first_period; three_days_second_period]
              three_days_first_period three_days_second_period
              (mkDate 2020 6 30)) as [Hheating _].
  - now left.
  - right. now left.
  - vm_compute. discriminate.
  - vm_compute. reflexivity.
  - apply Hheating.
    + exact three_days_periods_detected.
    + exact three_days_shared_index.
Defined.

(** ** The hour-of-year key stays inside the baseline table *)

(** X3: for every valid timestamp, leap year or not, the key computed for
    the hourly baseline lies between 1 and 8760, the rows of the table. *)
Theorem hour_of_year_in_table :
  forall t : Timestamp,
    Calendar.valid_timestamp t -> (1 <= hour_of_year t <= 8760)%Z.
Proof.
  intros [[y m d] h] [[Hm Hd] Hh]. cbn [date hour year month day] in *.
  unfold hour_of_year, leap_adjustment, Calendar.dayofyear,
    Calendar.days_in_month in *.
  cbn [date hour year month day] in *.
  assert (Hcases : (m = 1 \/ m = 2 \/ m = 3 \/ m = 4 \/ m = 5 \/ m = 6 \/
                    m = 7 \/ m = 8 \/ m = 9 \/ m = 10 \/ m = 11 \/ m = 12)%Z)
    by lia.
  destruct (Calendar.is_leap_year y);
    destruct Hcases as [->|[->|[->|[->|[->|[->|[->|[->|[->|[->|[->| ->]]]]]]]]]]];
    unfold Calendar.days_before_month; simpl in *;
    match goal with
    | |- context [(59 <=? ?x)%Z] =>
        destruct (59 <=? x)%Z eqn:Hcmp;
        [apply Z.leb_le in Hcmp | apply Z.leb_gt in Hcmp]; lia
    | _ => lia
    end.
Qed.

Lemma hour_of_year_in_table_witness :
  (1 <= hour_of_year new_years_eve_2020 <= 8760)%Z /\
  hour_of_year new_years_eve_2020 = 8760%Z.
Proof.
  split; [|reflexivity].
  apply hour_of_year_in_table.
  repeat split; vm_compute; intro Hc; discriminate Hc.
Defined.

(** ** Shape of the binned resistance heat utilization *)

Lemma filter_none {A} (f : A -> bool) (l : list A) :
  (forall x, In x l -> f x = false) -> List.filter f l = [].
Proof.
  induction l as [|x l IH]; intro H; [reflexivity|]. simpl.
  rewrite (H x) by now left. apply IH. intros y Hy. apply H. now right.
Qed.

Lemma rhu_row_empty_bin (rt : RuntimeTemp) (mn : option Z) (iv : Interval) :
  (forall r, In r rt -> in_interval iv (rt_temperature (snd r)) = false) ->
  rhu_heat_runtime (rhu_row rt mn iv) = 0%float /\
  rhu_aux_runtime (rhu_row rt mn iv) = 0%float /\
  rhu_emg_runtime (rhu_row rt mn iv) = 0%float /\
  rhu_rhu (rhu_row rt mn iv) = nan /\
  rhu_data_is_nonsense (rhu_row rt mn iv) = false.
Proof.
  intro Hempty. unfold rhu_row.
  rewrite (filter_none _ rt Hempty). cbn [List.map].
  change (Np.nansum []) with 0%float.
  cbn [rhu_heat_runtime rhu_aux_runtime rhu_emg_runtime rhu_rhu
       rhu_data_is_nonsense].
  repeat split; try reflexivity.
  destruct mn as [m|]; [|reflexivity].
  destruct (truthy (Some m) && _); reflexivity.
Qed.

(** What a returning call returns. *)
Lemma rhu_bins_rows (self : Thermostat) (rt : RuntimeTemp) (bins : list Z)
    (cds : CoreDaySet) (mn : option Z) (rows : list RhuRow)
    (warned : list RhuWarning) :
  get_resistance_heat_utilization_bins self (Some rt) bins cds mn
  = Ok (Some rows, warned) ->
  let categories :=
    List.map (fun p => mkInterval (fst p) (snd p)) (combine bins (tl bins)) in
  rows = List.map (rhu_row rt mn) categories /\
  List.map rhu_bin rows = categories /\
  warned
  = List.map (rhu_warning self cds) (List.filter rhu_data_is_nonsense rows).
Proof.
  intros Hcall categories.
  unfold get_resistance_heat_utilization_bins in Hcall.
  apply rbind_ok in Hcall as ([] & _ & Hcall).
  apply rbind_ok in Hcall as ([] & _ & Hcall).
  apply rbind_ok in Hcall as (cats & Hcut & Hcall).
  injection Hcall as <- <-.
  unfold cut_intervals in Hcut.
  destruct (strictly_increasing bins); [|discriminate].
  injection Hcut as <-. fold categories.
  split; [reflexivity|]. split.
  - rewrite map_map. cbn [rhu_row rhu_bin]. apply map_id.
  - destruct (existsb _ _) eqn:Hex; [reflexivity|].
    rewrite filter_none; [reflexivity|].
    intros row Hrow. destruct (rhu_data_is_nonsense row) eqn:Hn; [|reflexivity].
    assert (Ht : existsb rhu_data_is_nonsense
                   (List.map (rhu_row rt mn) categories) = true)
      by (apply existsb_exists; eauto).
    congruence.
Qed.

(** X4: whenever the binning returns a frame, the frame has one row per
    pair of consecutive bin edges, in the order of the edges, whatever the
    data; a bin no day's temperature falls in has zero runtimes, an [rhu]
    of NaN (0/0) and is not flagged; and the warnings are those of the
    flagged rows, so a frame without flagged row emits none. *)
Theorem rhu_bins_shape :
  forall (self : Thermostat) (runtime_temp : RuntimeTemp) (bins : list Z)
         (cds : CoreDaySet) (min_runtime_minutes : option Z)
         (rows : list RhuRow) (warned : list RhuWarning),
    get_resistance_heat_utilization_bins self (Some runtime_temp) bins cds
      min_runtime_minutes = Ok (Some rows, warned) ->
    length rows = length bins - 1 /\
    List.map rhu_bin rows
    = List.map (fun p => mkInterval (fst p) (snd p)) (combine bins (tl bins)) /\
    (forall row, In row rows ->
       (forall r, In r runtime_temp ->
          in_interval (rhu_bin row) (rt_temperature (snd r)) = false) ->
       rhu_heat_runtime row = 0%float /\ rhu_aux_runtime row = 0%float /\
       rhu_emg_runtime row = 0%float /\ rhu_rhu row = nan /\
       rhu_data_is_nonsense row = false) /\
    warned
    = List.map (rhu_warning self cds) (List.filter rhu_data_is_nonsense rows) /\
    ((forall row, In row rows -> rhu_data_is_nonsense row = false) ->
     warned = []).
Proof.
  intros self rt bins cds mn rows warned Hcall.
  destruct (rhu_bins_rows _ _ _ _ _ _ _ Hcall) as (Hrows & Hbins & Hwarned).
  split; [|split; [|split; [|split]]].
  - rewrite <- (length_map rhu_bin), Hbins, length_map, length_combine.
    destruct bins as [|b bs]; [reflexivity|]. cbn [tl length].
    rewrite Nat.min_r by lia. lia.
  - exact Hbins.
  - intros row Hrow Hempty. rewrite Hrows in Hrow.
    apply in_map_iff in Hrow as (iv & <- & _).
    apply rhu_row_empty_bin. exact Hempty.
  - exact Hwarned.
  - intro Hnone. rewrite Hwarned, filter_none; [reflexivity | exact Hnone].
Qed.

Lemma rhu_bins_shape_witness :
  exists rows warned,
    get_resistance_heat_utilization_bins heat_pump (Some aux_over_heat)
      RESISTANCE_HEAT_USE_BIN jan_2020 None = Ok (Some rows, warned) /\
    length rows = 12 /\
    List.map rhu_bin rows
    = List.map (fun p => mkInterval (fst p) (snd p))
        (combine RESISTANCE_HEAT_USE_BIN (tl RESISTANCE_HEAT_USE_BIN)) /\
    rhu_rhu (nth 0 rows (rhu_row [] None (mkInterval 0 0))) = nan /\
    length warned = 1.
Proof.
  destruct (get_resistance_heat_utilization_bins heat_pump (Some aux_over_heat)
              RESISTANCE_HEAT_USE_BIN jan_2020 None) as [[[rows|] warned]|e]
    eqn:Hcall; try (vm_compute in Hcall; discriminate Hcall).
  exists rows, warned. split; [reflexivity|].
  destruct (rhu_bins_shape heat_pump aux_over_heat RESISTANCE_HEAT_USE_BIN
              jan_2020 None rows warned Hcall)
    as (Hlen & Hbins & Hempty & Hwarned & _).
  split; [exact Hlen|]. split; [exact Hbins|].
  vm_compute in Hcall. injection Hcall as <- <-.
  split; reflexivity.
Defined.

(** ** The sigmoid fit without usable bins *)

Lemma keep_rows_none {A} (keep : list bool) (l : list A) :
  Forall (fun b => b = false) keep -> keep_rows keep l = [].
Proof.
  unfold keep_rows. intro H. revert l.
  induction H as [|b keep Hb _ IH]; intros [|x l]; try reflexivity.
  subst b. simpl. apply IH.
Qed.

Lemma df_column_keep (df : DataFrame) (keep : list bool) (c : string) :
  df_column (df_keep df keep) c
  = match df_columns df !! c with
    | Some v => Ok (keep_rows keep v)
    | None => Raise AttributeError
    end.
Proof.
  unfold df_column, df_keep. cbn [df_columns]. rewrite lookup_fmap.
  now destruct (df_columns df !! c).
Qed.

Lemma lookup_df_keep (df : DataFrame) (keep : list bool) (c : string) :
  df_columns (df_keep df keep) !! c = keep_rows keep <$> (df_columns df !! c).
Proof. unfold df_keep. cbn [df_columns]. apply lookup_fmap. Qed.

Lemma keep_rows_Forall {A} (P : A -> Prop) (keep : list bool) (l : list A) :
  Forall P l -> Forall P (keep_rows keep l).
Proof.
  unfold keep_rows. intro H. revert keep.
  induction H as [|x l Hx _ IH]; intros [|b keep]; simpl; try constructor.
  destruct b; simpl; [constructor; [exact Hx | apply IH] | apply IH].
Qed.

Lemma calc_estimates_no_bins (erf : float -> float) (thr : Z)
    (p : list float) (df : DataFrame) (e : float) (ns : list float) :
  df_columns df !! "n_points" = Some ns ->
  Forall (fun n => (Np.of_Z thr <? n)%float = false) ns ->
  fit_sigmoid_model_calc_estimates erf thr p df = Ok e -> e = nan.
Proof.
  intros Hns Hlow. unfold fit_sigmoid_model_calc_estimates. intro H.
  apply rbind_ok in H as (mu & _ & H).
  apply rbind_ok in H as (sigma & _ & H).
  apply rbind_ok in H as (np & Hnp & H).
  unfold dropna in Hnp. rewrite df_column_keep, Hns in Hnp.
  injection Hnp as <-.
  assert (Hkeep : Forall (fun b => b = false)
            (List.map (fun n => (Np.of_Z thr <? n)%float)
               (keep_rows
                  (List.map (fun i => negb (row_has_nan df i))
                     (seq 0 (length (df_index df)))) ns))).
  { apply Forall_map. eapply keep_rows_Forall in Hlow. exact Hlow. }
  apply rbind_ok in H as (rv & Hrv & H).
  rewrite df_column_keep in Hrv.
  destruct (df_columns (dropna df) !! "rhu") as [v|]; [|discriminate].
  injection Hrv as <-.
  apply rbind_ok in H as (np' & Hnp' & H).
  rewrite df_column_keep in Hnp'.
  destruct (df_columns (dropna df) !! "n_points") as [v'|]; [|discriminate].
  injection Hnp' as <-. injection H as <-.
  cbn [df_keep df_index].
  rewrite !keep_rows_none by exact Hkeep. reflexivity.
Qed.

(** X5: the sigmoid fit gives up without touching the caller's frame when
    the frame has no bin to fit: if it lacks the ["n_points"] or the
    ["rhu"] column, or if no bin has more than [n_points_threshold]
    points, the four returned values are [None] and the heap is unchanged,
    whatever the solver would have done. *)
Theorem fit_sigmoid_model_without_bins :
  forall (trf : TrustRegion) (erf : float -> float) (runtime_rhu : loc)
         (n_points_threshold : Z) (h : heap) (df : DataFrame),
    h !! runtime_rhu = Some df ->
    df_columns df !! "n_points" = None \/
    df_columns df !! "rhu" = None \/
    (exists ns, df_columns df !! "n_points" = Some ns /\
                Forall (fun n => (Np.of_Z n_points_threshold <? n)%float = false)
                  ns) ->
    fit_sigmoid_model trf erf runtime_rhu n_points_threshold h
    = (h, (None, None, None, None)).
Proof.
  intros trf erf l thr h df Hdf Hcase.
  unfold fit_sigmoid_model, fit_sigmoid_model_try, deref. rewrite Hdf.
  cbn [rbind]. unfold least_squares.
  destruct (fit_sigmoid_model_calc_estimates erf thr [30%float; 5%float] df)
    as [f0|e] eqn:Hf0; [|reflexivity].
  cbn [rbind].
  assert (Hnan : f0 = nan).
  { destruct Hcase as [Hn|[Hr|(ns & Hns & Hlow)]].
    - exfalso. unfold fit_sigmoid_model_calc_estimates in Hf0.
      cbn [nth_error rbind] in Hf0. unfold dropna in Hf0.
      rewrite df_column_keep, Hn in Hf0. discriminate.
    - exfalso. unfold fit_sigmoid_model_calc_estimates in Hf0.
      cbn [nth_error rbind] in Hf0.
      apply rbind_ok in Hf0 as (np & _ & Hf0).
      unfold dropna in Hf0.
      rewrite df_column_keep, lookup_df_keep, Hr in Hf0. discriminate.
    - eapply calc_estimates_no_bins; eassumption. }
  subst f0. reflexivity.
Qed.

Lemma fit_sigmoid_model_without_bins_witness :
  fit_sigmoid_model trf_returns ramp 1%positive 2
    (<[1%positive := no_counts]> ∅)
  = (<[1%positive := no_counts]> ∅, (None, None, None, None)) /\
  fit_sigmoid_model trf_returns ramp 1%positive 100
    (<[1%positive := three_bins]> ∅)
  = (<[1%positive := three_bins]> ∅, (None, None, None, None)).
Proof.
  split.
  - apply (fit_sigmoid_model_without_bins trf_returns ramp 1%positive 2
             (<[1%positive := no_counts]> ∅) no_counts);
      [apply lookup_insert_eq|].
    left. reflexivity.
  - apply (fit_sigmoid_model_without_bins trf_returns ramp 1%positive 100
             (<[1%positive := three_bins]> ∅) three_bins);
      [apply lookup_insert_eq|].
    right. right. exists [10; 0; 20]%float. split; [reflexivity|].
    repeat constructor.
Defined.

(** ** The demand series is labelled by the selected days *)

Lemma make_checked_index {L A} (idx : list L) (vals : list A)
    (s : Series L A) :
  Pd.make_checked idx vals = Ok s ->
  Pd.index s = idx /\ Pd.values s = vals.
Proof.
  unfold Pd.make_checked. destruct (Nat.eqb _ _) eqn:Hlen; [|discriminate].
  apply Nat.eqb_eq in Hlen. intro H. injection H as <-.
  unfold Pd.make, Pd.index, Pd.values. now apply combine_fst_snd.
Qed.

Lemma getitem_mask_ok {L A} `{EqDecision L} (s sel : Series L A)
    (mask : Series L bool) :
  Pd.getitem_mask s mask = Ok sel ->
  sel = List.filter (fun r => Pd.selected mask (fst r)) s.
Proof.
  unfold Pd.getitem_mask. destruct (forallb _ s); [|discriminate].
  now intros [= <-].
Qed.

Lemma fit_demand_index (lmdif : Minpack) (self : Thermostat)
    (hourly_dd : float -> float -> float) (runtime_daily : DSeries float)
    (cds : CoreDaySet) (r : DemandModelResult) :
  fit_demand lmdif self hourly_dd runtime_daily cds = Ok r ->
  Pd.index (dm_demand r)
  = Pd.index (List.filter (fun row => Pd.selected (daily cds) (fst row))
                (daily cds)) /\
  (dm_cov_x r = DiagNaN -> dm_demand r = [] /\ dm_tau r = nan).
Proof.
  unfold fit_demand. intro H.
  apply rbind_ok in H as (tin & _ & H).
  apply rbind_ok in H as (tout & _ & H).
  apply rbind_ok in H as (dsel & Hsel & H).
  apply getitem_mask_ok in Hsel. subst dsel.
  apply rbind_ok in H as (rt & _ & H).
  destruct (leastsq _ _ _) as [y|e].
  - apply rbind_ok in H as ([[dd alpha] errors] & _ & H).
    apply rbind_ok in H as (cvrmse & _ & H).
    apply rbind_ok in H as (demand & Hdemand & H).
    injection H as <-. cbn [dm_demand dm_cov_x].
    split; [apply (make_checked_index _ _ _ Hdemand) | discriminate].
  - destruct e; try discriminate.
    destruct (negb _); [discriminate|].
    apply rbind_ok in H as (demand & Hdemand & H). injection H as <-.
    unfold nan_demand_result. cbn [dm_demand dm_cov_x dm_tau].
    destruct (make_checked_index _ _ _ Hdemand) as [Hi Hv].
    split; [exact Hi|]. intros _. split; [|reflexivity].
    destruct demand; [reflexivity | discriminate].
Qed.

(** X6: whenever a demand fitter returns, the demand series it returns
    carries exactly the days the daily mask of the core day set selects, in
    their order, one value per selected day -- on the fitted path and on
    the all-NaN path alike. *)
Theorem demand_is_indexed_by_selected_days :
  forall (lmdif : Minpack) (self : Thermostat) (cds : CoreDaySet)
         (r : DemandModelResult),
    get_cooling_demand lmdif self cds = Ok r \/
    get_heating_demand lmdif self cds = Ok r ->
    Pd.index (dm_demand r)
    = Pd.index (List.filter (fun row => Pd.selected (daily cds) (fst row))
                  (daily cds)).
Proof.
  intros lmdif self cds r [H|H].
  - unfold get_cooling_demand in H. apply rbind_ok in H as ([] & _ & H).
    exact (proj1 (fit_demand_index _ _ _ _ _ _ H)).
  - unfold get_heating_demand in H. apply rbind_ok in H as ([] & _ & H).
    exact (proj1 (fit_demand_index _ _ _ _ _ _ H)).
Qed.

Lemma two_days_fitted :
  get_heating_demand lmdif_returns two_days (two_days_set [false; true])
  = Ok two_days_fit.
Proof. vm_compute. reflexivity. Qed.

Lemma demand_is_indexed_by_selected_days_witness :
  Pd.index (dm_demand two_days_fit) = [mkDate 2020 6 30].
Proof.
  rewrite (demand_is_indexed_by_selected_days lmdif_returns two_days
             (two_days_set [false; true]) two_days_fit
             (or_intror two_days_fitted)).
  vm_compute. reflexivity.
Defined.

(** ** Runtime totals and day counts of detected core day sets *)

Lemma mask_covers_same_index {A} (mask : DSeries bool) (s : DSeries A) :
  Pd.index mask = Pd.index s -> mask_covers mask s.
Proof.
  intros Hidx r Hr. unfold Pd.covered.
  destruct (lookup_in_index mask (fst r)) as [v ->]; [|reflexivity].
  rewrite Hidx. unfold Pd.index. now apply in_map.
Qed.

(** X7: the total runtime of a detected core day set is always defined:
    for every set [get_core_heating_days] ([get_core_cooling_days])
    returns, [total_heating_runtime] ([total_cooling_runtime]) returns the
    NaN-skipping sum of the daily runtimes of the days the set selects, and
    raises nothing. *)
Theorem total_runtime_of_detected_set :
  forall (self : Thermostat) (method : string) (mn mx : Z)
         (sets : list CoreDaySet) (cs : CoreDaySet),
    In cs sets ->
    (get_core_heating_days self method mn mx = Ok sets ->
     total_heating_runtime self cs
     = Ok (Np.nansum
             (Pd.values
                (List.filter (fun r => Pd.selected (daily cs) (fst r))
                   (heat_runtime_daily self))))) /\
    (get_core_cooling_days self method mn mx = Ok sets ->
     total_cooling_runtime self cs
     = Ok (Np.nansum
             (Pd.values
                (List.filter (fun r => Pd.selected (daily cs) (fst r))
                   (cool_runtime_daily self))))).
Proof.
  intros self method mn mx sets cs Hin. split; intro Hg.
  - destruct (get_core_heating_days_cases _ _ _ _ _ Hg) as [Hcap _].
    destruct (heating_emitted _ _ _ _ _ _ Hg Hin) as [_ Hidx].
    unfold total_heating_runtime, _protect_heating. rewrite Hcap.
    cbn [negb rbind].
    rewrite (getitem_mask_covers _ _ (mask_covers_same_index _ _ Hidx)).
    reflexivity.
  - destruct (get_core_cooling_days_cases _ _ _ _ _ Hg) as [Hcap _].
    destruct (cooling_emitted _ _ _ _ _ _ Hg Hin) as [_ Hidx].
    unfold total_cooling_runtime, _protect_cooling. rewrite Hcap.
    cbn [negb rbind].
    rewrite (getitem_mask_covers _ _ (mask_covers_same_index _ _ Hidx)).
    reflexivity.
Qed.

Lemma total_runtime_of_detected_set_witness :
  total_heating_runtime three_days three_days_first_period = Ok 48%float.
Proof.
  rewrite (proj1 (total_runtime_of_detected_set three_days "year_mid_to_mid"
                    30 0 [three_days_first_period; three_days_second_period]
                    three_days_first_period (or_introl eq_refl))
             three_days_periods_detected).
  vm_compute. reflexivity.
Defined.

Lemma filter_snd_values {L} (s : Series L bool) :
  length (List.filter snd s)
  = length (List.filter (fun b : bool => b) (Pd.values s)).
Proof.
  unfold Pd.values. induction s as [|[l b] s IH]; [reflexivity|].
  simpl. destruct b; simpl; now rewrite IH.
Qed.

Lemma count_np_repeat (vals : list bool) (n : nat) :
  length (List.filter (fun b : bool => b) (np_repeat vals n))
  = n * length (List.filter (fun b : bool => b) vals).
Proof.
  unfold np_repeat. induction vals as [|v vals IH]; simpl; [lia|].
  rewrite List.filter_app, length_app, IH.
  assert (Hrep : forall k,
            length (List.filter (fun b : bool => b) (repeat v k))
            = if v then k else 0).
  { induction k as [|k IHk]; simpl; [now destruct v|].
    destruct v; simpl; [now rewrite IHk | exact IHk]. }
  rewrite Hrep. destruct v; simpl; lia.
Qed.

Lemma bool_sum_bounds {L} (s : Series L bool) :
  (0 <= bool_sum s <= Z.of_nat (length s))%Z.
Proof.
  unfold bool_sum. pose proof (List.filter_length_le snd s). lia.
Qed.

Lemma bool_sum_any {L} (s : Series L bool) :
  Pd.any s = true -> (1 <= bool_sum s)%Z.
Proof.
  unfold Pd.any, bool_sum. intro H. apply existsb_exists in H as (r & Hr & Hv).
  assert (Hin : In r (List.filter snd s)) by (apply filter_In; auto).
  destruct (List.filter snd s); [destruct Hin | simpl; lia].
Qed.

Lemma emitted_hours (rd : DSeries float) (cs : CoreDaySet) :
  emitted rd cs -> bool_sum (hourly cs) = (24 * bool_sum (daily cs))%Z.
Proof.
  intros [Hh _].
  destruct (_get_hourly_boolean_spec _ _ Hh) as (first & _ & _ & Hvals).
  unfold bool_sum. rewrite !filter_snd_values, Hvals, count_np_repeat. lia.
Qed.

(** X8: for every core day set either detector returns, the number of
    included hours ([hourly.sum()]) is 24 times the number of core days
    ([get_core_day_set_n_days]), which is at most the number of rows of the
    daily mask; under a period-based method it is at least one. *)
Theorem core_day_counts :
  forall (self : Thermostat) (method : string) (mn mx : Z)
         (sets : list CoreDaySet) (cs : CoreDaySet),
    In cs sets ->
    get_core_heating_days self method mn mx = Ok sets \/
    get_core_cooling_days self method mn mx = Ok sets ->
    bool_sum (hourly cs) = (24 * get_core_day_set_n_days self cs)%Z /\
    (0 <= get_core_day_set_n_days self cs <= Z.of_nat (length (daily cs)))%Z /\
    (method <> "entire_dataset" ->
     (1 <= get_core_day_set_n_days self cs)%Z).
Proof.
  intros self method mn mx sets cs Hin Hdet.
  unfold get_core_day_set_n_days.
  split; [|split; [apply bool_sum_bounds|]].
  - destruct Hdet as [Hg|Hg].
    + eapply emitted_hours, heating_emitted; eassumption.
    + eapply emitted_hours, cooling_emitted; eassumption.
  - intro Hperiod. apply bool_sum_any. destruct Hdet as [Hg|Hg].
    + destruct (get_core_heating_days_cases _ _ _ _ _ Hg)
        as (_ & ds & de & _ & _ & [[_ Hc]|(Hm & _)]); [|congruence].
      destruct (collect_In _ _ _ _ Hc Hin) as (y & l & _ & Hp & Hl).
      exact (proj2 (period_core_day_set_shape _ _ _ _ _ _ _ _ _ Hp Hl)).
    + destruct (get_core_cooling_days_cases _ _ _ _ _ Hg)
        as (_ & ds & de & _ & _ & [[_ Hc]|(Hm & _)]); [|congruence].
      destruct (collect_In _ _ _ _ Hc Hin) as (y & l & _ & Hp & Hl).
      exact (proj2 (period_core_day_set_shape _ _ _ _ _ _ _ _ _ Hp Hl)).
Qed.

Lemma core_day_counts_witness :
  get_core_day_set_n_days three_days three_days_first_period = 1%Z /\
  bool_sum (hourly three_days_first_period)
  = (24 * get_core_day_set_n_days three_days three_days_first_period)%Z /\
  (1 <= get_core_day_set_n_days three_days three_days_first_period)%Z.
Proof.
  destruct (core_day_counts three_days "year_mid_to_mid" 30 0
              [three_days_first_period; three_days_second_period]
              three_days_first_period (or_introl eq_refl)
              (or_introl three_days_periods_detected))
    as (Hhours & _ & Hone).
  split; [vm_compute; reflexivity|]. split; [exact Hhours|].
  apply Hone. discriminate.
Defined.

(** ** Column names of the resistance heat utilization outputs *)

Lemma append_inv_head (t x y : string) :
  (t ++ x = t ++ y)%string -> x = y.
Proof. induction t as [|a t IH]; simpl; [trivial|]. intros [= H]. auto. Qed.

Lemma append_no_char_inj (c : Ascii.ascii) (a a' r r' : string) :
  no_char c a -> no_char c a' ->
  (a ++ String c r = a' ++ String c r')%string -> a = a' /\ r = r'.
Proof.
  revert a'. induction a as [|x a IH]; intros [|x' a'] Ha Ha'; simpl.
  - intros [= ->]. auto.
  - intros [= <- _]. destruct Ha' as [Hx _]. congruence.
  - intros [= -> _]. destruct Ha as [Hx _]. congruence.
  - intros [= -> H]. destruct Ha as [_ Ha], Ha' as [_ Ha'].
    destruct (IH a' Ha Ha' H) as [-> ->]. auto.
Qed.

Lemma length_append (a b : string) :
  String.length (a ++ b) = String.length a + String.length b.
Proof. induction a; simpl; auto. Qed.

Lemma append_inv_tail (a a' s : string) :
  (a ++ s = a' ++ s)%string -> a = a'.
Proof.
  intro H.
  assert (Hlen : String.length a = String.length a').
  { apply (f_equal String.length) in H. rewrite !length_append in H. lia. }
  revert a' H Hlen. induction a as [|x a IH]; intros [|x' a'] H Hlen;
    simpl in *; try discriminate; [reflexivity|].
  injection H as -> H. f_equal. apply IH; [exact H | lia].
Qed.

Lemma no_char_uint (c : Ascii.ascii) (d : Decimal.uint) :
  no_char c "0123456789" -> no_char c (NilEmpty.string_of_uint d).
Proof.
  intro Hc. simpl in Hc.
  induction d; simpl; intuition congruence.
Qed.

Lemma no_char_format_int (c : Ascii.ascii) (n : Z) :
  no_char c "-0123456789" -> no_char c (format_int n).
Proof.
  intros [Hm Hc]. unfold format_int, NilZero.string_of_int.
  destruct (Z.to_int n) as [d|d]; [|split; [exact Hm|]];
    unfold NilZero.string_of_uint;
    (destruct d; [simpl in *; intuition congruence | apply no_char_uint; exact Hc ..]).
Qed.

Lemma no_char_format_02d (c : Ascii.ascii) (n : Z) :
  no_char c "-0123456789" -> no_char c (format_02d n).
Proof.
  intro Hc. unfold format_02d.
  destruct (n <? 0)%Z; [now apply no_char_format_int|].
  destruct (String.length (format_int n) <? 2).
  - simpl. split; [simpl in Hc; intuition congruence|].
    now apply no_char_format_int.
  - now apply no_char_format_int.
Qed.

Lemma format_int_inj (n n' : Z) : format_int n = format_int n' -> n = n'.
Proof.
  unfold format_int. intro H.
  apply (f_equal NilZero.int_of_string) in H.
  assert (Hnn : forall z, Z.to_int z <> Decimal.Pos Decimal.Nil /\
                          Z.to_int z <> Decimal.Neg Decimal.Nil).
  { intros [|p|p]; simpl; split; try discriminate;
      intros [= Hp]; exact (DecimalPos.Unsigned.to_uint_nonnil p Hp). }
  rewrite !NilZero.isi in H by apply Hnn.
  injection H as H. now apply DecimalZ.to_int_inj.
Qed.

Lemma to_uint_no_leading_zero (p : positive) (u : Decimal.uint) :
  Pos.to_uint p <> Decimal.D0 u.
Proof.
  assert (Hnorm : Decimal.unorm (Pos.to_uint p) = Pos.to_uint p).
  { rewrite <- (DecimalPos.Unsigned.to_of (Pos.to_uint p)), DecimalPos.Unsigned.of_to. reflexivity. }
  assert (Hnz : Decimal.nzhead (Pos.to_uint p) <> Decimal.Nil).
  { intro Hnil. apply DecimalFacts.unorm_0 in Hnil. rewrite Hnorm in Hnil.
    exact (DecimalPos.Unsigned.to_uint_nonzero p Hnil). }
  rewrite <- Hnorm, (DecimalFacts.unorm_nzhead _ Hnz). apply DecimalFacts.nzhead_nonzero.
Qed.

Lemma format_int_leading_zero (n : Z) (r : string) :
  format_int n = ("0" ++ r)%string -> n = 0%Z.
Proof.
  unfold format_int. destruct n as [|p|p]; [reflexivity| |]; simpl.
  - unfold NilZero.string_of_uint.
    destruct (Pos.to_uint p) as [|u|u|u|u|u|u|u|u|u|u] eqn:Hp; simpl;
      try discriminate.
    + exfalso. exact (DecimalPos.Unsigned.to_uint_nonnil p Hp).
    + exfalso. exact (to_uint_no_leading_zero p u Hp).
  - discriminate.
Qed.

Lemma no_char_digits (c : Ascii.ascii) (n : Z) :
  (0 <= n)%Z -> no_char c "0123456789" -> no_char c (format_int n).
Proof.
  intros Hn Hc. unfold format_int, NilZero.string_of_int.
  destruct n as [|p|p]; [simpl in *; intuition congruence| |lia].
  simpl. unfold NilZero.string_of_uint.
  destruct (Pos.to_uint p); try (apply no_char_uint; exact Hc).
  simpl in *. intuition congruence.
Qed.

Lemma format_int_minus (n : Z) (r : string) :
  (0 <= n)%Z -> format_int n <> ("-" ++ r)%string.
Proof.
  intros Hn H. simpl in H.
  pose proof (no_char_digits) as Hd.
  destruct (format_int n) as [|c s] eqn:E; [discriminate|].
  injection H as Hc Hs.
  specialize (Hd c n Hn). rewrite E in Hd. subst c.
  destruct Hd as [Hd _]; [simpl; intuition discriminate | congruence].
Qed.

Lemma format_int_negative (n : Z) :
  (n < 0)%Z -> exists r, format_int n = ("-" ++ r)%string.
Proof.
  destruct n as [|p|p]; try lia. intros _. unfold format_int. simpl. eauto.
Qed.

Lemma format_02d_inj (n n' : Z) : format_02d n = format_02d n' -> n = n'.
Proof.
  unfold format_02d.
  destruct (Z.ltb_spec n 0) as [Hn|Hn], (Z.ltb_spec n' 0) as [Hn'|Hn'].
  - apply format_int_inj.
  - destruct (format_int_negative n Hn) as [r ->].
    destruct (String.length (format_int n') <? 2); [discriminate|].
    intro H. symmetry in H. now apply format_int_minus in H.
  - destruct (format_int_negative n' Hn') as [r ->].
    destruct (String.length (format_int n) <? 2); [discriminate|].
    intro H. now apply format_int_minus in H.
  - destruct (Nat.ltb_spec (String.length (format_int n)) 2) as [Hl|Hl],
      (Nat.ltb_spec (String.length (format_int n')) 2) as [Hl'|Hl'].
    + simpl. intros [= H]. now apply format_int_inj.
    + simpl. intro H. symmetry in H.
      pose proof (format_int_leading_zero n' _ H) as ->.
      vm_compute in Hl'. lia.
    + simpl. intro H.
      pose proof (format_int_leading_zero n _ H) as ->.
      vm_compute in Hl. lia.
    + apply format_int_inj.
Qed.

Lemma format_rhu_finite (rhu_type : string) (low high : Z)
    (duty_cycle : option string) :
  _format_rhu rhu_type (Finite low) (Finite high) duty_cycle
  = inr (match duty_cycle with
         | Some d => (column_name rhu_type low high ++ "_" ++ d)%string
         | None => column_name rhu_type low high
         end).
Proof. unfold _format_rhu. cbn. now destruct duty_cycle. Qed.

Lemma column_name_inj (rhu_type : string) (low high low' high' : Z) :
  column_name rhu_type low high = column_name rhu_type low' high' ->
  low = low' /\ high = high'.
Proof.
  unfold column_name, apply_format. intro H.
  apply append_inv_head in H. simpl in H. injection H as H.
  apply append_no_char_inj in H as [Hlow H];
    try (apply no_char_format_02d; simpl; intuition discriminate).
  injection H as H.
  apply append_no_char_inj in H as [Hhigh _];
    try (apply no_char_format_02d; simpl; intuition discriminate).
  split; now apply format_02d_inj.
Qed.

(** X9: [_format_rhu] never gives two bins the same column: for integer
    bounds, and with or without a duty cycle suffix, different pairs of
    bounds are formatted to different names, so no output of one bin can
    overwrite that of another. *)
Theorem format_rhu_injective :
  forall (rhu_type : string) (duty_cycle : option string)
         (low high low' high' : Z),
    (low, high) <> (low', high') ->
    _format_rhu rhu_type (Finite low) (Finite high) duty_cycle
    <> _format_rhu rhu_type (Finite low') (Finite high') duty_cycle.
Proof.
  intros t dc low high low' high' Hne H.
  rewrite !format_rhu_finite in H. injection H as H.
  assert (Hname : column_name t low high = column_name t low' high').
  { destruct dc as [d|]; [|exact H]. now apply append_inv_tail in H. }
  apply column_name_inj in Hname as [-> ->]. now apply Hne.
Qed.

Lemma format_rhu_injective_witness :
  _format_rhu "rhu1" (Finite 5) (Finite 10) None = inr "rhu1_05F_to_10F" /\
  _format_rhu "rhu1" (Finite 5) (Finite 10) None
  <> _format_rhu "rhu1" (Finite 50) (Finite 10) None /\
  _format_rhu "rhu2" (Finite (-5)) (Finite 100) (Some "aux_duty_cycle")
  <> _format_rhu "rhu2" (Finite 5) (Finite 100) (Some "aux_duty_cycle").
Proof.
  split; [reflexivity|]. split.
  - apply format_rhu_injective. intro H. discriminate H.
  - apply format_rhu_injective. intro H. discriminate H.
Defined.

Lemma rhu_outputs_rows_fold (getattr : Getattr) (rhu_type : string)
    (rows : list RhuRow) (acc : gmap string pyval) :
  rhu_outputs_rows getattr rhu_type None rows acc
  = inr (fold_left
           (fun m row => <[row_column rhu_type row := PyFloat (rhu_rhu row)]> m)
           rows acc).
Proof.
  revert acc. induction rows as [|row rows IH]; intro acc; [reflexivity|].
  cbn [rhu_outputs_rows fold_left]. rewrite format_rhu_finite. apply IH.
Qed.

Lemma rhu_outputs_bounds_fold (rhu_type : string) (pairs : list (Z * Z))
    (acc : gmap string pyval) :
  rhu_outputs_bounds rhu_type None (bounds_of pairs) acc
  = inr (fold_left
           (fun m p => <[column_name rhu_type (fst p) (snd p) := PyNone]> m)
           pairs acc).
Proof.
  revert acc. induction pairs as [|[l h] pairs IH]; intro acc; [reflexivity|].
  cbn [bounds_of List.map rhu_outputs_bounds fold_left fst snd].
  rewrite format_rhu_finite. apply IH.
Qed.

Lemma fold_insert_keys {A} (key : A -> string) (val : A -> pyval)
    (l : list A) (acc : gmap string pyval) (c : string) :
  is_Some (fold_left (fun m a => <[key a := val a]> m) l acc !! c)
  <-> is_Some (acc !! c) \/ exists a, In a l /\ key a = c.
Proof.
  revert acc. induction l as [|a l IH]; intro acc; cbn [fold_left].
  - split; [auto | intros [H|(a & [] & _)]; exact H].
  - rewrite IH. destruct (decide (key a = c)) as [Heq|Hne].
    + split; [intros _ | intros _; left].
      * right. exists a. split; [now left | exact Heq].
      * rewrite <- Heq, lookup_insert_eq. eauto.
    + rewrite lookup_insert_ne by exact Hne. split.
      * intros [H|(b & Hb & Hk)]; [now left|].
        right. exists b. split; [now right | exact Hk].
      * intros [H|(b & [->|Hb] & Hk)]; [now left | congruence |].
        right. exists b. split; assumption.
Qed.

Lemma fold_insert_values {A} (key : A -> string) (val : A -> pyval)
    (l : list A) (acc : gmap string pyval) (c : string) (v : pyval) :
  fold_left (fun m a => <[key a := val a]> m) l acc !! c = Some v ->
  acc !! c = Some v \/ exists a, In a l /\ key a = c /\ val a = v.
Proof.
  revert acc. induction l as [|a l IH]; intro acc; cbn [fold_left];
    [now left|].
  intro H. apply IH in H as [H|(b & Hb & Hk & Hv)].
  - destruct (decide (key a = c)) as [Heq|Hne].
    + rewrite <- Heq, lookup_insert_eq in H. injection H as <-.
      right. exists a. split; [now left | split; [exact Heq | reflexivity]].
    + rewrite lookup_insert_ne in H by exact Hne. now left.
  - right. exists b. split; [now right | split; assumption].
Qed.

(** X10: the formatted outputs have the same columns with and without
    data.  For the frame a binning call returns, [_rhu_outputs] stores the
    [rhu] of every row under the column of the row's own bin; without a
    frame it stores [None] under the columns of the consecutive pairs of
    the same edges; and the two dictionaries have the same keys. *)
Theorem rhu_outputs_columns :
  forall (getattr : Getattr) (rhu_type : string) (self : Thermostat)
         (runtime_temp : RuntimeTemp) (bins : list Z) (cds : CoreDaySet)
         (min_runtime_minutes : option Z) (rows : list RhuRow)
         (warned : list RhuWarning),
    get_resistance_heat_utilization_bins self (Some runtime_temp) bins cds
      min_runtime_minutes = Ok (Some rows, warned) ->
    exists with_data without_data : gmap string pyval,
      _rhu_outputs getattr rhu_type (Some rows)
        (bounds_of (combine bins (tl bins))) None = inr with_data /\
      _rhu_outputs getattr rhu_type None
        (bounds_of (combine bins (tl bins))) None = inr without_data /\
      (forall c, is_Some (with_data !! c) <-> is_Some (without_data !! c)) /\
      (forall row, In row rows ->
         with_data !! row_column rhu_type row = Some (PyFloat (rhu_rhu row))) /\
      (forall c v, without_data !! c = Some v -> v = PyNone).
Proof.
  intros getattr t self rt bins cds mn rows warned Hcall.
  destruct (rhu_bins_rows _ _ _ _ _ _ _ Hcall) as (Hrows & Hbins & _).
  cbv zeta in Hrows, Hbins.
  unfold _rhu_outputs. rewrite rhu_outputs_rows_fold, rhu_outputs_bounds_fold.
  eexists _, _. split; [reflexivity|]. split; [reflexivity|].
  split; [|split].
  - intro c.
    rewrite (fold_insert_keys (row_column t) (fun row => PyFloat (rhu_rhu row))),
      (fold_insert_keys (fun p => column_name t (fst p) (snd p))
         (fun _ => PyNone)).
    rewrite !lookup_empty.
    split; (intros [H|(a & Ha & Hk)]; [now left|right]).
    + exists (left (rhu_bin a), right (rhu_bin a)). split; [|exact Hk].
      assert (Hiv : In (rhu_bin a)
                (List.map (fun p => mkInterval (fst p) (snd p))
                   (combine bins (tl bins))))
        by (rewrite <- Hbins; now apply in_map).
      apply in_map_iff in Hiv as ([l h] & Hp & Hin).
      rewrite <- Hp. exact Hin.
    + exists (rhu_row rt mn (mkInterval (fst a) (snd a))). split; [|exact Hk].
      rewrite Hrows. apply in_map. apply in_map_iff. exists a. auto.
  - intros row Hrow.
    destruct (fold_left _ rows ∅ !! row_column t row) as [v|] eqn:Hv.
    + apply (fold_insert_values (row_column t)
               (fun row => PyFloat (rhu_rhu row))) in Hv
        as [Hv|(row' & Hrow' & Hk & <-)]; [rewrite lookup_empty in Hv; discriminate|].
      apply column_name_inj in Hk as [Hl Hr].
      rewrite Hrows in Hrow, Hrow'.
      apply in_map_iff in Hrow as (iv & <- & _).
      apply in_map_iff in Hrow' as (iv' & <- & _).
      cbn [rhu_row rhu_bin] in Hl, Hr.
      destruct iv, iv'. cbn [left right] in Hl, Hr. now subst.
    + exfalso.
      pose proof (proj2 (fold_insert_keys (row_column t)
                           (fun row => PyFloat (rhu_rhu row)) rows ∅
                           (row_column t row))
                    (or_intror (ex_intro _ row (conj Hrow eq_refl)))) as Hs.
      cbv beta in Hs. rewrite Hv in Hs. destruct Hs as [? Hs].
      discriminate Hs.
  - intros c v Hv.
    apply (fold_insert_values (fun p => column_name t (fst p) (snd p))
             (fun _ => PyNone)) in Hv as [Hv|(_ & _ & _ & <-)];
      [rewrite lookup_empty in Hv; discriminate | reflexivity].
Qed.

Lemma rhu_outputs_columns_witness :
  exists (rows : list RhuRow) (warned : list RhuWarning)
         (with_data without_data : gmap string pyval),
    get_resistance_heat_utilization_bins heat_pump (Some aux_over_heat)
      RESISTANCE_HEAT_USE_BIN jan_2020 None = Ok (Some rows, warned) /\
    _rhu_outputs no_attribute "rhu1" (Some rows)
      (bounds_of RESISTANCE_HEAT_USE_BIN_PAIRS) None = inr with_data /\
    _rhu_outputs no_attribute "rhu1" None
      (bounds_of RESISTANCE_HEAT_USE_BIN_PAIRS) None = inr without_data /\
    with_data !! "rhu1_40F_to_45F" = Some (PyFloat (15 / 35)) /\
    is_Some (without_data !! "rhu1_40F_to_45F").
Proof.
  destruct (get_resistance_heat_utilization_bins heat_pump (Some aux_over_heat)
              RESISTANCE_HEAT_USE_BIN jan_2020 None) as [[[rows|] warned]|e]
    eqn:Hcall; try (vm_compute in Hcall; discriminate Hcall).
  destruct (rhu_outputs_columns no_attribute "rhu1" heat_pump aux_over_heat
              RESISTANCE_HEAT_USE_BIN jan_2020 None rows warned Hcall)
    as (with_data & without_data & Hwith & Hwithout & Hkeys & Hvalues & _).
  exists rows, warned, with_data, without_data.
  split; [reflexivity|]. split; [exact Hwith|]. split; [exact Hwithout|].
  assert (Hrow : In (rhu_row aux_over_heat None (mkInterval 40 45)) rows).
  { vm_compute in Hcall. injection Hcall as <- _. vm_compute. tauto. }
  pose proof (Hvalues _ Hrow) as Hv.
  split; [exact Hv|]. apply Hkeys. eexists. exact Hv.
Defined.

(** X11: with the bins of the module, the columns [_rhu_outputs] writes
    for [rhu1] and [rhu2] -- twelve narrow bins and the wide bin each -- are
    exactly the twenty-six bin columns [thermostat/columns.py] declares in
    [RHU_COLUMNS], and the pairs of the module are the consecutive pairs of
    its bin edges. *)
Theorem rhu_columns_declared :
  forall getattr : Getattr,
    RESISTANCE_HEAT_USE_BIN_PAIRS
    = combine RESISTANCE_HEAT_USE_BIN (tl RESISTANCE_HEAT_USE_BIN) /\
    exists narrow1 wide1 narrow2 wide2 : gmap string pyval,
      _rhu_outputs getattr "rhu1" None
        (bounds_of RESISTANCE_HEAT_USE_BIN_PAIRS) None = inr narrow1 /\
      _rhu_outputs getattr "rhu1" None
        (bounds_of RESISTANCE_HEAT_USE_WIDE_BIN_PAIRS) None = inr wide1 /\
      _rhu_outputs getattr "rhu2" None
        (bounds_of RESISTANCE_HEAT_USE_BIN_PAIRS) None = inr narrow2 /\
      _rhu_outputs getattr "rhu2" None
        (bounds_of RESISTANCE_HEAT_USE_WIDE_BIN_PAIRS) None = inr wide2 /\
      forall c : string,
        In c RHU_COLUMNS_BINS
        <-> is_Some (narrow1 !! c) \/ is_Some (wide1 !! c)
            \/ is_Some (narrow2 !! c) \/ is_Some (wide2 !! c).
Proof.
  intro getattr. split; [reflexivity|].
  unfold _rhu_outputs. rewrite !rhu_outputs_bounds_fold.
  eexists _, _, _, _. repeat (split; [reflexivity|]).
  intro c.
  rewrite !(fold_insert_keys (fun p => column_name _ (fst p) (snd p))
              (fun _ => PyNone)).
  rewrite !lookup_empty.
  change RHU_COLUMNS_BINS
    with (List.map (fun p => column_name "rhu1" (fst p) (snd p))
            RESISTANCE_HEAT_USE_BIN_PAIRS
          ++ List.map (fun p => column_name "rhu1" (fst p) (snd p))
               RESISTANCE_HEAT_USE_WIDE_BIN_PAIRS
          ++ List.map (fun p => column_name "rhu2" (fst p) (snd p))
               RESISTANCE_HEAT_USE_BIN_PAIRS
          ++ List.map (fun p => column_name "rhu2" (fst p) (snd p))
               RESISTANCE_HEAT_USE_WIDE_BIN_PAIRS).
  rewrite !in_app_iff, !in_map_iff.
  assert (Hnone : ~ is_Some (@None pyval)) by (intros [? H]; discriminate H).
  split.
  - intros [(p & Hp & Hin)|[(p & Hp & Hin)|[(p & Hp & Hin)|(p & Hp & Hin)]]];
      [left|right; left|right; right; left|right; right; right];
      right; exists p; auto.
  - intros [[H|(p & Hin & Hp)]|[[H|(p & Hin & Hp)]|[[H|(p & Hin & Hp)]
                                                   |[H|(p & Hin & Hp)]]]];
      try (exfalso; exact (Hnone H));
      [left|right; left|right; right; left|right; right; right];
      exists p; auto.
Qed.

(** ** Baseline demand and runtime *)

Lemma is_nan_SF (x : float) :
  PrimFloat.is_nan x = true <-> Prim2SF x = S754_nan.
Proof.
  unfold PrimFloat.is_nan. rewrite FloatAxioms.eqb_spec. unfold SFeqb.
  destruct (Prim2SF x) as [s|s| |s m e]; simpl.
  - split; discriminate.
  - destruct s; split; discriminate.
  - split; reflexivity.
  - destruct s; rewrite Z.compare_refl;
      change (Pos.compare_cont Eq m m) with (Pos.compare m m);
      rewrite Pos.compare_refl; split; discriminate.
Qed.

Lemma is_nan_sub (a b : float) :
  PrimFloat.is_nan a = true \/ PrimFloat.is_nan b = true ->
  PrimFloat.is_nan (a - b) = true.
Proof.
  rewrite !is_nan_SF, FloatAxioms.sub_spec. unfold SF64sub, SFsub.
  intros [-> | ->]; [reflexivity|]. now destruct (Prim2SF a).
Qed.

Lemma is_nan_mul (a b : float) :
  PrimFloat.is_nan a = true \/ PrimFloat.is_nan b = true ->
  PrimFloat.is_nan (a * b) = true.
Proof.
  rewrite !is_nan_SF, FloatAxioms.mul_spec. unfold SF64mul, SFmul.
  intros [-> | ->]; [reflexivity|]. now destruct (Prim2SF a).
Qed.

Lemma maximum_nan (x : float) :
  PrimFloat.is_nan x = true -> Np.maximum x 0 = x.
Proof. intro H. unfold Np.maximum, Np.isnan. now rewrite H. Qed.

Lemma maximum_zero_nonneg (x : float) :
  Np.isnan (Np.maximum x 0) = true \/ (0 <=? Np.maximum x 0)%float = true.
Proof.
  unfold Np.maximum, Np.isnan.
  destruct (PrimFloat.is_nan x) eqn:Hnan; [now left|].
  change (PrimFloat.is_nan 0) with false. cbv iota.
  destruct (x <? 0)%float eqn:Hlt; [right; reflexivity|].
  right. rewrite FloatAxioms.leb_spec. rewrite FloatAxioms.ltb_spec in Hlt.
  assert (Hn : Prim2SF x <> S754_nan)
    by (intro Hx; apply is_nan_SF in Hx; congruence).
  change (Prim2SF 0) with (S754_zero false) in *.
  unfold SFleb, SFltb in *.
  destruct (Prim2SF x) as [s|s| |s m e]; simpl in *; try reflexivity;
    try congruence; destruct s; simpl in *; congruence.
Qed.

Lemma sum_zeros (l : list float) :
  Forall (fun v => v = 0%float) l -> Np.sum l = 0%float.
Proof.
  intro H. destruct H as [|x l Hx Hl]; [reflexivity|]. subst x.
  cbn [Np.sum]. induction Hl as [|y l Hy _ IH]; [reflexivity|].
  subst y. exact IH.
Qed.

Lemma nansum_all_nan (l : list float) :
  Forall (fun v => Np.isnan v = true) l -> Np.nansum l = 0%float.
Proof.
  intro H. unfold Np.nansum, Np.replace_nan. apply sum_zeros.
  induction H as [|x l Hx _ IH]; simpl; constructor; [|exact IH].
  now rewrite Hx.
Qed.

Lemma groupby_date_groups {A} (P : A -> Prop) (s : HSeries A)
    (g : Date * list A) :
  Forall P (Pd.values s) -> In g (Pd.groupby_date s) -> Forall P (snd g).
Proof.
  intros Hall Hg. unfold Pd.groupby_date in Hg.
  apply in_map_iff in Hg as (d & <- & _). cbn [snd].
  unfold Pd.values in Hall. rewrite List.Forall_forall in *.
  intros x Hx. apply in_map_iff in Hx as (r & <- & Hr).
  apply filter_In in Hr as [Hr _]. apply Hall. now apply in_map.
Qed.

Lemma calc_dd_all_nan (hourly_dd : float -> float -> float)
    (deltaT : HSeries float) (tau : float) :
  (forall r, In r deltaT -> PrimFloat.is_nan (hourly_dd tau (snd r)) = true) ->
  Forall (fun v => v = 0%float) (calc_dd hourly_dd deltaT tau).
Proof.
  intro Hnan. unfold calc_dd. rewrite List.Forall_forall.
  intros v Hv. apply in_map_iff in Hv as (g & <- & Hg).
  rewrite (nansum_all_nan (snd g)); [reflexivity|].
  eapply groupby_date_groups; [|exact Hg].
  unfold Pd.values. rewrite map_map. cbn [snd].
  rewrite List.Forall_forall. intros x Hx.
  apply in_map_iff in Hx as (r & <- & Hr).
  rewrite maximum_nan by now apply Hnan. now apply Hnan.
Qed.

Lemma baseline_demand_all_nan (self : Thermostat)
    (hourly_dd : float -> float -> float) (cds : CoreDaySet) (tau : float)
    (demand : DSeries float) :
  (forall r, In r (temperature_out self) ->
     Pd.selected (hourly cds) (fst r) = true ->
     PrimFloat.is_nan (hourly_dd tau (snd r)) = true) ->
  baseline_demand self hourly_dd cds tau = Ok demand ->
  Forall (fun v => v = 0%float) (Pd.values demand).
Proof.
  intros Hnan H. unfold baseline_demand in H.
  apply rbind_ok in H as (out & Hout & H).
  apply getitem_mask_ok in Hout. subst out.
  apply rbind_ok in H as (dsel & _ & H).
  apply make_checked_index in H as [_ ->].
  apply calc_dd_all_nan. intros r Hr.
  apply filter_In in Hr as [Hr Hsel]. now apply Hnan.
Qed.

(** X12: missing inputs give a demand of zero, not a missing demand.
    When [tau] or the comfort temperature is NaN, or when every outdoor
    temperature the set selects is missing, the baseline demand either
    function returns is 0 on every day: the hourly terms are NaN and the
    daily sum skips them. *)
Theorem baseline_demand_of_missing_inputs :
  forall (self : Thermostat) (cds : CoreDaySet) (temp_baseline tau : float)
         (demand : DSeries float),
    PrimFloat.is_nan tau = true \/ PrimFloat.is_nan temp_baseline = true \/
    (forall r, In r (temperature_out self) ->
       Pd.selected (hourly cds) (fst r) = true ->
       PrimFloat.is_nan (snd r) = true) ->
    get_baseline_cooling_demand self cds temp_baseline tau = Ok demand \/
    get_baseline_heating_demand self cds temp_baseline tau = Ok demand ->
    Forall (fun v => v = 0%float) (Pd.values demand).
Proof.
  intros self cds tb tau demand Hmissing [H|H].
  - unfold get_baseline_cooling_demand in H.
    apply rbind_ok in H as ([] & _ & H).
    eapply baseline_demand_all_nan; [|exact H].
    intros r Hr Hsel. cbv beta. apply is_nan_sub.
    destruct Hmissing as [Ht|[Hb|Ho]]; [now left|right..];
      apply is_nan_sub; [now left | right; now apply Ho].
  - unfold get_baseline_heating_demand in H.
    apply rbind_ok in H as ([] & _ & H).
    eapply baseline_demand_all_nan; [|exact H].
    intros r Hr Hsel. cbv beta.
    destruct Hmissing as [Ht|[Hb|Ho]]; apply is_nan_sub;
      [now right | left; apply is_nan_sub; now left
       | left; apply is_nan_sub; right; now apply Ho].
Qed.

Lemma baseline_demand_of_missing_inputs_witness :
  get_baseline_heating_demand two_days (two_days_set [true; true]) 70 nan
  = Ok zero_demand /\
  Forall (fun v => v = 0%float) (Pd.values zero_demand).
Proof.
  assert (Hcall : get_baseline_heating_demand two_days
                    (two_days_set [true; true]) 70 nan = Ok zero_demand)
    by (vm_compute; reflexivity).
  split; [exact Hcall|].
  apply (baseline_demand_of_missing_inputs two_days
           (two_days_set [true; true]) 70 nan zero_demand);
    [left; reflexivity | right; exact Hcall].
Defined.

(** X13: the baseline runtime is never negative.  Whatever the demand and
    the slope [alpha] are, every value of the series
    [get_baseline_cooling_runtime] or [get_baseline_heating_runtime]
    returns is NaN or at least 0, and the series keeps the days of the
    demand. *)
Theorem baseline_runtime_is_not_negative :
  forall (demand : DSeries float) (alpha : float),
    Pd.index (get_baseline_cooling_runtime demand alpha) = Pd.index demand /\
    Pd.index (get_baseline_heating_runtime demand alpha) = Pd.index demand /\
    Forall (fun v => Np.isnan v = true \/ (0 <=? v)%float = true)
      (Pd.values (get_baseline_cooling_runtime demand alpha)) /\
    Forall (fun v => Np.isnan v = true \/ (0 <=? v)%float = true)
      (Pd.values (get_baseline_heating_runtime demand alpha)).
Proof.
  intros demand alpha.
  unfold get_baseline_cooling_runtime, get_baseline_heating_runtime,
    Pd.index, Pd.values.
  rewrite !map_map. cbn [fst snd].
  repeat split; try reflexivity;
    rewrite List.Forall_forall; intros v Hv;
    apply in_map_iff in Hv as (r & <- & _); apply maximum_zero_nonneg.
Qed.

(** ** Ordinals of dates and the date range of a core day set *)

Lemma days_before_year_succ (y : Z) :
  days_before_year (y + 1)
  = (days_before_year y + 365
     + (if Calendar.is_leap_year y then 1 else 0))%Z.
Proof.
  unfold days_before_year, Calendar.is_leap_year.
  replace (y + 1 - 1)%Z with y by lia.
  destruct (Z.eqb_spec (y mod 4) 0), (Z.eqb_spec (y mod 100) 0),
    (Z.eqb_spec (y mod 400) 0); cbn [negb andb orb];
    Z.div_mod_to_equations; lia.
Qed.

Lemma days_before_year_mono (a b : Z) :
  (a <= b)%Z -> (days_before_year a <= days_before_year b)%Z.
Proof.
  unfold days_before_year. intro H. Z.div_mod_to_equations. lia.
Qed.

Lemma month_cases (m : Z) :
  (1 <= m <= 12)%Z ->
  (m = 1 \/ m = 2 \/ m = 3 \/ m = 4 \/ m = 5 \/ m = 6 \/
   m = 7 \/ m = 8 \/ m = 9 \/ m = 10 \/ m = 11 \/ m = 12)%Z.
Proof. lia. Qed.

Lemma dayofyear_bounds (d : Date) :
  Calendar.valid_date d ->
  (1 <= Calendar.dayofyear d
   <= 365 + (if Calendar.is_leap_year (year d) then 1 else 0))%Z.
Proof.
  destruct d as [y m d]. intros [Hm Hd]. cbn [year month day] in *.
  unfold Calendar.dayofyear, Calendar.days_in_month in *.
  cbn [year month day].
  destruct (Calendar.is_leap_year y);
    destruct (month_cases m Hm)
      as [->|[->|[->|[->|[->|[->|[->|[->|[->|[->|[->| ->]]]]]]]]]]];
    unfold Calendar.days_before_month; simpl in *; lia.
Qed.

Lemma next_day_ordinal (d : Date) :
  Calendar.valid_date d ->
  Calendar.valid_date (Calendar.next_day d) /\
  toordinal (Calendar.next_day d) = (toordinal d + 1)%Z.
Proof.
  destruct d as [y m d]. intros [Hm Hd]. cbn [year month day] in *.
  unfold Calendar.next_day, toordinal, Calendar.valid_date. cbn [year month day].
  destruct (Z.ltb_spec d (Calendar.days_in_month y m)) as [Hlt|Hge].
  - cbn [year month day]. split; [lia|].
    unfold Calendar.dayofyear. cbn [year month day]. lia.
  - assert (Hd' : d = Calendar.days_in_month y m) by lia. subst d.
    destruct (Z.ltb_spec m 12) as [Hm12|Hm12].
    + cbn [year month day].
      unfold Calendar.dayofyear, Calendar.days_in_month in *.
      cbn [year month day].
      destruct (Calendar.is_leap_year y);
        destruct (month_cases m Hm)
          as [->|[->|[->|[->|[->|[->|[->|[->|[->|[->|[->| ->]]]]]]]]]]];
        unfold Calendar.days_before_month; simpl in *; lia.
    + assert (m = 12%Z) by lia. subst m. cbn [year month day].
      rewrite days_before_year_succ.
      unfold Calendar.dayofyear, Calendar.days_in_month.
      cbn [year month day].
      destruct (Calendar.is_leap_year y), (Calendar.is_leap_year (y + 1));
        unfold Calendar.days_before_month; simpl; lia.
Qed.

Lemma toordinal_lt (a b : Date) :
  Calendar.valid_date a -> Calendar.valid_date b ->
  date_lt a b -> (toordinal a < toordinal b)%Z.
Proof.
  intros Ha Hb Hlt.
  pose proof (dayofyear_bounds a Ha) as Hda.
  pose proof (dayofyear_bounds b Hb) as Hdb.
  unfold toordinal.
  destruct Hlt as [Hy|[Hy Hlt]].
  - pose proof (days_before_year_succ (year a)) as Hs.
    pose proof (days_before_year_mono (year a + 1) (year b)) as Hmono. lia.
  - rewrite Hy. apply Z.add_lt_mono_l.
    destruct a as [ya ma da], b as [yb mb db]. cbn [year month day] in *.
    subst yb. destruct Ha as [Hma Hdda], Hb as [Hmb Hddb].
    cbn [year month day] in *.
    unfold Calendar.dayofyear, Calendar.days_in_month in *.
    cbn [year month day].
    destruct Hlt as [Hm|[Hm Hd]]; [|subst mb; lia].
    destruct (Calendar.is_leap_year ya);
      destruct (month_cases ma Hma)
        as [->|[->|[->|[->|[->|[->|[->|[->|[->|[->|[->| ->]]]]]]]]]]];
      destruct (month_cases mb Hmb)
        as [->|[->|[->|[->|[->|[->|[->|[->|[->|[->|[->| ->]]]]]]]]]]];
      unfold Calendar.days_before_month; simpl in *; lia.
Qed.

Lemma date_leb_ordinal (a b : Date) :
  Calendar.valid_date a -> Calendar.valid_date b ->
  Calendar.date_leb a b = true <-> (toordinal a <= toordinal b)%Z.
Proof.
  intros Ha Hb. rewrite date_leb_le. split.
  - intros [Hlt| ->]; [|lia]. pose proof (toordinal_lt a b Ha Hb Hlt). lia.
  - intro Hle.
    destruct (Calendar.date_ltb a b) eqn:Hab; [left; now apply date_ltb_lt|].
    destruct (Calendar.date_ltb b a) eqn:Hba.
    + apply date_ltb_lt in Hba. pose proof (toordinal_lt b a Hb Ha Hba). lia.
    + right.
      assert (Hn1 : ~ date_lt a b) by (intro Hx; apply date_ltb_lt in Hx; congruence).
      assert (Hn2 : ~ date_lt b a) by (intro Hx; apply date_ltb_lt in Hx; congruence).
      destruct a as [ya ma da], b as [yb mb db]. unfold date_lt in *.
      cbn [year month day] in *. f_equal; lia.
Qed.

Lemma toordinal_inj (a b : Date) :
  Calendar.valid_date a -> Calendar.valid_date b ->
  toordinal a = toordinal b -> a = b.
Proof.
  intros Ha Hb Heq.
  assert (H1 : Calendar.date_leb a b = true)
    by (apply date_leb_ordinal; [assumption..|lia]).
  assert (H2 : Calendar.date_leb b a = true)
    by (apply date_leb_ordinal; [assumption..|lia]).
  apply date_leb_le in H1 as [H1|H1]; [|exact H1].
  apply date_leb_le in H2 as [H2| ->]; [|reflexivity].
  pose proof (date_lt_trans _ _ _ H1 H2) as Hx. unfold date_lt in Hx. lia.
Qed.

Lemma days_until_past (fuel : nat) (d last : Date) :
  Calendar.valid_date d -> Calendar.valid_date last ->
  (toordinal last < toordinal d)%Z -> Calendar.days_until fuel d last = [].
Proof.
  intros Hd Hl Hlt. destruct fuel as [|n]; [reflexivity|]. simpl.
  destruct (Calendar.date_leb d last) eqn:Hle; [|reflexivity].
  apply date_leb_ordinal in Hle; [lia | assumption..].
Qed.

Lemma days_until_reaches (fuel : nat) :
  forall d last : Date,
    Calendar.valid_date d -> Calendar.valid_date last ->
    (toordinal d <= toordinal last)%Z ->
    (toordinal last - toordinal d < Z.of_nat fuel)%Z ->
    Z.of_nat (length (Calendar.days_until fuel d last))
    = (toordinal last - toordinal d + 1)%Z /\
    List.last (Calendar.days_until fuel d last) d = last.
Proof.
  induction fuel as [|n IH]; intros d last Hd Hl Hle Hfuel; [lia|].
  cbn [Calendar.days_until].
  replace (Calendar.date_leb d last) with true
    by (symmetry; apply date_leb_ordinal; assumption).
  destruct (next_day_ordinal d Hd) as [Hnv Hno].
  destruct (Z.eq_dec (toordinal d) (toordinal last)) as [Heq|Hne].
  - rewrite days_until_past by (try assumption; lia).
    cbn [length List.last]. split; [lia|].
    now apply toordinal_inj.
  - destruct (IH (Calendar.next_day d) last Hnv Hl) as [Hlen Hlast];
      [lia | lia |].
    cbn [length]. split; [lia|].
    destruct (Calendar.days_until n (Calendar.next_day d) last) as [|x l] eqn:E;
      [simpl in Hlen; lia|].
    cbn [List.last]. rewrite <- Hlast. clear.
    revert x. induction l as [|y l IHl]; intro x; [reflexivity|].
    cbn [List.last]. apply IHl.
Qed.

Lemma days_before_year_span (a b : Z) :
  (a <= b)%Z ->
  (days_before_year b - days_before_year a <= 366 * (b - a))%Z.
Proof.
  unfold days_before_year. intro H. Z.div_mod_to_equations. lia.
Qed.

Lemma date_range_D_reaches (first last : Date) :
  Calendar.valid_date first -> Calendar.valid_date last ->
  Calendar.date_leb first last = true ->
  Z.of_nat (length (Calendar.date_range_D first last))
  = (toordinal last - toordinal first + 1)%Z /\
  List.last (Calendar.date_range_D first last) first = last /\
  nth 0 (Calendar.date_range_D first last) first = first.
Proof.
  intros Hf Hl Hle.
  pose proof (proj1 (date_leb_ordinal first last Hf Hl) Hle) as Hord.
  assert (Hy : (year first <= year last)%Z).
  { apply date_leb_le in Hle as [Hlt| ->]; [|lia]. unfold date_lt in Hlt. lia. }
  pose proof (dayofyear_bounds first Hf) as Hdf.
  pose proof (dayofyear_bounds last Hl) as Hdl.
  pose proof (days_before_year_span _ _ Hy) as Hspan.
  unfold Calendar.date_range_D.
  set (fuel := Z.to_nat ((year last - year first + 1) * 366)).
  assert (Hfuel : (toordinal last - toordinal first < Z.of_nat fuel)%Z).
  { unfold fuel, toordinal in *.
    destruct (Calendar.is_leap_year (year last)); lia. }
  destruct (days_until_reaches fuel first last Hf Hl Hord Hfuel)
    as [Hlen Hlast].
  split; [exact Hlen|]. split; [exact Hlast|].
  destruct fuel as [|n]; [simpl in Hfuel; lia|].
  cbn [Calendar.days_until]. now rewrite Hle.
Qed.

Lemma index_last_map {A B} (f : A -> Date * B) (l : list A) (a : A) :
  l <> [] -> Pd.index_last (List.map f l) = Ok (fst (f (List.last l a))).
Proof.
  intro Hne. unfold Pd.index_last. rewrite <- map_rev.
  destruct l as [|x l] using rev_ind; [congruence|].
  rewrite rev_app_distr, last_last. simpl. now destruct (f x).
Qed.

Lemma resample_spans (runtime : option (HSeries float)) :
  spans_valid_days runtime ->
  exists t0 t1 : Timestamp,
    Pd.index_first (resample_runtime runtime) = Ok (date t0) /\
    Pd.index_last (resample_runtime runtime) = Ok (date t1) /\
    Calendar.valid_date (date t0) /\ Calendar.valid_date (date t1) /\
    Z.of_nat (length (resample_runtime runtime))
    = (toordinal (date t1) - toordinal (date t0) + 1)%Z.
Proof.
  intros (s & t0 & t1 & -> & Hfirst & Hlast & Hv0 & Hv1 & Hle).
  exists t0, t1.
  destruct (date_range_D_reaches _ _ Hv0 Hv1 Hle) as (Hlen & Hend & Hhead).
  pose proof (proj1 (date_leb_ordinal _ _ Hv0 Hv1) Hle) as Hord.
  unfold resample_runtime.
  destruct s as [|[t0' v0] s']; [discriminate|].
  cbn [Pd.empty negb]. cbn in Hfirst. injection Hfirst as ->.
  unfold Pd.resample_D_sum. unfold Pd.index_last in Hlast.
  destruct (rev ((t0, v0) :: s')) as [|[t1' v1] r]; [discriminate|].
  injection Hlast as ->.
  set (days := Calendar.date_range_D (date t0) (date t1)) in *.
  assert (Hne : days <> []) by (intro Hx; rewrite Hx in Hlen; simpl in Hlen; lia).
  split; [|split; [|split; [exact Hv0|split; [exact Hv1|]]]].
  - destruct days as [|d ds]; [congruence|]. cbn in Hhead. now subst d.
  - rewrite (index_last_map _ days (date t0) Hne). cbn [fst]. now rewrite Hend.
  - now rewrite length_map.
Qed.

Lemma init_daily_runtimes E tid ht hst ct cst zc stn tin tout cr hr aux emg
    (self : Thermostat) :
  Thermostat__init__ E tid ht hst ct cst zc stn tin tout cr hr aux emg
  = Ok self ->
  heat_runtime_daily self = resample_runtime hr /\
  cool_runtime_daily self = resample_runtime cr.
Proof.
  unfold Thermostat__init__. intro H.
  apply rbind_ok in H as ([] & _ & H). apply rbind_ok in H as ([] & _ & H).
  injection H as <-. split; reflexivity.
Qed.

Lemma range_of_spanning_series (rd : DSeries float) (meets : DSeries bool)
    (nm : string) (h : HSeries bool) (ds de : Date) (t0 t1 : Timestamp)
    (self : Thermostat) :
  Pd.index_first rd = Ok (date t0) -> Pd.index_last rd = Ok (date t1) ->
  Z.of_nat (length rd) = (toordinal (date t1) - toordinal (date t0) + 1)%Z ->
  Pd.index_first rd = Ok ds -> Pd.index_last rd = Ok de ->
  let cs := mkCoreDaySet nm (Pd.reindex meets (Pd.index rd)) h ds de in
  get_inputfile_date_range self cs = (Z.of_nat (length (daily cs)) - 1)%Z.
Proof.
  intros Hf Hl Hlen Hds Hde cs. rewrite Hf in Hds. rewrite Hl in Hde.
  injection Hds as <-. injection Hde as <-.
  unfold get_inputfile_date_range, cs. cbn [start_date end_date daily].
  unfold Pd.reindex, Pd.index. rewrite !length_map. lia.
Qed.

(** X14: under [entire_dataset] the reported date range is one day short
    of the data.  For a record the constructor built from a runtime series
    that runs from a valid day to a valid later (or the same) day, the core
    day set of [entire_dataset] has one daily-mask row for each day of
    data, and [get_inputfile_date_range] returns that number of days minus
    one. *)
Theorem inputfile_date_range_of_entire_dataset :
  forall E tid ht hst ct cst zc stn tin tout cr hr aux emg
         (self : Thermostat) (mn mx : Z) (sets : list CoreDaySet)
         (cs : CoreDaySet),
    Thermostat__init__ E tid ht hst ct cst zc stn tin tout cr hr aux emg
    = Ok self ->
    In cs sets ->
    (get_core_heating_days self "entire_dataset" mn mx = Ok sets ->
     spans_valid_days hr ->
     get_inputfile_date_range self cs
     = (Z.of_nat (length (daily cs)) - 1)%Z /\
     length (daily cs) = length (heat_runtime_daily self)) /\
    (get_core_cooling_days self "entire_dataset" mn mx = Ok sets ->
     spans_valid_days cr ->
     get_inputfile_date_range self cs
     = (Z.of_nat (length (daily cs)) - 1)%Z /\
     length (daily cs) = length (cool_runtime_daily self)).
Proof.
  intros E tid ht hst ct cst zc stn tin tout cr hr aux emg self mn mx sets cs
    Hinit Hin.
  destruct (init_daily_runtimes _ _ _ _ _ _ _ _ _ _ _ _ _ _ _ Hinit)
    as [Hheat Hcool].
  split; intros Hg Hspan.
  - destruct (resample_spans hr Hspan) as (t0 & t1 & Hf & Hl & _ & _ & Hlen).
    rewrite <- Hheat in Hf, Hl, Hlen.
    destruct (get_core_heating_days_cases _ _ _ _ _ Hg)
      as (_ & ds & de & Hds & Hde & [[Hm _]|(_ & h & _ & ->)]);
      [discriminate|].
    destruct Hin as [<-|[]]. split.
    + exact (range_of_spanning_series _ _ _ _ _ _ _ _ self Hf Hl Hlen Hds Hde).
    + cbn [daily]. unfold Pd.reindex, Pd.index. now rewrite !length_map.
  - destruct (resample_spans cr Hspan) as (t0 & t1 & Hf & Hl & _ & _ & Hlen).
    rewrite <- Hcool in Hf, Hl, Hlen.
    destruct (get_core_cooling_days_cases _ _ _ _ _ Hg)
      as (_ & ds & de & Hds & Hde & [[Hm _]|(_ & h & _ & ->)]);
      [discriminate|].
    destruct Hin as [<-|[]]. split.
    + exact (range_of_spanning_series _ _ _ _ _ _ _ _ self Hf Hl Hlen Hds Hde).
    + cbn [daily]. unfold Pd.reindex, Pd.index. now rewrite !length_map.
Qed.

Lemma three_days_constructed :
  Thermostat__init__ typed_equipment "FAKE" (Some "non_heat_pump") None
    (Some "central") None "FAKE" "FAKE"
    (hourly_series ts_2020_06_30 (repeat 70%float 72))
    (hourly_series ts_2020_06_30 (repeat 50%float 72))
    (Some (hourly_series ts_2020_06_30 (repeat 0%float 72)))
    (Some (hourly_series ts_2020_06_30 (repeat 2%float 72)))
    None None = Ok three_days.
Proof. vm_compute. reflexivity. Qed.

Lemma three_days_all_detected :
  get_core_heating_days three_days "entire_dataset" 30 0 = Ok [three_days_all].
Proof. vm_compute. reflexivity. Qed.

Lemma inputfile_date_range_of_entire_dataset_witness :
  length (heat_runtime_daily three_days) = 3 /\
  get_inputfile_date_range three_days three_days_all = 2%Z /\
  get_inputfile_date_range three_days three_days_all
  = (Z.of_nat (length (daily three_days_all)) - 1)%Z.
Proof.
  split; [vm_compute; reflexivity|]. split; [vm_compute; reflexivity|].
  refine (proj1 (proj1 (inputfile_date_range_of_entire_dataset _ _ _ _ _ _ _ _
                          _ _ _ _ _ _ three_days 30 0 [three_days_all]
                          three_days_all three_days_constructed
                          (or_introl eq_refl))
                   three_days_all_detected _)).
  exists (hourly_series ts_2020_06_30 (repeat 2%float 72)), ts_2020_06_30,
    (mkTimestamp (mkDate 2020 7 2) 23).
  split; [reflexivity|]. split; [reflexivity|].
  split; [vm_compute; reflexivity|].
  split; [repeat split; vm_compute; intro Hc; discriminate Hc|].
  split; [repeat split; vm_compute; intro Hc; discriminate Hc|].
  vm_compute. reflexivity.
Defined.
(** ** Ignored days *)

Lemma lookup_NoDup {A} (s : DSeries A) (r : Date * A) :
  NoDup (Pd.index s) -> In r s -> Pd.lookup s (fst r) = Some (snd r).
Proof.
  induction s as [|[l v] s IH]; intros Hnd Hin; [destruct Hin|].
  cbn [Pd.index List.map fst] in Hnd.
  inversion Hnd as [|? ? Hni Hnd']; subst.
  cbn [Pd.lookup]. destruct Hin as [<-|Hin].
  - cbn [fst snd]. destruct (decide (l = l)); [reflexivity | congruence].
  - destruct (decide (l = fst r)) as [->|Hne].
    + exfalso. apply Hni, list_elem_of_In. now apply in_map.
    + now apply IH.
Qed.

Lemma map_values_of_labels (g : float -> bool) (s : DSeries float) :
  NoDup (Pd.index s) ->
  List.map (fun r => (fst r, g (snd r))) s
  = List.map (fun l => (l, g (daily_runtime_on s l))) (Pd.index s).
Proof.
  intro Hnd. unfold Pd.index. rewrite map_map. apply map_ext_in.
  intros r Hr. cbn [fst]. unfold daily_runtime_on, Pd.lookup_nan.
  now rewrite (lookup_NoDup s r Hnd Hr).
Qed.

Lemma and_broadcast_of_labels (w f : Date -> bool) (idx : list Date) :
  and_broadcast (List.map w idx) (List.map (fun l => (l, f l)) idx)
  = Ok (List.map (fun l => (l, w l && f l)) idx).
Proof.
  unfold and_broadcast. rewrite !length_map, Nat.eqb_refl. f_equal.
  induction idx as [|l idx IH]; [reflexivity|]. simpl. now rewrite IH.
Qed.

Lemma index_of_labels {B} (f : Date -> B) (idx : list Date) :
  Pd.index (List.map (fun l => (l, f l)) idx) = idx.
Proof. unfold Pd.index. rewrite map_map. apply map_id. Qed.

Lemma and_series_of_labels (f g : Date -> bool) (idx : list Date) :
  Pd.and_series (List.map (fun l => (l, f l)) idx)
    (List.map (fun l => (l, g l)) idx)
  = List.map (fun l => (l, f l && g l)) idx.
Proof.
  unfold Pd.and_series. rewrite !index_of_labels.
  destruct (decide (idx = idx)) as [_|Hne]; [|congruence].
  induction idx as [|l idx IH]; [reflexivity|]. simpl. now rewrite IH.
Qed.

Lemma or_series_of_labels (f g : Date -> bool) (idx : list Date) :
  or_series (List.map (fun l => (l, f l)) idx)
    (List.map (fun l => (l, g l)) idx)
  = List.map (fun l => (l, f l || g l)) idx.
Proof.
  unfold or_series. rewrite !index_of_labels.
  destruct (decide (idx = idx)) as [_|Hne]; [|congruence].
  induction idx as [|l idx IH]; [reflexivity|]. simpl. now rewrite IH.
Qed.

Lemma bool_sum_of_labels (f : Date -> bool) (idx : list Date) :
  bool_sum (List.map (fun l => (l, f l)) idx)
  = Z.of_nat (length (List.filter f idx)).
Proof.
  unfold bool_sum. f_equal.
  induction idx as [|l idx IH]; [reflexivity|].
  simpl. destruct (f l); simpl; now rewrite IH.
Qed.

Lemma count_of_map {A} (f : A -> bool) (l : list A) :
  length (List.filter (fun b : bool => b) (List.map f l))
  = length (List.filter f l).
Proof.
  induction l as [|a l IH]; [reflexivity|].
  simpl. destruct (f a); simpl; now rewrite IH.
Qed.

Lemma bool_sum_selected (s : DSeries bool) :
  NoDup (Pd.index s) ->
  bool_sum s = Z.of_nat (length (List.filter (Pd.selected s) (Pd.index s))).
Proof.
  intro Hnd. rewrite <- bool_sum_of_labels. f_equal.
  unfold Pd.index. rewrite map_map.
  rewrite <- (map_id s) at 1. apply map_ext_in.
  intros [l b] Hr. cbn [fst]. unfold Pd.selected.
  pose proof (lookup_NoDup s (l, b) Hnd Hr) as Hl. cbn [fst snd] in Hl.
  rewrite Hl. now destruct b.
Qed.

Lemma count_disjoint {A} (f g h : A -> bool) (l : list A) :
  (forall x, In x l ->
     f x && g x = false /\ f x && h x = false /\ g x && h x = false) ->
  length (List.filter f l) + length (List.filter g l)
  + length (List.filter h l) <= length l.
Proof.
  induction l as [|a l IH]; intro Hd; [simpl; lia|].
  assert (Hl : forall x, In x l ->
            f x && g x = false /\ f x && h x = false /\ g x && h x = false)
    by (intros x Hx; apply Hd; now right).
  specialize (IH Hl). destruct (Hd a (or_introl eq_refl)) as (H1 & H2 & H3).
  simpl. destruct (f a), (g a), (h a); simpl in *; try discriminate; lia.
Qed.

(** With the daily runtimes indexed like the daily mask, the two counts
    are the days of the window on which both modes ran, and those on which
    a daily runtime is missing. *)
Lemma get_ignored_days_counts (self : Thermostat) (cs : CoreDaySet) :
  (has_heating self = true ->
   Pd.index (heat_runtime_daily self) = Pd.index (daily cs)) ->
  (has_cooling self = true ->
   Pd.index (cool_runtime_daily self) = Pd.index (daily cs)) ->
  NoDup (Pd.index (daily cs)) ->
  get_ignored_days self cs
  = Ok (Z.of_nat (length (List.filter (both_modes_on self cs)
                            (Pd.index (daily cs)))),
        Z.of_nat (length (List.filter (runtime_missing_on self cs)
                            (Pd.index (daily cs))))).
Proof.
  intros Hh Hc Hnd. unfold get_ignored_days, gt_zero, isnull.
  rewrite _get_range_boolean_map.
  change (fun d => Calendar.date_leb (start_date cs) d
                   && Calendar.date_ltb d (end_date cs))
    with (in_window cs).
  unfold both_modes_on, runtime_missing_on.
  destruct (has_heating self) eqn:Eh, (has_cooling self) eqn:Ec;
    cbn [andb orb].
  - specialize (Hh eq_refl). specialize (Hc eq_refl).
    rewrite !map_values_of_labels by congruence. rewrite Hh, Hc.
    cbn [vec_and flags_or]. rewrite and_broadcast_of_labels.
    cbn [rbind vec_and]. rewrite and_series_of_labels, or_series_of_labels.
    rewrite and_broadcast_of_labels. cbn [rbind vec_sum].
    rewrite !bool_sum_of_labels. reflexivity.
  - specialize (Hh eq_refl).
    rewrite !map_values_of_labels by congruence. rewrite Hh.
    cbn [vec_and flags_or]. rewrite and_broadcast_of_labels.
    cbn [rbind vec_and]. unfold Pd.and_scalar. rewrite !map_map.
    cbn [fst snd]. rewrite and_broadcast_of_labels. cbn [rbind vec_sum].
    rewrite !bool_sum_of_labels. reflexivity.
  - specialize (Hc eq_refl).
    rewrite !map_values_of_labels by congruence. rewrite Hc.
    cbn [vec_and flags_or rbind]. rewrite !map_map. cbn [fst snd].
    rewrite and_broadcast_of_labels. cbn [rbind vec_and].
    rewrite and_broadcast_of_labels. cbn [rbind vec_sum].
    rewrite !bool_sum_of_labels. reflexivity.
  - cbn [vec_and flags_or rbind vec_sum]. rewrite !map_map.
    rewrite !count_of_map. reflexivity.
Qed.

Lemma leb_not_nan (a b : float) :
  (a <=? b)%float = true -> Np.isnan a = false /\ Np.isnan b = false.
Proof.
  rewrite FloatAxioms.leb_spec. intro H. unfold Np.isnan.
  split; apply not_true_is_false; rewrite is_nan_SF; intro Hn;
    rewrite Hn in H; unfold SFleb, SFcompare in H;
    [discriminate | destruct (Prim2SF a); discriminate].
Qed.

Lemma ltb_not_nan (a b : float) :
  (a <? b)%float = true -> Np.isnan a = false /\ Np.isnan b = false.
Proof.
  rewrite FloatAxioms.ltb_spec. intro H. unfold Np.isnan.
  split; apply not_true_is_false; rewrite is_nan_SF; intro Hn;
    rewrite Hn in H; unfold SFltb, SFcompare in H;
    [discriminate | destruct (Prim2SF a); discriminate].
Qed.

Lemma leb_zero_not_positive (c : float) :
  (c <=? Np.of_Z 0)%float = true -> (0 <? c)%float = false.
Proof.
  change (Np.of_Z 0) with 0%float.
  rewrite FloatAxioms.leb_spec, FloatAxioms.ltb_spec.
  change (Prim2SF 0) with (S754_zero false).
  unfold SFleb, SFltb.
  destruct (Prim2SF c) as [s|s| |s m e]; simpl; try destruct s;
    simpl; intro H; try reflexivity; discriminate H.
Qed.

(** A day on which both modes ran has no missing daily runtime. *)
Lemma both_modes_not_missing (self : Thermostat) (cs : CoreDaySet)
    (d : Date) :
  both_modes_on self cs d && runtime_missing_on self cs d = false.
Proof.
  unfold both_modes_on, runtime_missing_on.
  destruct (in_window cs d); [|reflexivity]. cbn [andb].
  destruct (has_heating self), (has_cooling self); cbn [andb orb];
    try (rewrite ?andb_false_r; reflexivity).
  destruct (0 <? daily_runtime_on (heat_runtime_daily self) d)%float eqn:Hh;
    [|reflexivity].
  destruct (0 <? daily_runtime_on (cool_runtime_daily self) d)%float eqn:Hc;
    [|reflexivity].
  apply ltb_not_nan in Hh as [_ Hh]. apply ltb_not_nan in Hc as [_ Hc].
  now rewrite Hh, Hc.
Qed.

(** A core day passed the thresholds of its detector. *)
Lemma heating_core_day_qualifies (self : Thermostat) (method : string)
    (mn mx : Z) (sets : list CoreDaySet) (cs : CoreDaySet) (d : Date) :
  In cs sets -> get_core_heating_days self method mn mx = Ok sets ->
  shared_index (heat_runtime_daily self) (cool_runtime_daily self)
    (has_cooling self) (temperature_in self) (temperature_out self) ->
  Pd.selected (daily cs) d = true ->
  qualifies (heat_runtime_daily self) (cool_runtime_daily self)
    (has_cooling self) (temperature_in self) (temperature_out self)
    mn mx d = true.
Proof.
  intros Hin Hg Hshared Hs.
  assert (Hd : In d (Pd.index (heat_runtime_daily self))
               /\ Pd.selected (heating_thresholds self mn mx) d = true).
  { destruct (get_core_heating_days_cases _ _ _ _ _ Hg)
      as (_ & ds & de & _ & _ & [[-> Hc]|(-> & h & Hh & ->)]).
    - destruct (collect_In _ _ _ _ Hc Hin) as (y & l & _ & Hp & Hl).
      rewrite (period_core_day_set_selected _ _ _ _ _ _ _ _ _
                 (index_heating_thresholds self mn mx Hshared) Hp Hl) in Hs.
      apply andb_true_iff in Hs as [Hd Hs].
      apply andb_true_iff in Hs as [_ Hs].
      split; [now apply label_in_In | exact Hs].
    - destruct Hin as [<-|[]]. cbn [daily] in Hs.
      rewrite selected_reindex in Hs. apply andb_true_iff in Hs as [Hd Hs].
      split; [now apply label_in_In | exact Hs]. }
  destruct Hd as [Hd Ht].
  now rewrite <- (selected_heating_thresholds self mn mx d Hshared Hd).
Qed.

Lemma cooling_core_day_qualifies (self : Thermostat) (method : string)
    (mn mx : Z) (sets : list CoreDaySet) (cs : CoreDaySet) (d : Date) :
  In cs sets -> get_core_cooling_days self method mn mx = Ok sets ->
  shared_index (cool_runtime_daily self) (heat_runtime_daily self)
    (has_heating self) (temperature_in self) (temperature_out self) ->
  Pd.selected (daily cs) d = true ->
  qualifies (cool_runtime_daily self) (heat_runtime_daily self)
    (has_heating self) (temperature_in self) (temperature_out self)
    mn mx d = true.
Proof.
  intros Hin Hg Hshared Hs.
  assert (Hd : In d (Pd.index (cool_runtime_daily self))
               /\ Pd.selected (cooling_thresholds self mn mx) d = true).
  { destruct (get_core_cooling_days_cases _ _ _ _ _ Hg)
      as (_ & ds & de & _ & _ & [[-> Hc]|(-> & h & Hh & ->)]).
    - destruct (collect_In _ _ _ _ Hc Hin) as (y & l & _ & Hp & Hl).
      rewrite (period_core_day_set_selected _ _ _ _ _ _ _ _ _
                 (index_cooling_thresholds self mn mx Hshared) Hp Hl) in Hs.
      apply andb_true_iff in Hs as [Hd Hs].
      apply andb_true_iff in Hs as [_ Hs].
      split; [now apply label_in_In | exact Hs].
    - destruct Hin as [<-|[]]. cbn [daily] in Hs.
      rewrite selected_reindex in Hs. apply andb_true_iff in Hs as [Hd Hs].
      split; [now apply label_in_In | exact Hs]. }
  destruct Hd as [Hd Ht].
  now rewrite <- (selected_cooling_thresholds self mn mx d Hshared Hd).
Qed.

(** A day that passed the thresholds with no secondary runtime allowed is
    neither a day on which both modes ran nor one with a missing runtime. *)
Lemma qualified_heating_day_not_ignored (self : Thermostat) (cs : CoreDaySet)
    (mn : Z) (d : Date) :
  has_heating self = true ->
  qualifies (heat_runtime_daily self) (cool_runtime_daily self)
    (has_cooling self) (temperature_in self) (temperature_out self)
    mn 0 d = true ->
  both_modes_on self cs d = false /\ runtime_missing_on self cs d = false.
Proof.
  intros Eh Hq. unfold qualifies in Hq.
  apply andb_true_iff in Hq as [Hq _]. apply andb_true_iff in Hq as [Hq _].
  apply andb_true_iff in Hq as [Hp Hsec].
  apply leb_not_nan in Hp as [_ Hp].
  unfold both_modes_on, runtime_missing_on. rewrite Eh, Hp.
  destruct (has_cooling self); cbn [andb orb].
  - pose proof (leb_zero_not_positive _ Hsec) as Hz.
    apply leb_not_nan in Hsec as [Hsec _]. rewrite Hz, Hsec.
    now rewrite !andb_false_r.
  - now rewrite !andb_false_r.
Qed.

Lemma qualified_cooling_day_not_ignored (self : Thermostat) (cs : CoreDaySet)
    (mn : Z) (d : Date) :
  has_cooling self = true ->
  qualifies (cool_runtime_daily self) (heat_runtime_daily self)
    (has_heating self) (temperature_in self) (temperature_out self)
    mn 0 d = true ->
  both_modes_on self cs d = false /\ runtime_missing_on self cs d = false.
Proof.
  intros Ec Hq. unfold qualifies in Hq.
  apply andb_true_iff in Hq as [Hq _]. apply andb_true_iff in Hq as [Hq _].
  apply andb_true_iff in Hq as [Hp Hsec].
  apply leb_not_nan in Hp as [_ Hp].
  unfold both_modes_on, runtime_missing_on. rewrite Ec, Hp.
  destruct (has_heating self); cbn [andb orb].
  - pose proof (leb_zero_not_positive _ Hsec) as Hz.
    apply leb_not_nan in Hsec as [Hsec _]. rewrite Hz, Hsec.
    now rewrite !andb_false_r.
  - now rewrite !andb_false_r.
Qed.

Lemma ignored_days_bound (self : Thermostat) (cs : CoreDaySet) :
  NoDup (Pd.index (daily cs)) ->
  (forall d, Pd.selected (daily cs) d = true ->
     both_modes_on self cs d = false /\ runtime_missing_on self cs d = false) ->
  (Z.of_nat (length (List.filter (both_modes_on self cs)
                       (Pd.index (daily cs))))
   + Z.of_nat (length (List.filter (runtime_missing_on self cs)
                         (Pd.index (daily cs))))
   + get_core_day_set_n_days self cs
   <= Z.of_nat (length (daily cs)))%Z.
Proof.
  intros Hnd Hcore. unfold get_core_day_set_n_days.
  rewrite (bool_sum_selected _ Hnd).
  pose proof (count_disjoint (both_modes_on self cs)
                (runtime_missing_on self cs) (Pd.selected (daily cs))
                (Pd.index (daily cs))) as Hcount.
  assert (Hlen : length (Pd.index (daily cs)) = length (daily cs))
    by apply length_map.
  rewrite Hlen in Hcount.
  enough (length (List.filter (both_modes_on self cs) (Pd.index (daily cs)))
          + length (List.filter (runtime_missing_on self cs)
                      (Pd.index (daily cs)))
          + length (List.filter (Pd.selected (daily cs))
                      (Pd.index (daily cs)))
          <= length (daily cs)) by lia.
  apply Hcount. intros d _.
  split; [apply both_modes_not_missing|].
  destruct (Pd.selected (daily cs) d) eqn:Hs.
  - destruct (Hcore d Hs) as [-> ->]. split; reflexivity.
  - now rewrite !andb_false_r.
Qed.

(** X15: for a core day set detected with no secondary runtime allowed
    (the default), on a record whose series share one index of distinct
    days, [get_ignored_days] returns the number of days of the set's window
    on which both modes ran and the number of days of the window with a
    missing daily runtime; no core day is among either, and no day is
    counted twice, so the two counts and the number of core days add up to
    at most the number of days of data. *)
Theorem ignored_days_are_not_core_days :
  forall (self : Thermostat) (method : string) (mn : Z)
         (sets : list CoreDaySet) (cs : CoreDaySet),
    In cs sets ->
    NoDup (Pd.index (daily cs)) ->
    (get_core_heating_days self method mn 0 = Ok sets /\
     shared_index (heat_runtime_daily self) (cool_runtime_daily self)
       (has_cooling self) (temperature_in self) (temperature_out self)) \/
    (get_core_cooling_days self method mn 0 = Ok sets /\
     shared_index (cool_runtime_daily self) (heat_runtime_daily self)
       (has_heating self) (temperature_in self) (temperature_out self)) ->
    let days := Pd.index (daily cs) in
    let n_both :=
      Z.of_nat (length (List.filter (both_modes_on self cs) days)) in
    let n_days_insufficient :=
      Z.of_nat (length (List.filter (runtime_missing_on self cs) days)) in
    get_ignored_days self cs = Ok (n_both, n_days_insufficient) /\
    (forall d, Pd.selected (daily cs) d = true ->
       both_modes_on self cs d = false /\
       runtime_missing_on self cs d = false) /\
    (n_both + n_days_insufficient + get_core_day_set_n_days self cs
     <= Z.of_nat (length (daily cs)))%Z.
Proof.
  intros self method mn sets cs Hin Hnd Hdet. cbv zeta.
  assert (Hcore : forall d, Pd.selected (daily cs) d = true ->
            both_modes_on self cs d = false /\
            runtime_missing_on self cs d = false).
  { intros d Hs. destruct Hdet as [[Hg Hshared]|[Hg Hshared]].
    - apply (qualified_heating_day_not_ignored self cs mn d).
      + exact (proj1 (get_core_heating_days_cases _ _ _ _ _ Hg)).
      + exact (heating_core_day_qualifies _ _ _ _ _ _ _ Hin Hg Hshared Hs).
    - apply (qualified_cooling_day_not_ignored self cs mn d).
      + exact (proj1 (get_core_cooling_days_cases _ _ _ _ _ Hg)).
      + exact (cooling_core_day_qualifies _ _ _ _ _ _ _ Hin Hg Hshared Hs). }
  split; [|split; [exact Hcore | now apply ignored_days_bound]].
  apply get_ignored_days_counts; [| |exact Hnd].
  - intros Eh. destruct Hdet as [[Hg Hshared]|[Hg Hshared]].
    + symmetry. exact (proj2 (heating_emitted _ _ _ _ _ _ Hg Hin)).
    + rewrite (proj2 (cooling_emitted _ _ _ _ _ _ Hg Hin)).
      exact (proj1 Hshared Eh).
  - intros Ec. destruct Hdet as [[Hg Hshared]|[Hg Hshared]].
    + rewrite (proj2 (heating_emitted _ _ _ _ _ _ Hg Hin)).
      exact (proj1 Hshared Ec).
    + symmetry. exact (proj2 (cooling_emitted _ _ _ _ _ _ Hg Hin)).
Qed.

Lemma mixed_days_all_detected :
  get_core_heating_days mixed_days "entire_dataset" 30 0
  = Ok [mixed_days_all].
Proof. vm_compute. reflexivity. Qed.

Lemma mixed_days_shared_index :
  shared_index (heat_runtime_daily mixed_days) (cool_runtime_daily mixed_days)
    (has_cooling mixed_days) (temperature_in mixed_days)
    (temperature_out mixed_days).
Proof.
  split; [intros _; vm_compute; reflexivity|].
  split; vm_compute; reflexivity.
Qed.

Lemma mixed_days_distinct : NoDup (Pd.index (daily mixed_days_all)).
Proof. apply (bool_decide_unpack _). vm_compute. exact I. Qed.

Lemma ignored_days_are_not_core_days_witness :
  get_ignored_days mixed_days mixed_days_all = Ok (1, 0)%Z /\
  get_core_day_set_n_days mixed_days mixed_days_all = 3%Z /\
  length (daily mixed_days_all) = 4 /\
  Pd.selected (daily mixed_days_all) (mkDate 2020 1 2) = false.
Proof.
  destruct (ignored_days_are_not_core_days mixed_days "entire_dataset" 30
              [mixed_days_all] mixed_days_all (or_introl eq_refl)
              mixed_days_distinct
              (or_introl (conj mixed_days_all_detected
                            mixed_days_shared_index)))
    as (Hcounts & Hcore & Hbound).
  split; [rewrite Hcounts; vm_compute; reflexivity|].
  split; [vm_compute; reflexivity|]. split; [vm_compute; reflexivity|].
  destruct (Pd.selected (daily mixed_days_all) (mkDate 2020 1 2)) eqn:Hs;
    [|reflexivity].
  destruct (Hcore _ Hs) as [Hb _]. vm_compute in Hb. discriminate Hb.
Defined.
(** ** Totals of the auxiliary and emergency runtime *)

Lemma date_range_H_day (d : Date) (m : nat) :
  Calendar.date_range_H (Calendar.midnight d) (24 + m)
  = List.map (mkTimestamp d) hours_of_day
    ++ Calendar.date_range_H (Calendar.midnight (Calendar.next_day d)) m.
Proof. reflexivity. Qed.

Lemma combine_app_same {A B} (a b : list A) (c d : list B) :
  length a = length c ->
  combine (a ++ b) (c ++ d) = combine a c ++ combine b d.
Proof.
  revert c. induction a as [|x a IH]; intros [|y c] Hl; simpl in *;
    try discriminate; [reflexivity|].
  f_equal. apply IH. lia.
Qed.

Lemma each_hour_from (d : Date) (ds : DSeries bool) :
  consecutive_from d (Pd.index ds) ->
  combine (Calendar.date_range_H (Calendar.midnight d) (length ds * 24))
    (np_repeat (Pd.values ds) 24)
  = each_hour ds.
Proof.
  revert d. induction ds as [|[d' b] ds IH]; intros d Hc; [reflexivity|].
  cbn [Pd.index List.map fst] in Hc. destruct Hc as [-> Hc].
  change (length ((d, b) :: ds) * 24) with (24 + length ds * 24).
  rewrite date_range_H_day. unfold np_repeat, each_hour, Pd.values.
  cbn [List.map flat_map fst snd].
  rewrite combine_app_same by reflexivity. f_equal. apply (IH _ Hc).
Qed.

Lemma hourly_boolean_each_hour (ds : DSeries bool) (h : HSeries bool) :
  _get_hourly_boolean ds = Ok h -> daily_frequency (Pd.index ds) ->
  h = each_hour ds.
Proof.
  unfold _get_hourly_boolean. intros Hh Hf.
  apply rbind_ok in Hh as (first & Hfirst & Hh). injection Hh as <-.
  destruct ds as [|[d b] ds]; [discriminate|].
  cbn [Pd.index_first] in Hfirst. injection Hfirst as <-.
  unfold Pd.make. unfold Pd.index at 1. rewrite length_map.
  apply each_hour_from.
  cbn [Pd.index List.map fst consecutive_from daily_frequency] in *.
  split; [reflexivity | exact Hf].
Qed.

Lemma lookup_app {A} (a b : HSeries A) (t : Timestamp) :
  Pd.lookup (a ++ b) t
  = match Pd.lookup a t with Some v => Some v | None => Pd.lookup b t end.
Proof.
  induction a as [|[l v] a IH]; [reflexivity|]. simpl.
  destruct (decide (l = t)); [reflexivity | exact IH].
Qed.

Lemma lookup_day_rows {A} (d : Date) (b : A) (ks : list Z) (t : Timestamp) :
  Pd.lookup (List.map (fun k => (mkTimestamp d k, b)) ks) t
  = if bool_decide (d = date t) && existsb (Z.eqb (hour t)) ks
    then Some b else None.
Proof.
  destruct t as [dt ht]. cbn [date hour].
  induction ks as [|k ks IH]; [now rewrite andb_false_r|].
  cbn [List.map Pd.lookup existsb].
  destruct (decide (mkTimestamp d k = mkTimestamp dt ht)) as [He|Hne].
  - injection He as -> ->. rewrite bool_decide_eq_true_2 by reflexivity.
    now rewrite Z.eqb_refl.
  - rewrite IH. destruct (bool_decide (d = dt)) eqn:Hd; [|reflexivity].
    apply bool_decide_eq_true_1 in Hd. subst dt.
    destruct (Z.eqb_spec ht k) as [->|_]; [congruence | reflexivity].
Qed.

Lemma hour_in_day (t : Timestamp) :
  existsb (Z.eqb (hour t)) hours_of_day = hour_of_day t.
Proof.
  apply eq_true_iff_eq. unfold hour_of_day, hours_of_day.
  rewrite existsb_exists, andb_true_iff, !Z.leb_le. split.
  - intros (k & Hk & He). apply Z.eqb_eq in He.
    apply in_map_iff in Hk as (n & <- & Hn). apply in_seq in Hn. lia.
  - intros [H0 H23]. exists (hour t). split; [|apply Z.eqb_refl].
    apply in_map_iff. exists (Z.to_nat (hour t)).
    split; [lia | apply in_seq; lia].
Qed.

(** Looking an hour up in the repeated mask is looking its day up in the
    daily mask. *)
Lemma lookup_each_hour {A} (ds : DSeries A) (t : Timestamp) :
  Pd.lookup (each_hour ds) t
  = if hour_of_day t then Pd.lookup ds (date t) else None.
Proof.
  induction ds as [|[d b] ds IH]; [now destruct (hour_of_day t)|].
  unfold each_hour in *. cbn [flat_map fst snd].
  rewrite lookup_app, lookup_day_rows, hour_in_day, IH. cbn [Pd.lookup].
  destruct (decide (d = date t)) as [He|Hne].
  - rewrite bool_decide_eq_true_2 by assumption.
    now destruct (hour_of_day t).
  - rewrite bool_decide_eq_false_2 by assumption. reflexivity.
Qed.

Lemma covered_label_in {A} (s : DSeries A) (d : Date) :
  match Pd.lookup s d with Some _ => true | None => false end
  = label_in d (Pd.index s).
Proof.
  unfold label_in. induction s as [|[l v] s IH]; [reflexivity|].
  cbn [Pd.lookup Pd.index List.map existsb fst].
  destruct (decide (l = d)) as [He|Hne].
  - now rewrite bool_decide_eq_true_2.
  - rewrite bool_decide_eq_false_2 by assumption. exact IH.
Qed.

Lemma forallb_pointwise {A} (f g : A -> bool) (l : list A) :
  (forall x, f x = g x) -> forallb f l = forallb g l.
Proof.
  intro H. induction l as [|x l IH]; [reflexivity|]. simpl.
  now rewrite H, IH.
Qed.

(** Indexing an hourly series by the hourly mask of a set whose masks are
    built as the detectors build them. *)
Lemma getitem_each_hour {A} (cs : CoreDaySet) (s : HSeries A) :
  hourly cs = each_hour (daily cs) ->
  Pd.getitem_mask s (hourly cs)
  = if forallb (fun r => on_data_day (Pd.index (daily cs)) (fst r)) s
    then Ok (List.filter (fun r => Pd.selected (daily cs) (date (fst r))) s)
    else Raise IndexingError.
Proof.
  intro Hh. unfold Pd.getitem_mask. rewrite Hh.
  rewrite (forallb_pointwise
             (fun r => Pd.covered (each_hour (daily cs)) (fst r))
             (fun r => on_data_day (Pd.index (daily cs)) (fst r))).
  2:{ intro r. unfold Pd.covered, on_data_day.
      rewrite lookup_each_hour, <- covered_label_in.
      destruct (hour_of_day (fst r)); [|now rewrite andb_false_r].
      now rewrite andb_true_r. }
  destruct (forallb _ s) eqn:Hall; [|reflexivity].
  f_equal. apply List.filter_ext_in. intros r Hr.
  rewrite forallb_forall in Hall. specialize (Hall r Hr).
  unfold on_data_day in Hall. apply andb_true_iff in Hall as [_ Hhour].
  unfold Pd.selected. now rewrite lookup_each_hour, Hhour.
Qed.

Lemma total_hourly_runtime_each_hour (cs : CoreDaySet) (s : HSeries float) :
  hourly cs = each_hour (daily cs) ->
  total_hourly_runtime (Some s) cs = runtime_on_core_days cs s.
Proof.
  intro Hh. unfold total_hourly_runtime, runtime_on_core_days.
  rewrite (getitem_each_hour cs s Hh).
  now destruct (forallb _ s).
Qed.

Lemma detected_each_hour E tid ht hst ct cst zc stn tin tout cr hr aux emg
    (self : Thermostat) (method : string) (mn mx : Z)
    (sets : list CoreDaySet) (cs : CoreDaySet) :
  Thermostat__init__ E tid ht hst ct cst zc stn tin tout cr hr aux emg
  = Ok self ->
  get_core_heating_days self method mn mx = Ok sets \/
  get_core_cooling_days self method mn mx = Ok sets ->
  In cs sets ->
  hourly cs = each_hour (daily cs).
Proof.
  intros Hinit Hdet Hin.
  destruct (init_daily_runtimes _ _ _ _ _ _ _ _ _ _ _ _ _ _ _ Hinit)
    as [Hheat Hcool].
  destruct Hdet as [Hg|Hg].
  - destruct (heating_emitted _ _ _ _ _ _ Hg Hin) as [Hh Hidx].
    apply hourly_boolean_each_hour; [exact Hh|].
    rewrite Hidx, Hheat. apply resample_runtime_daily_frequency.
  - destruct (cooling_emitted _ _ _ _ _ _ Hg Hin) as [Hh Hidx].
    apply hourly_boolean_each_hour; [exact Hh|].
    rewrite Hidx, Hcool. apply resample_runtime_daily_frequency.
Qed.

Lemma init_resistance_runtimes E tid ht hst ct cst zc stn tin tout cr hr
    aux emg (self : Thermostat) :
  Thermostat__init__ E tid ht hst ct cst zc stn tin tout cr hr aux emg
  = Ok self ->
  auxiliary_heat_runtime self = aux /\ emergency_heat_runtime self = emg /\
  (has_auxiliary self && has_emergency self = true ->
   exists a e, aux = Some a /\ emg = Some e).
Proof.
  unfold Thermostat__init__. intro H.
  apply rbind_ok in H as ([] & Hv & H). apply rbind_ok in H as ([] & _ & H).
  injection H as <-.
  cbn [auxiliary_heat_runtime emergency_heat_runtime has_auxiliary
         has_emergency].
  split; [reflexivity|]. split; [reflexivity|]. intro Hcap.
  unfold validate in Hv.
  apply rbind_ok in Hv as ([] & _ & Hv). apply rbind_ok in Hv as ([] & _ & Hv).
  unfold _validate_aux_emerg in Hv.
  cbn [auxiliary_heat_runtime emergency_heat_runtime has_auxiliary
         has_emergency] in Hv.
  rewrite Hcap in Hv. destruct aux as [a|], emg as [e|]; try discriminate.
  eauto.
Qed.

(** X16: the totals of the auxiliary and the emergency runtime over a
    detected core day set.  On a record the constructor built, without both
    capabilities either total raises [ValueError]; with them the two hourly
    series are present, and each total is the NaN-skipping sum of the
    samples that fall on the core days of the set -- or an
    [IndexingError] when a sample lies outside the days of the daily
    mask. *)
Theorem resistance_runtime_totals :
  forall E tid ht hst ct cst zc stn tin tout cr hr aux emg
         (self : Thermostat) (method : string) (mn mx : Z)
         (sets : list CoreDaySet) (cs : CoreDaySet),
    Thermostat__init__ E tid ht hst ct cst zc stn tin tout cr hr aux emg
    = Ok self ->
    get_core_heating_days self method mn mx = Ok sets \/
    get_core_cooling_days self method mn mx = Ok sets ->
    In cs sets ->
    (has_auxiliary self && has_emergency self = false ->
     total_auxiliary_heating_runtime self cs = Raise ValueError /\
     total_emergency_heating_runtime self cs = Raise ValueError) /\
    (has_auxiliary self && has_emergency self = true ->
     exists a e,
       aux = Some a /\ emg = Some e /\
       total_auxiliary_heating_runtime self cs = runtime_on_core_days cs a /\
       total_emergency_heating_runtime self cs = runtime_on_core_days cs e).
Proof.
  intros E tid ht hst ct cst zc stn tin tout cr hr aux emg self method mn mx
    sets cs Hinit Hdet Hin.
  pose proof (detected_each_hour _ _ _ _ _ _ _ _ _ _ _ _ _ _ _ _ _ _ _ _
                Hinit Hdet Hin) as Hh.
  destruct (init_resistance_runtimes _ _ _ _ _ _ _ _ _ _ _ _ _ _ _ Hinit)
    as (Haux & Hemg & Hboth).
  unfold total_auxiliary_heating_runtime, total_emergency_heating_runtime,
    _protect_aux_emerg.
  split; intro Hcap; rewrite Hcap; cbn [negb rbind].
  - split; reflexivity.
  - destruct (Hboth Hcap) as (a & e & -> & ->). exists a, e.
    rewrite Haux, Hemg.
    split; [reflexivity|]. split; [reflexivity|].
    split; now apply total_hourly_runtime_each_hour.
Qed.

Lemma backup_days_constructed :
  Thermostat__init__ backup_equipment "FAKE"
    (Some "heat_pump_electric_backup") None (Some "heat_pump") None
    "FAKE" "FAKE"
    (hourly_series ts_2020_01_01 (repeat 70%float 72))
    (hourly_series ts_2020_01_01 (repeat 50%float 72))
    (Some (hourly_series ts_2020_01_01
             (repeat 0%float 24 ++ repeat 1%float 24 ++ repeat 0%float 24)))
    (Some (hourly_series ts_2020_01_01 (repeat 2%float 72)))
    (Some (hourly_series ts_2020_01_01 (repeat 1%float 72)))
    (Some (hourly_series ts_2020_01_01 (repeat 0.5%float 72)))
  = Ok backup_days.
Proof. vm_compute. reflexivity. Qed.

Lemma backup_days_all_detected :
  get_core_heating_days backup_days "entire_dataset" 30 0
  = Ok [backup_days_all].
Proof. vm_compute. reflexivity. Qed.

Lemma resistance_runtime_totals_witness :
  total_auxiliary_heating_runtime backup_days backup_days_all = Ok 48%float /\
  total_emergency_heating_runtime backup_days backup_days_all = Ok 24%float.
Proof.
  destruct (proj2 (resistance_runtime_totals _ _ _ _ _ _ _ _ _ _ _ _ _ _
                     backup_days "entire_dataset" 30 0 [backup_days_all]
                     backup_days_all backup_days_constructed
                     (or_introl backup_days_all_detected)
                     (or_introl eq_refl))
              eq_refl)
    as (a & e & Ha & He & Haux & Hemg).
  injection Ha as <-. injection He as <-.
  rewrite Haux, Hemg. split; vm_compute; reflexivity.
Defined.
(** ** The baseline demand of a detected core day set *)

Lemma date_trichotomy (a b : Date) :
  Calendar.date_ltb a b = false -> a <> b -> date_lt b a.
Proof.
  intros Hlt Hne.
  assert (Hn : ~ date_lt a b)
    by (intro Hx; apply date_ltb_lt in Hx; congruence).
  destruct a as [ya ma da], b as [yb mb db]. unfold date_lt in *.
  cbn [year month day] in *.
  assert (~ (ya = yb /\ ma = mb /\ da = db))
    by (intros (-> & -> & ->); congruence).
  lia.
Qed.

Lemma insert_ascending (x : Date) (l : list Date) :
  ascending l -> ascending (Pd.insert_label x l).
Proof.
  induction l as [|y l IH]; intro Hl.
  - simpl. split; [constructor | exact I].
  - destruct Hl as [Hy Hl]. cbn [Pd.insert_label].
    destruct (decide (x = y)) as [->|Hne]; [split; assumption|].
    destruct (label_ltb x y) eqn:Hlt.
    + apply date_ltb_lt in Hlt. split; [|split; assumption].
      constructor; [exact Hlt|].
      eapply List.Forall_impl; [|exact Hy].
      intros z Hz. eapply date_lt_trans; eassumption.
    + split; [|now apply IH].
      rewrite List.Forall_forall. intros z Hz.
      apply In_insert_label in Hz as [->|Hz].
      * now apply date_trichotomy.
      * rewrite List.Forall_forall in Hy. now apply Hy.
Qed.

Lemma sorted_dates_ascending (l : list Date) :
  ascending (Pd.sorted_dates l).
Proof.
  unfold Pd.sorted_dates, Pd.sorted_labels.
  induction l as [|x l IH]; [exact I|]. simpl. now apply insert_ascending.
Qed.

Lemma ascending_filter (P : Date -> bool) (l : list Date) :
  ascending l -> ascending (List.filter P l).
Proof.
  induction l as [|x l IH]; intro Hl; [exact I|].
  destruct Hl as [Hx Hl]. simpl. destruct (P x); [|now apply IH].
  split; [|now apply IH].
  rewrite List.Forall_forall in *. intros z Hz.
  apply filter_In in Hz as [Hz _]. now apply Hx.
Qed.

(** Two ascending lists of the same days are the same list. *)
Lemma ascending_ext (a b : list Date) :
  ascending a -> ascending b -> (forall x, In x a <-> In x b) -> a = b.
Proof.
  revert b. induction a as [|x a IH]; intros [|y b] Ha Hb Hin.
  - reflexivity.
  - exfalso. apply (Hin y). now left.
  - exfalso. apply (Hin x). now left.
  - destruct Ha as [Hx Ha], Hb as [Hy Hb].
    rewrite List.Forall_forall in Hx, Hy.
    assert (Hxy : x = y).
    { destruct (proj1 (Hin x) (or_introl eq_refl)) as [He|Hxb];
        [now symmetry|].
      destruct (proj2 (Hin y) (or_introl eq_refl)) as [He|Hya];
        [assumption|].
      specialize (Hx y Hya). specialize (Hy x Hxb).
      exfalso. unfold date_lt in *. lia. }
    subst y. f_equal. apply (IH b Ha Hb). intro z. split; intro Hz.
    + destruct (proj1 (Hin z) (or_intror Hz)) as [He|Hzb]; [|assumption].
      subst z. specialize (Hx x Hz). exfalso. unfold date_lt in Hx. lia.
    + destruct (proj2 (Hin z) (or_intror Hz)) as [He|Hza]; [|assumption].
      subst z. specialize (Hy x Hz). exfalso. unfold date_lt in Hy. lia.
Qed.

Lemma map_filter_comm {A B} (f : A -> B) (P : B -> bool) (l : list A) :
  List.map f (List.filter (fun a => P (f a)) l)
  = List.filter P (List.map f l).
Proof.
  induction l as [|a l IH]; [reflexivity|]. simpl.
  destruct (P (f a)); simpl; now rewrite IH.
Qed.

Lemma sorted_dates_filter (P : Date -> bool) (l : list Date) :
  Pd.sorted_dates (List.filter P l) = List.filter P (Pd.sorted_dates l).
Proof.
  apply ascending_ext.
  - apply sorted_dates_ascending.
  - apply ascending_filter, sorted_dates_ascending.
  - intro x. unfold Pd.sorted_dates.
    rewrite In_sorted_labels, !filter_In, In_sorted_labels. reflexivity.
Qed.

(** The rows of a day among the rows of the selected days. *)
Lemma filter_on_selected_date {A} (P : Date -> bool) (d : Date)
    (s : HSeries A) :
  P d = true ->
  List.filter (Pd.on_date d) (List.filter (fun r => P (date (fst r))) s)
  = List.filter (Pd.on_date d) s.
Proof.
  intro Hd. induction s as [|r s IH]; [reflexivity|]. simpl.
  destruct (Pd.on_date d r) eqn:Hon.
  - unfold Pd.on_date in Hon. apply bool_decide_eq_true_1 in Hon.
    rewrite Hon, Hd. simpl. unfold Pd.on_date at 1.
    rewrite bool_decide_eq_true_2 by assumption. now rewrite IH.
  - destruct (P (date (fst r))); simpl; [rewrite Hon|]; exact IH.
Qed.

Lemma values_on_date_map (g : float -> float) (d : Date)
    (s : HSeries float) :
  List.map snd
    (List.filter (Pd.on_date d) (List.map (fun r => (fst r, g (snd r))) s))
  = List.map (fun r => g (snd r)) (List.filter (Pd.on_date d) s).
Proof.
  induction s as [|r s IH]; [reflexivity|]. cbn [List.map List.filter].
  change (Pd.on_date d (fst r, g (snd r))) with (Pd.on_date d r).
  destruct (Pd.on_date d r); cbn [List.map snd]; now rewrite IH.
Qed.

(** The daily demand of the outdoor temperatures of the selected days. *)
Lemma calc_dd_of_selected (hourly_dd : float -> float -> float)
    (P : Date -> bool) (temperature : HSeries float) (tau : float) :
  calc_dd hourly_dd
    (List.filter (fun r => P (date (fst r))) temperature) tau
  = List.map (baseline_demand_on hourly_dd temperature tau)
      (List.filter P (days_of temperature)).
Proof.
  unfold calc_dd, Pd.groupby_date, days_of.
  rewrite !map_map. cbn [fst snd].
  rewrite (map_filter_comm (fun r : Timestamp * float => date (fst r)) P).
  rewrite sorted_dates_filter. apply map_ext_in. intros d Hd.
  apply filter_In in Hd as [_ Hd]. unfold baseline_demand_on. do 2 f_equal.
  rewrite <- (filter_on_selected_date P d temperature Hd).
  apply (values_on_date_map (fun v => Np.maximum (hourly_dd tau v) 0)).
Qed.

Lemma combine_map_same {A B C} (f : A -> B) (g : A -> C) (l : list A) :
  combine (List.map f l) (List.map g l) = List.map (fun a => (f a, g a)) l.
Proof. induction l as [|a l IH]; [reflexivity|]. simpl. now rewrite IH. Qed.

(** The common body of the two baseline demands, on a set whose masks are
    built as the detectors build them and whose days are the days of the
    outdoor temperature. *)
Lemma baseline_demand_of_core_days (self : Thermostat)
    (hourly_dd : float -> float -> float) (cs : CoreDaySet) (tau : float) :
  hourly cs = each_hour (daily cs) ->
  days_of (temperature_out self) = Pd.index (daily cs) ->
  Forall (fun r => hour_of_day (fst r) = true) (temperature_out self) ->
  baseline_demand self hourly_dd cs tau
  = Ok (List.map
          (fun d => (d, baseline_demand_on hourly_dd (temperature_out self)
                          tau d))
          (core_days cs)).
Proof.
  intros Hh Hdays Hhours. unfold baseline_demand.
  rewrite (getitem_each_hour cs (temperature_out self) Hh).
  replace (forallb _ (temperature_out self)) with true.
  2:{ symmetry. apply forallb_forall. intros r Hr. unfold on_data_day.
      rewrite List.Forall_forall in Hhours. rewrite (Hhours r Hr).
      rewrite andb_true_r. apply label_in_In. rewrite <- Hdays.
      unfold days_of, Pd.sorted_dates. apply In_sorted_labels.
      apply in_map_iff. exists r. split; [reflexivity | exact Hr]. }
  cbn [rbind].
  rewrite (getitem_mask_covers _ _
             (mask_covers_same_index (daily cs) (daily cs) eq_refl)).
  cbn [rbind].
  rewrite (calc_dd_of_selected hourly_dd (Pd.selected (daily cs))).
  rewrite Hdays. unfold Pd.index at 1.
  rewrite (map_filter_comm fst (Pd.selected (daily cs)) (daily cs)).
  fold (Pd.index (daily cs)). fold (core_days cs).
  unfold Pd.make_checked. rewrite !length_map, Nat.eqb_refl.
  unfold Pd.make. f_equal.
  rewrite <- (map_id (core_days cs)) at 1. apply combine_map_same.
Qed.

(** X17: the baseline demand of a detected core day set.  On a record the
    constructor built, whose series share one index and whose outdoor
    temperature has its samples at the hours 0 to 23, the baseline demand
    is defined for every comfort temperature and every [tau]: it has one
    row per core day of the set, in order, holding the day's hourly degree
    measure floored at zero, summed, over 24. *)
Theorem baseline_demand_of_detected_set :
  forall E tid ht hst ct cst zc stn tin tout cr hr aux emg
         (self : Thermostat) (method : string) (mn mx : Z)
         (sets : list CoreDaySet) (cs : CoreDaySet)
         (temp_baseline tau : float),
    Thermostat__init__ E tid ht hst ct cst zc stn tin tout cr hr aux emg
    = Ok self ->
    In cs sets ->
    Forall (fun r => hour_of_day (fst r) = true) (temperature_out self) ->
    (get_core_heating_days self method mn mx = Ok sets ->
     shared_index (heat_runtime_daily self) (cool_runtime_daily self)
       (has_cooling self) (temperature_in self) (temperature_out self) ->
     get_baseline_heating_demand self cs temp_baseline tau
     = Ok (List.map
             (fun d =>
                (d, baseline_demand_on
                      (fun tau temp_out =>
                         (temp_baseline - temp_out - tau)%float)
                      (temperature_out self) tau d))
             (core_days cs))) /\
    (get_core_cooling_days self method mn mx = Ok sets ->
     shared_index (cool_runtime_daily self) (heat_runtime_daily self)
       (has_heating self) (temperature_in self) (temperature_out self) ->
     get_baseline_cooling_demand self cs temp_baseline tau
     = Ok (List.map
             (fun d =>
                (d, baseline_demand_on
                      (fun tau temp_out =>
                         (tau - (temp_baseline - temp_out))%float)
                      (temperature_out self) tau d))
             (core_days cs))).
Proof.
  intros E tid ht hst ct cst zc stn tin tout cr hr aux emg self method mn mx
    sets cs tb tau Hinit Hin Hhours.
  split; intros Hg (_ & _ & Hout).
  - pose proof (detected_each_hour _ _ _ _ _ _ _ _ _ _ _ _ _ _ _ _ _ _ _ _
                  Hinit (or_introl Hg) Hin) as Hh.
    destruct (heating_emitted _ _ _ _ _ _ Hg Hin) as [_ Hidx].
    unfold get_baseline_heating_demand, _protect_heating.
    rewrite (proj1 (get_core_heating_days_cases _ _ _ _ _ Hg)).
    cbn [negb rbind]. apply baseline_demand_of_core_days; try assumption.
    congruence.
  - pose proof (detected_each_hour _ _ _ _ _ _ _ _ _ _ _ _ _ _ _ _ _ _ _ _
                  Hinit (or_intror Hg) Hin) as Hh.
    destruct (cooling_emitted _ _ _ _ _ _ Hg Hin) as [_ Hidx].
    unfold get_baseline_cooling_demand, _protect_cooling.
    rewrite (proj1 (get_core_cooling_days_cases _ _ _ _ _ Hg)).
    cbn [negb rbind]. apply baseline_demand_of_core_days; try assumption.
    congruence.
Qed.

Lemma mixed_days_constructed :
  Thermostat__init__ typed_equipment "FAKE" (Some "non_heat_pump") None
    (Some "central") None "FAKE" "FAKE"
    (hourly_series ts_2020_01_01 (repeat 70%float 96))
    (hourly_series ts_2020_01_01 (repeat 50%float 96))
    (Some (hourly_series ts_2020_01_01
             (repeat 0%float 24 ++ repeat 1%float 24 ++ repeat 0%float 48)))
    (Some (hourly_series ts_2020_01_01 (repeat 2%float 96)))
    None None
  = Ok mixed_days.
Proof. vm_compute. reflexivity. Qed.

Lemma mixed_days_hours :
  Forall (fun r => hour_of_day (fst r) = true) (temperature_out mixed_days).
Proof.
  apply List.Forall_forall. apply forallb_forall. vm_compute. reflexivity.
Qed.

Lemma baseline_demand_of_detected_set_witness :
  get_baseline_heating_demand mixed_days mixed_days_all 70 5
  = Ok [(mkDate 2020 1 1, 15%float); (mkDate 2020 1 3, 15%float);
        (mkDate 2020 1 4, 15%float)].
Proof.
  rewrite (proj1 (baseline_demand_of_detected_set _ _ _ _ _ _ _ _ _ _ _ _ _ _
                    mixed_days "entire_dataset" 30 0 [mixed_days_all]
                    mixed_days_all 70 5 mixed_days_constructed
                    (or_introl eq_refl) mixed_days_hours)
             mixed_days_all_detected mixed_days_shared_index).
  vm_compute. reflexivity.
Defined.
(** ** Avoided runtime: the baseline and the observed runtime are aligned *)

Lemma sub_series_aligned (a b : DSeries float) :
  Pd.index a = Pd.index b ->
  Pd.sub_series a b
  = combine (Pd.index a) (avoided (Pd.values a) (Pd.values b)).
Proof.
  intro He. unfold Pd.sub_series.
  destruct (decide (Pd.index a = Pd.index b)) as [_|Hne]; [|congruence].
  unfold avoided, Pd.index, Pd.values in *.
  revert b He. induction a as [|ra a IH]; intros [|rb b] He;
    try discriminate; [reflexivity|].
  simpl in *. injection He as Hr He. f_equal. now apply IH.
Qed.

Lemma observed_on_core_days (runtime_daily : DSeries float)
    (cs : CoreDaySet) :
  Pd.index (daily cs) = Pd.index runtime_daily ->
  exists observed,
    Pd.getitem_mask runtime_daily (daily cs) = Ok observed /\
    Pd.index observed = core_days cs.
Proof.
  intro Hidx. eexists. split.
  - apply getitem_mask_covers. now apply mask_covers_same_index.
  - unfold core_days. rewrite Hidx. unfold Pd.index.
    apply (map_filter_comm fst (Pd.selected (daily cs))).
Qed.

Lemma index_baseline_runtime (demand : DSeries float) (alpha : float) :
  Pd.index (get_baseline_heating_runtime demand alpha) = Pd.index demand /\
  Pd.index (get_baseline_cooling_runtime demand alpha) = Pd.index demand.
Proof.
  unfold get_baseline_heating_runtime, get_baseline_cooling_runtime, Pd.index.
  rewrite !map_map. split; reflexivity.
Qed.

(** X18: in the savings computation the baseline runtime and the observed
    daily runtime of a detected core day set are aligned.  On a record the
    constructor built, whose series share one index and whose outdoor
    temperature has its samples at the hours 0 to 23, the baseline demand
    and the observed runtime [runtime_daily[core_day_set.daily]] are both
    defined, the baseline runtime and the observed runtime are both
    labelled by the core days, and [avoided] subtracts them day by day,
    without any missing value from a misaligned label. *)
Theorem avoided_runtime_is_aligned :
  forall E tid ht hst ct cst zc stn tin tout cr hr aux emg
         (self : Thermostat) (method : string) (mn mx : Z)
         (sets : list CoreDaySet) (cs : CoreDaySet)
         (temp_baseline tau alpha : float),
    Thermostat__init__ E tid ht hst ct cst zc stn tin tout cr hr aux emg
    = Ok self ->
    In cs sets ->
    Forall (fun r => hour_of_day (fst r) = true) (temperature_out self) ->
    (get_core_heating_days self method mn mx = Ok sets ->
     shared_index (heat_runtime_daily self) (cool_runtime_daily self)
       (has_cooling self) (temperature_in self) (temperature_out self) ->
     exists demand observed,
       get_baseline_heating_demand self cs temp_baseline tau = Ok demand /\
       Pd.getitem_mask (heat_runtime_daily self) (daily cs) = Ok observed /\
       Pd.index (get_baseline_heating_runtime demand alpha) = core_days cs /\
       Pd.index observed = core_days cs /\
       Pd.sub_series (get_baseline_heating_runtime demand alpha) observed
       = combine (core_days cs)
           (avoided (Pd.values (get_baseline_heating_runtime demand alpha))
              (Pd.values observed))) /\
    (get_core_cooling_days self method mn mx = Ok sets ->
     shared_index (cool_runtime_daily self) (heat_runtime_daily self)
       (has_heating self) (temperature_in self) (temperature_out self) ->
     exists demand observed,
       get_baseline_cooling_demand self cs temp_baseline tau = Ok demand /\
       Pd.getitem_mask (cool_runtime_daily self) (daily cs) = Ok observed /\
       Pd.index (get_baseline_cooling_runtime demand alpha) = core_days cs /\
       Pd.index observed = core_days cs /\
       Pd.sub_series (get_baseline_cooling_runtime demand alpha) observed
       = combine (core_days cs)
           (avoided (Pd.values (get_baseline_cooling_runtime demand alpha))
              (Pd.values observed))).
Proof.
  intros E tid ht hst ct cst zc stn tin tout cr hr aux emg self method mn mx
    sets cs tb tau alpha Hinit Hin Hhours.
  split; intros Hg (_ & _ & Hout).
  - pose proof (detected_each_hour _ _ _ _ _ _ _ _ _ _ _ _ _ _ _ _ _ _ _ _
                  Hinit (or_introl Hg) Hin) as Hh.
    destruct (heating_emitted _ _ _ _ _ _ Hg Hin) as [_ Hidx].
    destruct (observed_on_core_days _ cs Hidx) as (observed & Hobs & Hoi).
    eexists. exists observed.
    split.
    { unfold get_baseline_heating_demand, _protect_heating.
      rewrite (proj1 (get_core_heating_days_cases _ _ _ _ _ Hg)).
      cbn [negb rbind]. apply baseline_demand_of_core_days; try assumption.
      congruence. }
    split; [exact Hobs|].
    assert (Hbi : Pd.index
                    (get_baseline_heating_runtime
                       (List.map
                          (fun d =>
                             (d, baseline_demand_on
                                   (fun tau temp_out =>
                                      (tb - temp_out - tau)%float)
                                   (temperature_out self) tau d))
                          (core_days cs)) alpha)
                  = core_days cs).
    { rewrite (proj1 (index_baseline_runtime _ alpha)).
      apply index_of_labels. }
    split; [exact Hbi|]. split; [exact Hoi|].
    rewrite sub_series_aligned by congruence. now rewrite Hbi.
  - pose proof (detected_each_hour _ _ _ _ _ _ _ _ _ _ _ _ _ _ _ _ _ _ _ _
                  Hinit (or_intror Hg) Hin) as Hh.
    destruct (cooling_emitted _ _ _ _ _ _ Hg Hin) as [_ Hidx].
    destruct (observed_on_core_days _ cs Hidx) as (observed & Hobs & Hoi).
    eexists. exists observed.
    split.
    { unfold get_baseline_cooling_demand, _protect_cooling.
      rewrite (proj1 (get_core_cooling_days_cases _ _ _ _ _ Hg)).
      cbn [negb rbind]. apply baseline_demand_of_core_days; try assumption.
      congruence. }
    split; [exact Hobs|].
    assert (Hbi : Pd.index
                    (get_baseline_cooling_runtime
                       (List.map
                          (fun d =>
                             (d, baseline_demand_on
                                   (fun tau temp_out =>
                                      (tau - (tb - temp_out))%float)
                                   (temperature_out self) tau d))
                          (core_days cs)) alpha)
                  = core_days cs).
    { rewrite (proj2 (index_baseline_runtime _ alpha)).
      apply index_of_labels. }
    split; [exact Hbi|]. split; [exact Hoi|].
    rewrite sub_series_aligned by congruence. now rewrite Hbi.
Qed.

Lemma avoided_runtime_is_aligned_witness :
  exists demand observed,
    get_baseline_heating_demand mixed_days mixed_days_all 70 5 = Ok demand /\
    Pd.getitem_mask (heat_runtime_daily mixed_days) (daily mixed_days_all)
    = Ok observed /\
    Pd.sub_series (get_baseline_heating_runtime demand 4) observed
    = [(mkDate 2020 1 1, 12%float); (mkDate 2020 1 3, 12%float);
       (mkDate 2020 1 4, 12%float)].
Proof.
  destruct (proj1 (avoided_runtime_is_aligned _ _ _ _ _ _ _ _ _ _ _ _ _ _
                     mixed_days "entire_dataset" 30 0 [mixed_days_all]
                     mixed_days_all 70 5 4 mixed_days_constructed
                     (or_introl eq_refl) mixed_days_hours)
              mixed_days_all_detected mixed_days_shared_index)
    as (demand & observed & Hd & Ho & _ & _ & _).
  exists demand, observed. split; [exact Hd|]. split; [exact Ho|].
  assert (Hdv : Ok demand
                = Ok [(mkDate 2020 1 1, 15%float); (mkDate 2020 1 3, 15%float);
                      (mkDate 2020 1 4, 15%float)])
    by (rewrite <- Hd; vm_compute; reflexivity).
  assert (Hov : Ok observed
                = Ok [(mkDate 2020 1 1, 48%float); (mkDate 2020 1 3, 48%float);
                      (mkDate 2020 1 4, 48%float)])
    by (rewrite <- Ho; vm_compute; reflexivity).
  injection Hdv as ->. injection Hov as ->. vm_compute. reflexivity.
Defined.
